(** * User and role administration service: model and verified properties

    The service layer of the repository consists of two modules,
    [roleService] (one operation, [getAllRoles]) and [userService]
    ([createUser], [getAllUsers], [getUserByUsername], [getUserById],
    [updateUser], [softDeleteUser], [verifyUser]).  Both talk to a document
    store through an object-document mapper.

    The development has four layers:
    - JavaScript values as they reach the service (JSON bodies and query
      strings), with truthiness, [String], [parseInt] and the helper [toInt];
    - stored documents and the two collections;
    - the mapper and the store: casting, querying, sorting, windowing,
      unique indexes, updates;
    - the service operations themselves, written after the source.

    Integer numbers are the integers [Z]: they coincide with JavaScript
    numbers on the safe integers (up to [max_safe], 2^53 - 1), which is
    where page numbers, limits and document counts live; beyond them
    [parseInt] rounds and [String] switches notation, and the statements
    that depend on the value of a number say that it is a safe one
    ([safe_paging]).  Strings are the sequences of their UTF-8 bytes; case
    folding is the ASCII one. *)

From Stdlib Require Import ZArith Lia List Ascii String.
From Stdlib Require Import Sorting.Permutation Sorting.Sorted.
From stdpp Require Import base option list strings gmap pretty.

Local Open Scope string_scope.
Local Open Scope Z_scope.

(** ** JavaScript values *)

Module Js.

(** The values a request can carry (query strings and JSON bodies), and
    the object ids the mapper hands to the program (written as their
    hexadecimal string).  [VNum] is an integer number, one of the safe
    integers, of which [String] writes every digit; [VFloat] is any other
    number except [NaN] (one with a fractional part, one too large to be
    exact, an infinity), given by the string that [String] makes of it. *)
#[warnings="-register-all"] Inductive jsval : Type :=
  | VUndefined
  | VNull
  | VBool (b : bool)
  | VNum (n : Z)
  | VFloat (repr : string)
  | VNaN
  | VStr (s : string)
  | VId (o : string)
  | VArr (items : list jsval)
  | VObj (entries : list (string * jsval)).

#[export] Instance jsval_eq_dec : EqDecision jsval.
Proof.
  refine (fix go (x y : jsval) {struct x} : Decision (x = y) :=
    let _ : EqDecision jsval := go in
    match x, y with
    | VUndefined, VUndefined | VNull, VNull | VNaN, VNaN => left _
    | VBool a, VBool b => cast_if (decide (a = b))
    | VNum a, VNum b => cast_if (decide (a = b))
    | VFloat a, VFloat b => cast_if (decide (a = b))
    | VStr a, VStr b => cast_if (decide (a = b))
    | VId a, VId b => cast_if (decide (a = b))
    | VArr a, VArr b => cast_if (decide (a = b))
    | VObj a, VObj b => cast_if (decide (a = b))
    | _, _ => right _
    end); congruence.
Defined.

(** [ToBoolean]: what [if (v)], [!v] and [a || b] look at. *)
Definition truthy (v : jsval) : bool :=
  match v with
  | VUndefined | VNull | VNaN => false
  | VBool b => b
  | VNum n => negb (n =? 0)
  | VStr s => negb (String.eqb s "")
  | VFloat _ | VId _ | VArr _ | VObj _ => true
  end.

(** [a || b] yields [a] when it is truthy and [b] otherwise. *)
Definition js_or (a b : jsval) : jsval := if truthy a then a else b.

(** [typeof v === 'boolean']. *)
Definition is_boolean (v : jsval) : bool :=
  match v with VBool _ => true | _ => false end.

(** [String(v)]: an array is the comma-separated list of its elements,
    with nothing for null and undefined; a plain object is
    ["[object Object]"]. *)
Fixpoint ToString (v : jsval) : string :=
  match v with
  | VUndefined => "undefined"
  | VNull => "null"
  | VBool true => "true"
  | VBool false => "false"
  | VNum n => pretty n
  | VFloat repr => repr
  | VNaN => "NaN"
  | VStr s => s
  | VId o => o
  | VArr items =>
      (fix join (l : list jsval) : string :=
         match l with
         | [] => ""
         | x :: l' =>
             (match x with VUndefined | VNull => "" | _ => ToString x end) +:+
             (match l' with [] => "" | _ => "," +:+ join l' end)
         end) items
  | VObj _ => "[object Object]"
  end.

(** White space, skipped by [parseInt] and removed by [trim]: the ASCII
    characters tab, line feed, vertical tab, form feed, carriage return and
    space, and the other white space and line terminators of the language
    (U+00A0, U+1680, U+2000 to U+200A, U+2028, U+2029, U+202F, U+205F, U+3000
    and U+FEFF), each in its UTF-8 encoding. *)
Definition is_space (c : ascii) : bool :=
  let n := nat_of_ascii c in
  ((9 <=? n) && (n <=? 13))%nat || (n =? 32)%nat.

(** The rest of [s] after the white-space character at its head, if there
    is one. *)
Definition space_at (s : string) : option string :=
  match s with
  | EmptyString => None
  | String c s1 =>
      let n := nat_of_ascii c in
      if is_space c then Some s1
      else if (n =? 194)%nat then
        match s1 with
        | String c2 s2 => if (nat_of_ascii c2 =? 160)%nat then Some s2 else None
        | EmptyString => None
        end
      else if ((n =? 225) || (n =? 226) || (n =? 227) || (n =? 239))%nat then
        match s1 with
        | String c2 (String c3 s3) =>
            let n2 := nat_of_ascii c2 in
            let n3 := nat_of_ascii c3 in
            if ((n =? 225) && (n2 =? 154) && (n3 =? 128)
                || (n =? 226) && (n2 =? 128) &&
                   ((128 <=? n3) && (n3 <=? 138) || (n3 =? 168) || (n3 =? 169) || (n3 =? 175))
                || (n =? 226) && (n2 =? 129) && (n3 =? 159)
                || (n =? 227) && (n2 =? 128) && (n3 =? 128)
                || (n =? 239) && (n2 =? 187) && (n3 =? 191))%nat
            then Some s3 else None
        | _ => None
        end
      else None
  end.

Definition digit_of (c : ascii) : option Z :=
  let n := nat_of_ascii c in
  if ((48 <=? n) && (n <=? 57))%nat then Some (Z.of_nat n - 48) else None.

Fixpoint skip_spaces (fuel : nat) (s : string) : string :=
  match fuel with
  | O => s
  | S fuel' =>
      match space_at s with
      | Some s' => skip_spaces fuel' s'
      | None => s
      end
  end.

(** [s] without the white space at its start. *)
Definition skip_space (s : string) : string := skip_spaces (String.length s) s.

(** Reads the longest prefix of decimal digits into the accumulator; the
    boolean tells whether at least one digit was read. *)
Fixpoint read_digits (s : string) (seen : bool) (acc : Z) : option Z :=
  match s with
  | String c s' =>
      match digit_of c with
      | Some d => read_digits s' true (10 * acc + d)
      | None => if seen then Some acc else None
      end
  | EmptyString => if seen then Some acc else None
  end.

(** [parseInt(s, 10)] on a string: leading white space, an optional sign,
    then digits; [None] stands for [NaN]. *)
Definition parseInt_string (s : string) : option Z :=
  match skip_space s with
  | String "-" s' => Z.opp <$> read_digits s' false 0
  | String "+" s' => read_digits s' false 0
  | s' => read_digits s' false 0
  end.

(** [parseInt(v, 10)]: the argument is first turned into a string. *)
Definition parseInt (v : jsval) : option Z := parseInt_string (ToString v).

(** [s] without the white space at its end: a byte is kept as long as
    something other than white space follows or starts there. *)
Fixpoint trim_end (s : string) : string :=
  match s with
  | String c s' =>
      match skip_space s with
      | EmptyString => EmptyString
      | _ => String c (trim_end s')
      end
  | EmptyString => EmptyString
  end.

(** [String.prototype.trim]. *)

Definition trim (s : string) : string := trim_end (skip_space s).

End Js.
Export Js.

(** The helper shared by both services:
    [const n = parseInt(v, 10); return Number.isNaN(n) || n <= 0 ? def : n] *)
Definition toInt (v : jsval) (def : Z) : Z :=
  match parseInt v with
  | None => def
  | Some n => if n <=? 0 then def else n
  end.

(** ** Documents and collections *)

(** Values held by stored documents.  Object ids are written as their
    hexadecimal string, dates as milliseconds. *)
Inductive field : Type :=
  | FNull
  | FBool (b : bool)
  | FStr (s : string)
  | FId (o : string)
  | FDate (t : Z).

#[export] Instance field_eq_dec : EqDecision field.
Proof. solve_decision. Defined.

(** A document maps field names to values; an absent key is an absent
    field. *)
Abbreviation doc := (gmap string field).

(** Modelled from the spec: the two schemas (models/User.js and
    models/Role.js are not among the sources).  A role has [_id], [name],
    [isDelete], [createdAt]; a user has [_id], [username], [password],
    [email], [fullName], [avatarUrl], [role], [status], [isDelete],
    [createdAt]; [username] and [email] carry a unique index each. *)
Record store : Type := mkStore {
  users : list doc;
  roles : list doc
}.

Definition unique_paths : list string := ["username"; "email"].

(** What a plain object handed back to the caller holds under a key: a
    stored value, or a populated sub-document. *)
Inductive rval : Type :=
  | RField (f : field)
  | RObj (o : doc).

Abbreviation leanobj := (gmap string rval).

(** ** Errors *)

Inductive store_error : Type :=
  | DuplicateKey (keyPattern : option (list string))
  | CastError (path : string)
  | FilterError (path : string)
  | RegexError (pattern : string).

(** Errors built by the service carry [status] and [message]; errors of the
    store travel unchanged. *)
Inductive error : Type :=
  | HttpError (status : Z) (message : string)
  | StoreError (e : store_error).

Inductive outcome (A : Type) : Type :=
  | Ok (a : A)
  | Throw (e : error).
Arguments Ok {A} a.
Arguments Throw {A} e.

#[export] Instance outcome_ret : MRet outcome := fun A a => Ok a.
#[export] Instance outcome_bind : MBind outcome := fun A B k m =>
  match m with
  | Ok a => k a
  | Throw e => Throw e
  end.

(** [err.code === 11000] *)
Definition err_code_11000 (e : error) : option (option (list string)) :=
  match e with
  | StoreError (DuplicateKey kp) => Some kp
  | _ => None
  end.

(** ** The mapper *)

(** The parts of the object-document mapper, of the store's pattern engine
    and of the hashing library that the services call.  [cast path v] is
    the schema's conversion of a value written to or compared with [path]
    ([None]: the value cannot be cast); [cast_query path v] is what the
    filter [{path: v}] selects when [v] is an array or an object of query
    operators such as [$ne] or [$in], as a test on the stored value, null
    when absent ([None]: the mapper rejects the condition); [regex_i p]
    compiles the pattern [p] with option [i] into an unanchored search
    ([None]: the store rejects the pattern). *)
Class Odm : Type := mkOdm {
  isValidObjectId : jsval -> bool;
  castObjectId : jsval -> option string;
  cast : string -> jsval -> option field;
  cast_query : string -> jsval -> option (field -> bool);
  regex_i : string -> option (string -> bool);
  bcrypt_hash : string -> Z -> string
}.

(** A filter value is read as query operators, not as a value to compare
    with, when it is an array (an implicit [$in]) or an object one of whose
    keys starts with [$]. *)
Definition is_operator (k : string) : bool :=
  match k with
  | String "$" _ => true
  | _ => false
  end.

Definition is_query (v : jsval) : bool :=
  match v with
  | VArr _ => true
  | VObj entries => existsb (fun e : string * jsval => is_operator (fst e)) entries
  | _ => false
  end.

(** ASCII case folding and plain substring search. *)
Definition lower (c : ascii) : ascii :=
  let n := nat_of_ascii c in
  if ((65 <=? n) && (n <=? 90))%nat then ascii_of_nat (n + 32) else c.

Fixpoint lower_string (s : string) : string :=
  match s with
  | String c s' => String (lower c) (lower_string s')
  | EmptyString => EmptyString
  end.

Fixpoint is_prefix (p s : string) : bool :=
  match p, s with
  | EmptyString, _ => true
  | String a p', String b s' => Ascii.eqb a b && is_prefix p' s'
  | String _ _, EmptyString => false
  end.

Fixpoint is_substring (p s : string) : bool :=
  is_prefix p s ||
  match s with
  | String _ s' => is_substring p s'
  | EmptyString => false
  end.

(** [p] occurs in [s] when letter case is ignored. *)
Definition ci_substring (p s : string) : bool :=
  is_substring (lower_string p) (lower_string s).

(** Characters with a special meaning in a pattern. *)
Definition is_meta (c : ascii) : bool :=
  existsb (Ascii.eqb c)
    ["\"; "^"; "$"; "."; "|"; "?"; "*"; "+"; "("; ")"; "["; "]"; "{"; "}"]%char.

Fixpoint no_meta (p : string) : bool :=
  match p with
  | String c p' => negb (is_meta c) && no_meta p'
  | EmptyString => true
  end.

(** ** The store *)

(** A filter as the service writes it, before the mapper has cast it:
    [{path: v}] and [{path: {$regex: p, $options: 'i'}}]. *)
Inductive rawcond : Type :=
  | QEq (path : string) (v : jsval)
  | QRegex (path : string) (pattern : string).

(** A filter as the store evaluates it. *)
Inductive cond : Type :=
  | CEq (path : string) (v : field)
  | CTest (path : string) (m : field -> bool)
  | CRegex (path : string) (m : string -> bool).

(** An absent field reads as null. *)
Definition get (d : doc) (path : string) : field := default FNull (d !! path).

Definition matches_cond (d : doc) (c : cond) : bool :=
  match c with
  | CEq p v => bool_decide (get d p = v)
  | CTest p m => m (get d p)
  | CRegex p m => match d !! p with Some (FStr s) => m s | _ => false end
  end.

Definition matches (q : list cond) (d : doc) : bool := forallb (matches_cond d) q.

(** [Model.find(q)]: the matching documents, in the order they were
    inserted. *)
Definition find (q : list cond) (coll : list doc) : list doc :=
  List.filter (matches q) coll.

(** [Model.countDocuments(q)] *)
Definition countDocuments (q : list cond) (coll : list doc) : Z :=
  Z.of_nat (length (find q coll)).

(** Ordering by [createdAt]; a document without the field sorts as the
    oldest. *)
Definition createdAt (d : doc) : option Z :=
  match d !! "createdAt" with
  | Some (FDate t) => Some t
  | _ => None
  end.

Definition not_older (a b : doc) : bool :=
  match createdAt a, createdAt b with
  | Some x, Some y => y <=? x
  | Some _, None => true
  | None, Some _ => false
  | None, None => true
  end.

(** [.sort({ createdAt: -1 })]: newest first; documents with equal dates
    keep their insertion order. *)
Fixpoint insert_desc (d : doc) (l : list doc) : list doc :=
  match l with
  | [] => [d]
  | e :: l' => if not_older d e then d :: e :: l' else e :: insert_desc d l'
  end.

Definition sort_createdAt_desc (l : list doc) : list doc := foldr insert_desc [] l.

(** [.skip(n)] and [.limit(n)]; a limit of zero means no limit. *)
Definition skip {A : Type} (n : Z) (l : list A) : list A := drop (Z.to_nat n) l.
Definition limit {A : Type} (n : Z) (l : list A) : list A :=
  if n =? 0 then l else take (Z.to_nat n) l.

(** [Math.ceil(a / b)] for a positive divisor. *)
Definition ceil_div (a b : Z) : Z := - ((- a) / b).

(** The first document satisfying [P], with what precedes and follows it. *)
Fixpoint split_first (P : doc -> bool) (l : list doc) : option (list doc * doc * list doc) :=
  match l with
  | [] => None
  | d :: l' =>
      if P d then Some ([], d, l')
      else '(pre, x, post) ← split_first P l'; Some (d :: pre, x, post)
  end.

Definition has_id (o : string) (d : doc) : bool := bool_decide (d !! "_id" = Some (FId o)).

(** The unique indexes: the first indexed path on which [d] agrees with
    one of [others]. *)
Definition dup_key (paths : list string) (others : list doc) (d : doc) : option string :=
  List.find (fun k => existsb (fun e => bool_decide (get e k = get d k)) others) paths.

(** [doc.toObject()] and [.lean()]: the document as a plain object. *)
Definition toObject (d : doc) : leanobj := RField <$> d.

(** [_id] of a document, as a value of the program. *)
Definition doc_id (d : doc) : jsval :=
  match d !! "_id" with
  | Some (FId o) => VId o
  | _ => VUndefined
  end.

(** Modelled from the spec: the defaults of the user schema
    (models/User.js is not among the sources): [fullName] and [avatarUrl]
    empty, [status] and [isDelete] false, [createdAt] the creation time;
    the store supplies [_id]. *)
Definition user_defaults (oid : string) (now : Z) : doc :=
  {[ "_id" := FId oid; "fullName" := FStr ""; "avatarUrl" := FStr "";
     "status" := FBool false; "isDelete" := FBool false;
     "createdAt" := FDate now ]}.

Section Store.
Context {O : Odm}.

(** The mapper casts every condition; the store compiles the patterns.  A
    value that is not a query is compared, once cast, with the stored
    one. *)
Definition compile_cond (c : rawcond) : outcome cond :=
  match c with
  | QEq p v =>
      if is_query v then
        match cast_query p v with
        | Some m => Ok (CTest p m)
        | None => Throw (StoreError (FilterError p))
        end
      else
        match cast p v with
        | Some f => Ok (CEq p f)
        | None => Throw (StoreError (CastError p))
        end
  | QRegex p pat =>
      match regex_i pat with
      | Some m => Ok (CRegex p m)
      | None => Throw (StoreError (RegexError pat))
      end
  end.

Fixpoint compile_query (q : list rawcond) : outcome (list cond) :=
  match q with
  | [] => Ok []
  | c :: q' => c' ← compile_cond c; r ← compile_query q'; Ok (c' :: r)
  end.

(** The values of an update or of a new document, cast path by path along
    the schema; keys outside the schema and undefined values are dropped. *)
Fixpoint cast_fields (paths : list string) (set : gmap string jsval) : outcome doc :=
  match paths with
  | [] => Ok ∅
  | k :: paths' =>
      match set !! k with
      | None | Some VUndefined => cast_fields paths' set
      | Some v =>
          match cast k v with
          | Some f => r ← cast_fields paths' set; Ok (<[k := f]> r)
          | None => Throw (StoreError (CastError k))
          end
      end
  end.

Definition user_paths : list string :=
  ["username"; "password"; "email"; "fullName"; "avatarUrl"; "role"; "status";
   "isDelete"; "createdAt"].

(** [Model.findById(id)] *)
Definition findById (id : jsval) (coll : list doc) : outcome (option doc) :=
  match castObjectId id with
  | Some o => Ok (List.find (has_id o) coll)
  | None => Throw (StoreError (CastError "_id"))
  end.

(** [Model.findOne(q)] *)
Definition findOne (q : list rawcond) (coll : list doc) : outcome (option doc) :=
  q' ← compile_query q; Ok (head (find q' coll)).

(** [User.create(fields)]: schema defaults, a fresh id and the creation
    time are filled in, the unique indexes are checked, the document is
    appended. *)
Definition User_create (oid : string) (now : Z) (fields : gmap string jsval)
    (coll : list doc) : outcome (doc * list doc) :=
  given ← cast_fields user_paths fields;
  let d := given ∪ user_defaults oid now in
  match dup_key unique_paths coll d with
  | Some k => Throw (StoreError (DuplicateKey (Some [k])))
  | None => Ok (d, (coll ++ [d])%list)
  end.

(** The write half of [findByIdAndUpdate] and [findOneAndUpdate] with
    [{ $set: set }] and [{ new: true }]: the first document selected by [P]
    receives the cast values; a unique index is checked on the paths whose
    value changes. *)
Definition update_first (P : doc -> bool) (set : doc) (coll : list doc)
    : outcome (option doc * list doc) :=
  match split_first P coll with
  | None => Ok (None, coll)
  | Some (pre, d, post) =>
      let d' := set ∪ d in
      let changed := List.filter (fun k => negb (bool_decide (get d' k = get d k))) unique_paths in
      match dup_key changed (pre ++ post)%list d' with
      | Some k => Throw (StoreError (DuplicateKey (Some [k])))
      | None => Ok (Some d', (pre ++ d' :: post)%list)
      end
  end.

Definition findByIdAndUpdate (id : jsval) (set : gmap string jsval) (coll : list doc)
    : outcome (option doc * list doc) :=
  match castObjectId id with
  | None => Throw (StoreError (CastError "_id"))
  | Some o => set' ← cast_fields user_paths set; update_first (has_id o) set' coll
  end.

Definition findOneAndUpdate (q : list rawcond) (set : gmap string jsval) (coll : list doc)
    : outcome (option doc * list doc) :=
  q' ← compile_query q;
  set' ← cast_fields user_paths set;
  update_first (matches q') set' coll.

(** [.populate('role', 'name')] followed by [.lean()]: the reference is
    replaced by the role's [_id] and [name], or by null when no such role
    is stored. *)
Definition populate_role_name (rs : list doc) (d : doc) : leanobj :=
  match d !! "role" with
  | Some (FId r) =>
      match List.find (has_id r) rs with
      | Some rd => <["role" := RObj (filter (fun kv => kv.1 = "_id" \/ kv.1 = "name") rd)]> (toObject d)
      | None => <["role" := RField FNull]> (toObject d)
      end
  | _ => toObject d
  end.

End Store.

(** ** The services *)

(** What [getAllRoles] and [getAllUsers] resolve to: a plain array, or the
    object [{ items, total, page, limit, pages }]. *)
Inductive listing : Type :=
  | Plain (items : list leanobj)
  | Envelope (items : list leanobj) (total page limit pages : Z).

Definition items_of (r : listing) : list leanobj :=
  match r with
  | Plain items => items
  | Envelope items _ _ _ _ => items
  end.

(** A property of a request object; absent properties read as undefined. *)
Definition prop (o : gmap string jsval) (k : string) : jsval := default VUndefined (o !! k).

(** A destructuring default, [{ k = def }]. *)
Definition or_default (v def : jsval) : jsval :=
  match v with
  | VUndefined => def
  | _ => v
  end.

(** [Object.keys(err.keyPattern || {})[0] || 'field'] *)
Definition dupField (keyPattern : option (list string)) : string :=
  match keyPattern with
  | Some (k :: _) => if String.eqb k "" then "field" else k
  | _ => "field"
  end.

(** The handler shared by [createUser] and [updateUser]:
    a duplicate-key error becomes a 409, anything else is thrown again. *)
Definition catch_duplicate {A : Type} (m : outcome A) : outcome A :=
  match m with
  | Ok a => Ok a
  | Throw err =>
      match err_code_11000 err with
      | Some keyPattern => Throw (HttpError 409 (dupField keyPattern ++ " must be unique"))
      | None => Throw err
      end
  end.

Definition allowed : list string :=
  ["fullName"; "avatarUrl"; "status"; "role"; "email"; "username"; "password"].

(** [for (const k of allowed) if (updates[k] !== undefined) toSet[k] = updates[k]] *)
Fixpoint pick (ks : list string) (updates : gmap string jsval) : gmap string jsval :=
  match ks with
  | [] => ∅
  | k :: ks' =>
      match prop updates k with
      | VUndefined => pick ks' updates
      | v => <[k := v]> (pick ks' updates)
      end
  end.

Section Services.
Context {O : Odm}.

(** *** roleService *)

(** [const query = {}; if (!includeDeleted || includeDeleted === 'false')
    query.isDelete = false; if (name) query.name = { $regex: String(name),
    $options: 'i' }] *)
Definition roles_query (name includeDeleted : jsval) : list rawcond :=
  let query : list rawcond := [] in
  let query :=
    if negb (truthy includeDeleted) || bool_decide (includeDeleted = VStr "false")
    then (query ++ [QEq "isDelete" (VBool false)])%list else query in
  let query :=
    if truthy name then (query ++ [QRegex "name" (ToString name)])%list else query in
  query.

Definition getAllRoles (name includeDeleted page limit_ : jsval) (s : store)
    : outcome listing :=
  let query := roles_query name includeDeleted in
  let hasPaging := js_or page limit_ in
  if truthy hasPaging then
    let p := toInt page 1 in
    let l := toInt limit_ 10 in
    q ← compile_query query;
    let items := toObject <$> limit l (skip ((p - 1) * l) (sort_createdAt_desc (find q (roles s)))) in
    let total := countDocuments q (roles s) in
    Ok (Envelope items total p l (ceil_div total l))
  else
    q ← compile_query query;
    Ok (Plain (toObject <$> sort_createdAt_desc (find q (roles s)))).

(** *** userService *)

(** The role check shared by [createUser] and [updateUser]. *)
Definition check_role (role : jsval) (s : store) : outcome jsval :=
  if negb (isValidObjectId role) then Throw (HttpError 400 "Invalid role id")
  else
    roleDoc ← findById role (roles s);
    match roleDoc with
    | None => Throw (HttpError 404 "Role not found")
    | Some rd => Ok (doc_id rd)
    end.

(** The document handed to [User.create]. *)
Definition new_user_fields (payload : gmap string jsval) (roleId : jsval)
    : gmap string jsval :=
  let username := prop payload "username" in
  let password := prop payload "password" in
  let email := prop payload "email" in
  let fullName := or_default (prop payload "fullName") (VStr "") in
  let avatarUrl := or_default (prop payload "avatarUrl") (VStr "") in
  let status := prop payload "status" in
  let hashed := bcrypt_hash (ToString password) 10 in
  {[ "username" := VStr (trim (ToString username));
     "password" := VStr hashed;
     "email" := VStr (trim (ToString email));
     "fullName" := fullName;
     "avatarUrl" := avatarUrl;
     "role" := roleId;
     "status" := if is_boolean status then status else VBool false ]}.

(** [oid] and [now] are the id and the time the store gives the new
    document. *)
Definition createUser (oid : string) (now : Z) (payload : gmap string jsval) (s : store)
    : outcome (leanobj * store) :=
  let username := prop payload "username" in
  let password := prop payload "password" in
  let email := prop payload "email" in
  let role := prop payload "role" in
  if negb (truthy username) || negb (truthy password) || negb (truthy email) then
    Throw (HttpError 400 "username, password, and email are required")
  else
    roleId ← (if truthy role then check_role role s else Ok VUndefined);
    catch_duplicate (
      '(doc, us) ← User_create oid now (new_user_fields payload roleId) (users s);
      let obj := toObject doc in
      let obj := delete "password" obj in
      Ok (obj, mkStore us (roles s))).

(** [const query = { isDelete: false }; if (username) query.username = ...;
    if (fullName) query.fullName = ...] *)
Definition users_query (username fullName : jsval) : list rawcond :=
  let query : list rawcond := [QEq "isDelete" (VBool false)] in
  let query :=
    if truthy username then (query ++ [QRegex "username" (ToString username)])%list else query in
  let query :=
    if truthy fullName then (query ++ [QRegex "fullName" (ToString fullName)])%list else query in
  query.

(** What a caller receives for a stored user: role resolved, password
    removed. *)
Definition user_view (s : store) (d : doc) : leanobj :=
  delete "password" (populate_role_name (roles s) d).

Definition getAllUsers (page limit_ username fullName : jsval) (s : store)
    : outcome listing :=
  let query := users_query username fullName in
  let hasPaging := js_or page limit_ in
  if truthy hasPaging then
    let p := toInt page 1 in
    let l := toInt limit_ 10 in
    q ← compile_query query;
    let items :=
      populate_role_name (roles s) <$>
        limit l (skip ((p - 1) * l) (sort_createdAt_desc (find q (users s)))) in
    let total := countDocuments q (users s) in
    let items := delete "password" <$> items in
    Ok (Envelope items total p l (ceil_div total l))
  else
    q ← compile_query query;
    let list := populate_role_name (roles s) <$> sort_createdAt_desc (find q (users s)) in
    let list := delete "password" <$> list in
    Ok (Plain list).

(** [if (doc) delete doc.password; return doc] *)
Definition strip (doc : option leanobj) : option leanobj := delete "password" <$> doc.

Definition getUserByUsername (username : jsval) (s : store) : outcome (option leanobj) :=
  if negb (truthy username) then Ok None
  else
    doc ← findOne [QEq "username" username; QEq "isDelete" (VBool false)] (users s);
    Ok (strip (populate_role_name (roles s) <$> doc)).

Definition getUserById (id : jsval) (s : store) : outcome (option leanobj) :=
  if negb (isValidObjectId id) then Ok None
  else
    doc ← findById id (users s);
    Ok (strip (populate_role_name (roles s) <$> doc)).

(** The middle of [updateUser], on the [toSet] object: a role, when given,
    is checked and replaced by the stored id; a password, when given, is
    hashed. *)
Definition validate_set (toSet : gmap string jsval) (s : store)
    : outcome (gmap string jsval) :=
  toSet ← (if truthy (prop toSet "role") then
             roleId ← check_role (prop toSet "role") s;
             Ok (<["role" := roleId]> toSet)
           else Ok toSet);
  Ok (if truthy (prop toSet "password")
      then <["password" := VStr (bcrypt_hash (ToString (prop toSet "password")) 10)]> toSet
      else toSet).

(** The [$set] document of [updateUser]: the allowed fields that are
    present, then the checks above. *)
Definition prepare_update (updates : gmap string jsval) (s : store)
    : outcome (gmap string jsval) :=
  validate_set (pick allowed updates) s.

Definition updateUser (id : jsval) (updates : gmap string jsval) (s : store)
    : outcome (option leanobj * store) :=
  if negb (isValidObjectId id) then Ok (None, s)
  else
    toSet ← prepare_update updates s;
    catch_duplicate (
      '(doc, us) ← findByIdAndUpdate id toSet (users s);
      let s' := mkStore us (roles s) in
      Ok (strip (populate_role_name (roles s') <$> doc), s')).

Definition softDeleteUser (id : jsval) (s : store) : outcome (option leanobj * store) :=
  if negb (isValidObjectId id) then Ok (None, s)
  else
    '(doc, us) ← findByIdAndUpdate id {[ "isDelete" := VBool true ]} (users s);
    let s' := mkStore us (roles s) in
    Ok (strip (populate_role_name (roles s') <$> doc), s').

Definition verifyUser (email username : jsval) (s : store) : outcome (option leanobj * store) :=
  if negb (truthy email) || negb (truthy username) then Ok (None, s)
  else
    '(doc, us) ← findOneAndUpdate
        [QEq "email" email; QEq "username" username; QEq "isDelete" (VBool false)]
        {[ "status" := VBool true ]} (users s);
    let s' := mkStore us (roles s) in
    Ok (strip (populate_role_name (roles s') <$> doc), s').

End Services.

(** ** Well-formed collections *)

(** The [_id] of each document, in collection order.  The store keeps them
    pairwise distinct. *)
Definition ids (coll : list doc) : list (option field) :=
  (fun d : doc => d !! "_id") <$> coll.

(** The hexadecimal rendering of a stored id, as it appears in a URL, is
    accepted by the mapper and cast back to the same id. *)
Definition valid_id {O : Odm} (o : string) : Prop :=
  isValidObjectId (VStr o) = true /\ castObjectId (VStr o) = Some o.

(** ** A concrete mapper

    One instance of [Odm] on which the services can be run.  It follows the
    mapper's documented conversions; of the query operators it knows [$eq],
    [$ne], [$in] and [$nin], and it rejects a condition that uses another
    one; its pattern engine covers literal characters and the dot, and
    rejects everything else. *)

Module Mongoose.

Definition is_hex (c : ascii) : bool :=
  let n := nat_of_ascii c in
  ((48 <=? n) && (n <=? 57) || (65 <=? n) && (n <=? 70) || (97 <=? n) && (n <=? 102))%nat.

Fixpoint all_hex (s : string) : bool :=
  match s with
  | String c s' => is_hex c && all_hex s'
  | EmptyString => true
  end.

Definition is_hex24 (s : string) : bool := (String.length s =? 24)%nat && all_hex s.

(** An object id, a string of 24 hexadecimal digits or a number is
    accepted; a number is then not cast. *)
Definition isValidObjectId (v : jsval) : bool :=
  match v with
  | VId _ => true
  | VStr s => is_hex24 s
  | VNum _ | VFloat _ | VNaN => true
  | _ => false
  end.

Definition castObjectId (v : jsval) : option string :=
  match v with
  | VId o => Some o
  | VStr s => if is_hex24 s then Some (lower_string s) else None
  | _ => None
  end.

(** Null stays null, an array is refused, an object is refused unless it
    holds a non-empty string under [_id], which is then taken; any other
    value is its string. *)
Definition castString (v : jsval) : option field :=
  match v with
  | VUndefined | VNull => Some FNull
  | VArr _ => None
  | VObj entries =>
      match snd <$> List.find (fun e : string * jsval => String.eqb (fst e) "_id") entries with
      | Some (VStr s) => if String.eqb s "" then None else Some (FStr s)
      | _ => None
      end
  | _ => Some (FStr (ToString v))
  end.

Definition castBoolean (v : jsval) : option field :=
  match v with
  | VNull => Some FNull
  | VBool b => Some (FBool b)
  | VNum 1 => Some (FBool true)
  | VNum 0 => Some (FBool false)
  | VStr s =>
      if existsb (String.eqb s) ["true"; "1"; "yes"] then Some (FBool true)
      else if existsb (String.eqb s) ["false"; "0"; "no"] then Some (FBool false)
      else None
  | _ => None
  end.

Definition trim_field (f : field) : field :=
  match f with
  | FStr s => FStr (trim s)
  | _ => f
  end.

Definition cast (path : string) (v : jsval) : option field :=
  if existsb (String.eqb path) ["status"; "isDelete"] then castBoolean v
  else if existsb (String.eqb path) ["_id"; "role"] then
    match v with
    | VNull => Some FNull
    | _ => FId <$> castObjectId v
    end
  else if String.eqb path "createdAt" then
    match v with
    | VNum t => Some (FDate t)
    | _ => None
    end
  else if existsb (String.eqb path) ["username"; "email"] then trim_field <$> castString v
  else castString v.

(** One operator applied to a stored value; the operand is cast like a
    value compared with the path. *)
Definition cast_operator (path : string) (e : string * jsval) : option (field -> bool) :=
  let '(op, arg) := e in
  if String.eqb op "$eq" then
    (fun c f => bool_decide (f = c)) <$> cast path arg
  else if String.eqb op "$ne" then
    (fun c f => negb (bool_decide (f = c))) <$> cast path arg
  else if String.eqb op "$in" then
    match arg with
    | VArr items => (fun cs f => bool_decide (f ∈ cs)) <$> mapM (cast path) items
    | _ => None
    end
  else if String.eqb op "$nin" then
    match arg with
    | VArr items => (fun cs f => negb (bool_decide (f ∈ cs))) <$> mapM (cast path) items
    | _ => None
    end
  else None.

(** An array selects the values it holds; an object of operators selects
    the values that pass each of them. *)
Definition cast_query (path : string) (v : jsval) : option (field -> bool) :=
  match v with
  | VArr items => (fun cs f => bool_decide (f ∈ cs)) <$> mapM (cast path) items
  | VObj entries =>
      (fun tests f => forallb (fun m : field -> bool => m f) tests) <$>
        mapM (cast_operator path) entries
  | _ => None
  end.

Inductive atom : Type :=
  | Lit (c : ascii)
  | AnyChar.

Fixpoint parse (p : string) : option (list atom) :=
  match p with
  | EmptyString => Some []
  | String c p' =>
      if Ascii.eqb c "."%char then cons AnyChar <$> parse p'
      else if is_meta c then None
      else cons (Lit c) <$> parse p'
  end.

Definition atom_matches (a : atom) (x : ascii) : bool :=
  match a with
  | Lit c => Ascii.eqb (lower c) (lower x)
  | AnyChar => negb (Ascii.eqb x "010"%char)
  end.

Fixpoint match_here (r : list atom) (s : string) : bool :=
  match r, s with
  | [], _ => true
  | a :: r', String x s' => atom_matches a x && match_here r' s'
  | _ :: _, EmptyString => false
  end.

Fixpoint search (r : list atom) (s : string) : bool :=
  match_here r s ||
  match s with
  | String _ s' => search r s'
  | EmptyString => false
  end.

Definition regex_i (p : string) : option (string -> bool) := search <$> parse p.

(** A stand-in for the one-way function: any function of the plain text
    and the cost serves the properties below. *)
Definition bcrypt_hash (plain : string) (cost : Z) : string :=
  "$2b$" +:+ pretty cost +:+ "$" +:+ String.rev plain.

#[export] Instance odm : Odm :=
  mkOdm isValidObjectId castObjectId cast cast_query regex_i bcrypt_hash.

End Mongoose.

(** ** What the services rely on

    Three facts about any mapper: a string accepted by [isValidObjectId] can
    be cast to an object id (a number may be accepted and yet not cast);
    booleans written to or compared with the two boolean paths are kept as
    they are; a pattern without special characters searches for itself,
    ignoring letter case. *)
Class OdmLaws (O : Odm) : Prop := {
  valid_id_casts : forall s, isValidObjectId (VStr s) = true -> is_Some (castObjectId (VStr s));
  cast_status : forall b, cast "status" (VBool b) = Some (FBool b);
  cast_isDelete : forall b, cast "isDelete" (VBool b) = Some (FBool b);
  regex_plain : forall p, no_meta p = true ->
    exists m, regex_i p = Some m /\ forall s, m s = ci_substring p s
}.

(** ** Sample data *)

Module Sample.

Definition admin_role : doc :=
  {[ "_id" := FId "64b000000000000000000001"; "name" := FStr "admin";
     "isDelete" := FBool false; "createdAt" := FDate 100 ]}.

Definition guest_role : doc :=
  {[ "_id" := FId "64b000000000000000000002"; "name" := FStr "guest";
     "isDelete" := FBool true; "createdAt" := FDate 200 ]}.

Definition user (oid name mail full : string) (deleted : bool) (t : Z) : doc :=
  {[ "_id" := FId oid; "username" := FStr name; "password" := FStr "$2b$10$hash";
     "email" := FStr mail; "fullName" := FStr full; "avatarUrl" := FStr "";
     "status" := FBool false; "isDelete" := FBool deleted; "createdAt" := FDate t ]}.

Definition alice : doc :=
  <["role" := FId "64b000000000000000000001"]>
    (user "64a000000000000000000001" "alice" "a@x.com" "Alice A" false 1000).
Definition bob : doc := user "64a000000000000000000002" "bob" "b@x.com" "Bob B" true 2000.
Definition carol : doc := user "64a000000000000000000003" "carol" "c@x.com" "Carol C" false 3000.

Definition db : store := mkStore [alice; bob; carol] [admin_role; guest_role].

End Sample.

(** ** Vocabulary of the statements *)

(** The window of page [p] (counted from 1) for pages of [l] items. *)
Definition window {A : Type} (p l : Z) (xs : list A) : list A :=
  take (Z.to_nat l) (drop (Z.to_nat ((p - 1) * l)) xs).



(** The record [d] is live and carries the cast email [e] and username
    [u]: what the filter of [verifyUser] selects. *)
Definition verifies (e u : field) (d : doc) : Prop :=
  get d "email" = e /\ get d "username" = u /\ get d "isDelete" = FBool false.



(** A returned object carries no password, neither at the top level nor
    inside a populated sub-document. *)
Definition no_password (o : leanobj) : Prop :=
  o !! "password" = None /\
  forall k r, o !! k = Some (RObj r) -> r !! "password" = None.

(** ** Store invariants *)

(** The values of [path], document by document (null where absent). *)
Definition keys (path : string) (coll : list doc) : list field :=
  (fun d : doc => get d path) <$> coll.

(** What the store's indexes guarantee of the user collection: ids are
    pairwise distinct, and so are the usernames and the emails. *)
Definition indexed (s : store) : Prop :=
  NoDup (ids (users s)) /\
  NoDup (keys "username" (users s)) /\
  NoDup (keys "email" (users s)).

(** The errors a write can end in besides the missing-field one: a role
    that is rejected, a conflict on one of the two unique fields, a value
    that the schema cannot cast, or an id (of the user or of the role) that
    [isValidObjectId] has accepted and that cannot be cast. *)
Definition write_error (e : error) : Prop :=
  e = HttpError 400 "Invalid role id" \/
  e = HttpError 404 "Role not found" \/
  e = HttpError 409 "username must be unique" \/
  e = HttpError 409 "email must be unique" \/
  e = StoreError (CastError "_id") \/
  exists p, In p user_paths /\ e = StoreError (CastError p).

(** ** The routes of [routes/users.js]

    A request is its method, the path below the router's mount point as its
    decoded segments, the query parameters and the parsed body (a missing
    body reads as the empty object in every handler: [payload || {}],
    [updates = {}], [req.body || {}]).  A path parameter is a string. *)

Module Router.

Inductive method : Type := GET | POST | PUT | DELETE.

Definition method_eqb (a b : method) : bool :=
  match a, b with
  | GET, GET | POST, POST | PUT, PUT | DELETE, DELETE => true
  | _, _ => false
  end.

Record request : Type := mkRequest {
  req_method : method;
  req_path : list string;
  req_query : gmap string jsval;
  req_body : gmap string jsval
}.

(** [err.message]: the text of an error made by the services, or the text
    the store gave to one of its own errors (never empty). *)
Inductive message : Type :=
  | Text (s : string)
  | StoreText (e : store_error).

(** The JSON bodies the handlers send. *)
Inductive json : Type :=
  | JUser (user : leanobj)
  | JListing (result : listing)
  | JMessage (m : message)
  | JMessageUser (m : string) (user : leanobj).

(** The locals handed to a view. *)
Inductive locals : Type :=
  | UsersList (usersPage : listing) (username fullName : jsval) (title : string)
  | UserForm (title : string) (user : option leanobj) (roles : list leanobj)
  | ErrorPage (m : string).

(** How a handler ends: [res.status(c).json(b)] ([res.json(b)] is status
    200), [res.status(c).render(view, locals)], [res.redirect(url)] or
    [next(err)]. *)
Inductive reply : Type :=
  | Json (code : Z) (b : json)
  | Render (code : Z) (view : string) (l : locals)
  | Redirect (url : string)
  | Next (err : error).

(** The user objects that a reply shows. *)
Definition users_in (rp : reply) : list leanobj :=
  match rp with
  | Json _ (JUser user) | Json _ (JMessageUser _ user) => [user]
  | Json _ (JListing result) => items_of result
  | Render _ _ (UsersList usersPage _ _ _) => items_of usersPage
  | Render _ _ (UserForm _ (Some user) _) => [user]
  | _ => []
  end.

(** [err.status || def] *)
Definition status_or (err : error) (def : Z) : Z :=
  match err with
  | HttpError st _ => if st =? 0 then def else st
  | StoreError _ => def
  end.

(** [err.message || def] *)
Definition message_or (err : error) (def : string) : message :=
  match err with
  | HttpError _ m => Text (if String.eqb m "" then def else m)
  | StoreError e => StoreText e
  end.

Section Handlers.
Context {O : Odm}.

(** [router.post('/')]; [oid] and [now] are what the store gives a new
    document. *)
Definition create_user (oid : string) (now : Z) (r : request) (s : store) : reply * store :=
  match createUser oid now (req_body r) s with
  | Ok (user, s') => (Json 201 (JUser user), s')
  | Throw err => (Json (status_or err 400) (JMessage (message_or err "Create user failed")), s)
  end.

(** [router.get('/')] *)
Definition list_users (r : request) (s : store) : reply * store :=
  match getAllUsers (prop (req_query r) "page") (prop (req_query r) "limit")
          (prop (req_query r) "username") (prop (req_query r) "fullName") s with
  | Ok result => (Json 200 (JListing result), s)
  | Throw err => (Json 500 (JMessage (message_or err "Fetch users failed")), s)
  end.

(** [router.get('/by-username/:username')] *)
Definition get_by_username (username : string) (s : store) : reply * store :=
  match getUserByUsername (VStr username) s with
  | Ok None => (Json 404 (JMessage (Text "User not found")), s)
  | Ok (Some user) => (Json 200 (JUser user), s)
  | Throw err => (Json 500 (JMessage (message_or err "Fetch user failed")), s)
  end.

(** [router.get('/:id')] *)
Definition get_by_id (id : string) (s : store) : reply * store :=
  match getUserById (VStr id) s with
  | Ok None => (Json 404 (JMessage (Text "User not found")), s)
  | Ok (Some user) => (Json 200 (JUser user), s)
  | Throw err => (Json 400 (JMessage (message_or err "Invalid id")), s)
  end.

(** [router.put('/:id')] *)
Definition update_user (id : string) (r : request) (s : store) : reply * store :=
  match updateUser (VStr id) (req_body r) s with
  | Ok (None, s') => (Json 404 (JMessage (Text "User not found")), s')
  | Ok (Some user, s') => (Json 200 (JUser user), s')
  | Throw err => (Json (status_or err 400) (JMessage (message_or err "Update user failed")), s)
  end.

(** [router.delete('/:id')] *)
Definition soft_delete (id : string) (s : store) : reply * store :=
  match softDeleteUser (VStr id) s with
  | Ok (None, s') => (Json 404 (JMessage (Text "User not found")), s')
  | Ok (Some user, s') => (Json 200 (JMessageUser "User soft-deleted" user), s')
  | Throw err => (Json 400 (JMessage (message_or err "Invalid id")), s)
  end.

(** [router.post('/verify')] and its alias [router.post('/activate')], which
    differ in the fall-back text of the error message only. *)
Definition verify_with (fallback : string) (r : request) (s : store) : reply * store :=
  let email := prop (req_body r) "email" in
  let username := prop (req_body r) "username" in
  let userName := prop (req_body r) "userName" in
  let uname := js_or username userName in
  if negb (truthy email) || negb (truthy uname) then
    (Json 400 (JMessage (Text "email and username are required")), s)
  else
    match verifyUser email uname s with
    | Ok (None, s') => (Json 404 (JMessage (Text "Invalid email or username")), s')
    | Ok (Some user, s') => (Json 200 (JMessageUser "User verified" user), s')
    | Throw err => (Json 400 (JMessage (message_or err fallback)), s)
    end.

Definition verify : request -> store -> reply * store := verify_with "Verify user failed".
Definition activate : request -> store -> reply * store := verify_with "Activate user failed".

(** [router.get('/ui')]; [filters] holds [username || ''] and
    [fullName || '']. *)
Definition ui_list (r : request) (s : store) : reply * store :=
  let username := prop (req_query r) "username" in
  let fullName := prop (req_query r) "fullName" in
  let page := prop (req_query r) "page" in
  let limit_ := prop (req_query r) "limit" in
  match getAllUsers page limit_ username fullName s with
  | Ok result =>
      (Render 200 "users/list"
         (UsersList result (js_or username (VStr "")) (js_or fullName (VStr "")) "Users"), s)
  | Throw err => (Next err, s)
  end.

(** [(await roleService.getAllRoles({ limit: 1000 })).items || []] *)
Definition form_roles (s : store) : outcome (list leanobj) :=
  rolesPage ← getAllRoles VUndefined VUndefined VUndefined (VNum 1000) s;
  Ok (match rolesPage with
      | Envelope items _ _ _ _ => items
      | Plain _ => []
      end).

(** [router.get('/ui/new')] *)
Definition ui_new (s : store) : reply * store :=
  match form_roles s with
  | Ok roles => (Render 200 "users/form" (UserForm "Create User" None roles), s)
  | Throw err => (Next err, s)
  end.

(** [router.post('/ui')] *)
Definition ui_create (oid : string) (now : Z) (r : request) (s : store) : reply * store :=
  match createUser oid now (req_body r) s with
  | Ok (_, s') => (Redirect "/users/ui", s')
  | Throw err => (Next err, s)
  end.

(** [router.get('/ui/:id/edit')]: the two reads of [Promise.all], neither
    of which writes; an error of the first is the one passed on. *)
Definition ui_edit (id : string) (s : store) : reply * store :=
  match (user ← getUserById (VStr id) s; roles ← form_roles s; Ok (user, roles)) with
  | Ok (None, _) => (Render 404 "error" (ErrorPage "User not found"), s)
  | Ok (Some user, roles) => (Render 200 "users/form" (UserForm "Edit User" (Some user) roles), s)
  | Throw err => (Next err, s)
  end.

(** [router.post('/ui/:id')] *)
Definition ui_update (id : string) (r : request) (s : store) : reply * store :=
  match updateUser (VStr id) (req_body r) s with
  | Ok (_, s') => (Redirect "/users/ui", s')
  | Throw err => (Next err, s)
  end.

(** [router.post('/ui/:id/delete')] *)
Definition ui_delete (id : string) (s : store) : reply * store :=
  match softDeleteUser (VStr id) s with
  | Ok (_, s') => (Redirect "/users/ui", s')
  | Throw err => (Next err, s)
  end.

(** [router.post('/ui/verify')] *)
Definition ui_verify (r : request) (s : store) : reply * store :=
  match verifyUser (prop (req_body r) "email") (prop (req_body r) "username") s with
  | Ok (_, s') => (Redirect "/users/ui", s')
  | Throw err => (Next err, s)
  end.

(** *** The routing table

    The routes in the order in which the file registers them.  The router
    hands a request to the first route whose method and path match: a
    literal segment matches whatever the case of the letters, a parameter
    matches one non-empty segment, and a trailing slash does not count.
    Paths are taken without percent-escapes. *)

Inductive segment : Type := Lit (s : string) | Param (name : string).

Inductive handler : Type :=
  | CreateUser | ListUsers | GetByUsername | GetById | UpdateUser | SoftDelete
  | Verify | Activate
  | UiList | UiNew | UiCreate | UiEdit | UiUpdate | UiDelete | UiVerify.

Definition routes : list (method * list segment * handler) :=
  [ (POST, [], CreateUser);
    (GET, [], ListUsers);
    (GET, [Lit "by-username"; Param "username"], GetByUsername);
    (GET, [Param "id"], GetById);
    (PUT, [Param "id"], UpdateUser);
    (DELETE, [Param "id"], SoftDelete);
    (POST, [Lit "verify"], Verify);
    (POST, [Lit "activate"], Activate);
    (GET, [Lit "ui"], UiList);
    (GET, [Lit "ui"; Lit "new"], UiNew);
    (POST, [Lit "ui"], UiCreate);
    (GET, [Lit "ui"; Param "id"; Lit "edit"], UiEdit);
    (POST, [Lit "ui"; Param "id"], UiUpdate);
    (POST, [Lit "ui"; Param "id"; Lit "delete"], UiDelete);
    (POST, [Lit "ui"; Lit "verify"], UiVerify) ].

(** The parameters of [path] along [pattern], when it matches. *)
Fixpoint match_path (pattern : list segment) (path : list string)
    : option (gmap string string) :=
  match pattern, path with
  | [], [] => Some ∅
  | Lit l :: pattern', x :: path' =>
      if String.eqb (lower_string l) (lower_string x) then match_path pattern' path'
      else None
  | Param name :: pattern', x :: path' =>
      if String.eqb x "" then None
      else <[name := x]> <$> match_path pattern' path'
  | _, _ => None
  end.

Fixpoint first_match (table : list (method * list segment * handler))
    (m : method) (path : list string) : option (handler * gmap string string) :=
  match table with
  | [] => None
  | (m', pattern, h) :: table' =>
      if method_eqb m' m then
        match match_path pattern path with
        | Some params => Some (h, params)
        | None => first_match table' m path
        end
      else first_match table' m path
  end.

Definition dispatch (m : method) (path : list string)
    : option (handler * gmap string string) :=
  first_match routes m path.

(** [req.params.name], present whenever the route has matched. *)
Definition param (params : gmap string string) (name : string) : string :=
  default "" (params !! name).

Definition run (h : handler) (params : gmap string string) (oid : string) (now : Z)
    (r : request) (s : store) : reply * store :=
  match h with
  | CreateUser => create_user oid now r s
  | ListUsers => list_users r s
  | GetByUsername => get_by_username (param params "username") s
  | GetById => get_by_id (param params "id") s
  | UpdateUser => update_user (param params "id") r s
  | SoftDelete => soft_delete (param params "id") s
  | Verify => verify r s
  | Activate => activate r s
  | UiList => ui_list r s
  | UiNew => ui_new s
  | UiCreate => ui_create oid now r s
  | UiEdit => ui_edit (param params "id") s
  | UiUpdate => ui_update (param params "id") r s
  | UiDelete => ui_delete (param params "id") s
  | UiVerify => ui_verify r s
  end.

(** The router on one request; [None] when no route matches and the
    request goes on to whatever the application mounts next. *)
Definition handle (oid : string) (now : Z) (r : request) (s : store)
    : option (reply * store) :=
  '(h, params) ← dispatch (req_method r) (req_path r);
  Some (run h params oid now r s).

End Handlers.

End Router.

(** * Properties *)

(** ** Numbers print and read back *)

Lemma digit_of_pretty_N_char (x : N) :
  (x < 10)%N -> digit_of (pretty_N_char x) = Some (Z.of_N x).
Proof.
  intros Hx.
  assert (x = 0 \/ x = 1 \/ x = 2 \/ x = 3 \/ x = 4 \/ x = 5 \/ x = 6 \/ x = 7 \/ x = 8
          \/ x = 9)%N as Hcases by lia.
  repeat (destruct Hcases as [->|Hcases]; [reflexivity|]). by subst.
Qed.

(** Reading the digits that [pretty_N_go] puts in front of [s]. *)
Lemma read_digits_pretty_N_go (x : N) :
  exists k : Z, 0 <= k /\
    forall s seen acc,
      read_digits (pretty_N_go x s) seen acc =
        read_digits s (seen || (0 <? x)%N) (acc * 10 ^ k + Z.of_N x).
Proof.
  induction (N.lt_wf_0 x) as [x _ IH].
  destruct (decide (x = 0%N)) as [->|Hx].
  - exists 0. split; [done|]. intros s seen acc. rewrite pretty_N_go_0, orb_false_r.
    f_equal. lia.
  - assert (0 < x)%N as Hpos by lia.
    destruct (IH (x `div` 10)%N) as (k & Hk & Hread); [by apply N.div_lt|].
    exists (k + 1). split; [lia|]. intros s seen acc.
    rewrite pretty_N_go_step, Hread by done. simpl.
    rewrite digit_of_pretty_N_char by (by apply N.mod_lt).
    rewrite (proj2 (N.ltb_lt 0 x) Hpos), orb_true_r. f_equal.
    rewrite Z.pow_add_r by lia.
    assert (Z.of_N x = 10 * Z.of_N (x `div` 10) + Z.of_N (x `mod` 10)) as Hx'.
    { rewrite (N.div_mod x 10) at 1 by done. by rewrite N2Z.inj_add, N2Z.inj_mul. }
    set (q := Z.of_N (x `div` 10)) in *. set (r := Z.of_N (x `mod` 10)) in *.
    rewrite Hx'. ring.
Qed.

Lemma pretty_N_go_head (x : N) (s : string) :
  (0 < x)%N -> exists c rest, pretty_N_go x s = String c rest /\ is_Some (digit_of c).
Proof.
  revert s. induction (N.lt_wf_0 x) as [x _ IH]. intros s Hpos.
  rewrite pretty_N_go_step by done.
  destruct (decide (x `div` 10 = 0)%N) as [->|Hd].
  - rewrite pretty_N_go_0. eexists _, _. split; [done|].
    rewrite digit_of_pretty_N_char by (by apply N.mod_lt). by eexists.
  - apply IH; [by apply N.div_lt | by apply N.neq_0_lt_0].
Qed.

Lemma parseInt_string_digits (c : ascii) (rest : string) :
  is_Some (digit_of c) ->
  parseInt_string (String c rest) = read_digits (String c rest) false 0.
Proof.
  intros Hd.
  destruct c as [[] [] [] [] [] [] [] []]; try reflexivity;
    exfalso; destruct Hd as [d Hd]; vm_compute in Hd; discriminate Hd.
Qed.

Lemma parseInt_string_pretty_pos (p : positive) :
  parseInt_string (pretty (N.pos p)) = Some (Z.pos p) /\
  read_digits (pretty (N.pos p)) false 0 = Some (Z.pos p).
Proof.
  unfold pretty, pretty_N. rewrite decide_False by done.
  destruct (pretty_N_go_head (N.pos p) "") as (c & rest & Hc & Hdig); [done|].
  destruct (read_digits_pretty_N_go (N.pos p)) as (k & Hk & Hread).
  assert (read_digits (pretty_N_go (N.pos p) "") false 0 = Some (Z.pos p)) as Hr.
  { rewrite Hread. simpl. f_equal. }
  split; [|done]. rewrite Hc in *. by rewrite parseInt_string_digits.
Qed.

(** [parseInt(String(n), 10)] is [n]. *)
Lemma parseInt_num (n : Z) : parseInt (VNum n) = Some n.
Proof.
  unfold parseInt. simpl. destruct n as [|p|p]; simpl.
  - reflexivity.
  - apply parseInt_string_pretty_pos.
  - unfold pretty, pretty_Z. unfold pretty, pretty_positive.
    change ("-" +:+ pretty (N.pos p)) with (String "-" (pretty (N.pos p))).
    unfold parseInt_string. simpl.
    by rewrite (proj2 (parseInt_string_pretty_pos p)).
Qed.

(** ** Outcomes *)

Lemma bind_Ok {A B : Type} (m : outcome A) (k : A -> outcome B) (b : B) :
  m ≫= k = Ok b -> exists a, m = Ok a /\ k a = Ok b.
Proof. destruct m as [a|e]; simpl; [eauto | discriminate]. Qed.

Lemma Ok_inj {A : Type} (a b : A) : Ok a = Ok b -> a = b.
Proof. by intros [= ->]. Qed.

Lemma catch_duplicate_Ok {A : Type} (m : outcome A) (a : A) :
  catch_duplicate m = Ok a -> m = Ok a.
Proof.
  destruct m as [a'|e]; simpl; [done|].
  destruct (err_code_11000 e); discriminate.
Qed.


(** Unfolds one monadic step of a successful run. *)
Ltac ok_step H :=
  let a := fresh "a" in
  let Ha := fresh "Ha" in
  apply bind_Ok in H; destruct H as (a & Ha & H).

(** ** Views of stored users *)

Lemma populate_lookup_ne (rs : list doc) (d : doc) (k : string) :
  k <> "role" -> populate_role_name rs d !! k = RField <$> (d !! k).
Proof.
  intros Hk. unfold populate_role_name, toObject.
  destruct (d !! "role") as [[| | |r|]|]; try apply lookup_fmap.
  destruct (List.find _ rs); rewrite lookup_insert_ne by done; apply lookup_fmap.
Qed.

Lemma user_view_lookup (s : store) (d : doc) (k : string) :
  k <> "role" -> k <> "password" -> user_view s d !! k = RField <$> (d !! k).
Proof.
  intros Hr Hp. unfold user_view.
  rewrite lookup_delete_ne by done. by apply populate_lookup_ne.
Qed.

Lemma user_view_fmap (s : store) (l : list doc) :
  delete "password" <$> (populate_role_name (roles s) <$> l) = user_view s <$> l.
Proof. by rewrite <- list_fmap_compose. Qed.

Lemma strip_populate (s : store) (doc : option doc) :
  strip (populate_role_name (roles s) <$> doc) = user_view s <$> doc.
Proof. by destruct doc. Qed.

(** ** No password crosses the boundary *)

Lemma toObject_no_sub (d : doc) (k : string) (r : doc) :
  toObject d !! k <> Some (RObj r).
Proof. unfold toObject. rewrite lookup_fmap. by destruct (d !! k). Qed.

Lemma no_password_created (d : doc) : no_password (delete "password" (toObject d)).
Proof.
  split; [apply lookup_delete_eq|]. intros k r Hk.
  apply lookup_delete_Some in Hk as [_ Hk]. by apply toObject_no_sub in Hk.
Qed.

Lemma populate_sub (rs : list doc) (d : doc) (k : string) (r : doc) :
  populate_role_name rs d !! k = Some (RObj r) -> r !! "password" = None.
Proof.
  unfold populate_role_name.
  destruct (d !! "role") as [[| | |o|]|]; try (intros H; by apply toObject_no_sub in H).
  destruct (List.find (has_id o) rs) as [rd|].
  - destruct (decide (k = "role")) as [->|Hne].
    + rewrite lookup_insert_eq. intros [= <-].
      apply map_lookup_filter_None. right. intros x _ [H|H]; discriminate H.
    + rewrite lookup_insert_ne by done. intros H. by apply toObject_no_sub in H.
  - destruct (decide (k = "role")) as [->|Hne].
    + by rewrite lookup_insert_eq.
    + rewrite lookup_insert_ne by done. intros H. by apply toObject_no_sub in H.
Qed.

Lemma no_password_view (s : store) (d : doc) : no_password (user_view s d).
Proof.
  unfold user_view. split; [apply lookup_delete_eq|]. intros k r Hk.
  apply lookup_delete_Some in Hk as [_ Hk]. by apply populate_sub in Hk.
Qed.

Lemma no_password_strip (s : store) (doc : option doc) (o : leanobj) :
  strip (populate_role_name (roles s) <$> doc) = Some o -> no_password o.
Proof.
  rewrite strip_populate. destruct doc as [d|]; [|discriminate].
  intros [= <-]. apply no_password_view.
Qed.

Section PasswordNeverReturned.
Context {O : Odm}.

Lemma createUser_no_password oid now payload s obj s' :
  createUser oid now payload s = Ok (obj, s') -> no_password obj.
Proof.
  unfold createUser.
  destruct (negb _ || _ || _); [discriminate|].
  intros H. ok_step H. apply catch_duplicate_Ok in H. ok_step H.
  destruct a0 as [doc us]. apply Ok_inj in H. injection H as <- _.
  apply no_password_created.
Qed.

Lemma getAllUsers_no_password page limit_ username fullName s r :
  getAllUsers page limit_ username fullName s = Ok r ->
  Forall no_password (items_of r).
Proof.
  unfold getAllUsers.
  destruct (truthy _); intros H; ok_step H; apply Ok_inj in H as <-; simpl;
    rewrite user_view_fmap; apply Forall_fmap, Forall_forall; intros d _;
    apply no_password_view.
Qed.

Lemma getUserByUsername_no_password username s o :
  getUserByUsername username s = Ok (Some o) -> no_password o.
Proof.
  unfold getUserByUsername. destruct (negb _); [discriminate|].
  intros H. ok_step H. apply Ok_inj in H. by apply no_password_strip in H.
Qed.

Lemma getUserById_no_password id s o :
  getUserById id s = Ok (Some o) -> no_password o.
Proof.
  unfold getUserById. destruct (negb _); [discriminate|].
  intros H. ok_step H. apply Ok_inj in H. by apply no_password_strip in H.
Qed.

Lemma updateUser_no_password id updates s o s' :
  updateUser id updates s = Ok (Some o, s') -> no_password o.
Proof.
  unfold updateUser. destruct (negb _); [discriminate|].
  intros H. ok_step H. apply catch_duplicate_Ok in H. ok_step H.
  destruct a0 as [doc us]. apply Ok_inj in H. injection H as H _.
  by apply (no_password_strip (mkStore us (roles s))) in H.
Qed.

Lemma softDeleteUser_no_password id s o s' :
  softDeleteUser id s = Ok (Some o, s') -> no_password o.
Proof.
  unfold softDeleteUser. destruct (negb _); [discriminate|].
  intros H. ok_step H.
  destruct a as [doc us]. apply Ok_inj in H. injection H as H _.
  by apply (no_password_strip (mkStore us (roles s))) in H.
Qed.

Lemma verifyUser_no_password email username s o s' :
  verifyUser email username s = Ok (Some o, s') -> no_password o.
Proof.
  unfold verifyUser. destruct (negb _ || _); [discriminate|].
  intros H. ok_step H.
  destruct a as [doc us]. apply Ok_inj in H. injection H as H _.
  by apply (no_password_strip (mkStore us (roles s))) in H.
Qed.

End PasswordNeverReturned.

(** C1. Whatever the operation and its input, a user value handed back by
    the service layer has no [password] field, at the top level or in the
    resolved role: the object of [createUser], every item of [getAllUsers]
    (plain or enveloped), and the record of [getUserByUsername],
    [getUserById], [updateUser], [softDeleteUser] and [verifyUser]. *)
Theorem C1_password_never_returned {O : Odm} (s : store) :
  (forall oid now payload obj s',
      createUser oid now payload s = Ok (obj, s') -> no_password obj) /\
  (forall page limit_ username fullName r,
      getAllUsers page limit_ username fullName s = Ok r ->
      Forall no_password (items_of r)) /\
  (forall username o, getUserByUsername username s = Ok (Some o) -> no_password o) /\
  (forall id o, getUserById id s = Ok (Some o) -> no_password o) /\
  (forall id updates o s', updateUser id updates s = Ok (Some o, s') -> no_password o) /\
  (forall id o s', softDeleteUser id s = Ok (Some o, s') -> no_password o) /\
  (forall email username o s',
      verifyUser email username s = Ok (Some o, s') -> no_password o).
Proof.
  split; [intros oid now payload obj s'; apply createUser_no_password|].
  split; [intros page limit_ username fullName r; apply getAllUsers_no_password|].
  split; [intros username o; apply getUserByUsername_no_password|].
  split; [intros id o; apply getUserById_no_password|].
  split; [intros id updates o s'; apply updateUser_no_password|].
  split; [intros id o s'; apply softDeleteUser_no_password|].
  intros email username o s'; apply verifyUser_no_password.
Qed.

Lemma C1_witness :
  getUserById (O:=Mongoose.odm) (VStr "64a000000000000000000001") Sample.db =
    Ok (Some (user_view Sample.db Sample.alice))
  /\ no_password (user_view Sample.db Sample.alice)
  /\ Sample.alice !! "password" = Some (FStr "$2b$10$hash").
Proof.
  assert (getUserById (O:=Mongoose.odm) (VStr "64a000000000000000000001") Sample.db =
            Ok (Some (user_view Sample.db Sample.alice)))
    as E by (vm_compute; reflexivity).
  split; [exact E|]. split.
  - exact (proj1 (proj2 (proj2 (proj2 (C1_password_never_returned (O:=Mongoose.odm) Sample.db))))
             (VStr "64a000000000000000000001") _ E).
  - vm_compute; reflexivity.
Defined.

(** ** Sorting and windows *)

Lemma insert_desc_perm (d : doc) (l : list doc) : Permutation (insert_desc d l) (d :: l).
Proof.
  induction l as [|e l IH]; simpl; [done|].
  destruct (not_older d e); [done|].
  rewrite IH. apply perm_swap.
Qed.

Lemma sort_createdAt_desc_perm (l : list doc) : Permutation (sort_createdAt_desc l) l.
Proof.
  induction l as [|d l IH]; simpl; [done|].
  rewrite insert_desc_perm. by constructor.
Qed.




Lemma length_sort (l : list doc) : length (sort_createdAt_desc l) = length l.
Proof. apply Permutation_length, sort_createdAt_desc_perm. Qed.

Lemma In_sort (x : doc) (l : list doc) : In x (sort_createdAt_desc l) <-> In x l.
Proof.
  split; apply Permutation_in; [|symmetry]; apply sort_createdAt_desc_perm.
Qed.

Lemma In_limit {A : Type} (n : Z) (x : A) (l : list A) : In x (limit n l) -> In x l.
Proof.
  unfold limit. destruct (n =? 0); [done|].
  rewrite <- (firstn_skipn (Z.to_nat n) l) at 2. intros H. apply in_or_app. by left.
Qed.

Lemma In_skip {A : Type} (n : Z) (x : A) (l : list A) : In x (skip n l) -> In x l.
Proof.
  unfold skip. rewrite <- (firstn_skipn (Z.to_nat n) l) at 2.
  intros H. apply in_or_app. by right.
Qed.

Lemma length_limit {A : Type} (n : Z) (l : list A) :
  0 < n -> Z.of_nat (length (limit n l)) <= n.
Proof.
  intros Hn. unfold limit. destruct (Z.eqb_spec n 0); [lia|].
  rewrite length_take. lia.
Qed.

(** [ceil_div a b] is the least number of blocks of size [b] covering [a]. *)
Lemma ceil_div_spec (a b : Z) :
  0 < b -> (ceil_div a b - 1) * b < a <= ceil_div a b * b.
Proof.
  intros Hb. unfold ceil_div.
  pose proof (Z.div_mod (- a) b ltac:(lia)) as Hd.
  pose proof (Z.mod_pos_bound (- a) b Hb) as Hm.
  nia.
Qed.

Lemma ceil_div_unique (a b n : Z) :
  0 < b -> (n - 1) * b < a <= n * b -> n = ceil_div a b.
Proof.
  intros Hb Hn. pose proof (ceil_div_spec a b Hb) as Hc. nia.
Qed.


(** ** The concrete mapper satisfies the laws *)

Lemma parse_plain (p : string) :
  no_meta p = true ->
  exists r, Mongoose.parse p = Some r /\
    forall s, Mongoose.match_here r s = is_prefix (lower_string p) (lower_string s).
Proof.
  induction p as [|c p IH]; simpl; intros Hp.
  - exists []. split; [done|]. by intros [].
  - apply andb_true_iff in Hp as [Hc Hp]. apply negb_true_iff in Hc.
    destruct (IH Hp) as (r & Hr & Hm).
    assert (Ascii.eqb c "."%char = false) as Hdot.
    { destruct (Ascii.eqb_spec c "."%char) as [->|]; [discriminate Hc | done]. }
    rewrite Hdot, Hc, Hr. exists (Mongoose.Lit c :: r). split; [done|].
    intros [|x s]; simpl; [done|]. by rewrite Hm.
Qed.

Lemma search_plain (r : list Mongoose.atom) (p : string) :
  (forall s, Mongoose.match_here r s = is_prefix (lower_string p) (lower_string s)) ->
  forall s, Mongoose.search r s = ci_substring p s.
Proof.
  intros Hm s. unfold ci_substring.
  induction s as [|x s IH]; simpl; rewrite Hm; [done|]. simpl. by rewrite IH.
Qed.

Lemma mongoose_laws : OdmLaws Mongoose.odm.
Proof.
  split.
  - intros s. simpl. unfold Mongoose.isValidObjectId, Mongoose.castObjectId. intros ->.
    by eauto.
  - by intros [].
  - by intros [].
  - intros p Hp. destruct (parse_plain p Hp) as (r & Hr & Hm).
    exists (Mongoose.search r). split.
    + simpl. unfold Mongoose.regex_i. by rewrite Hr.
    + by apply search_plain.
Qed.

(** ** Queries *)

Lemma truthy_js_or (a b : jsval) : truthy (js_or a b) = truthy a || truthy b.
Proof. unfold js_or. by destruct (truthy a) eqn:E; simpl. Qed.

Section Listings.
Context {O : Odm}.

Lemma getAllUsers_paged page limit_ username fullName s q :
  truthy page || truthy limit_ = true ->
  compile_query (users_query username fullName) = Ok q ->
  getAllUsers page limit_ username fullName s =
    Ok (Envelope
          (user_view s <$> limit (toInt limit_ 10)
             (skip ((toInt page 1 - 1) * toInt limit_ 10)
                (sort_createdAt_desc (find q (users s)))))
          (countDocuments q (users s)) (toInt page 1) (toInt limit_ 10)
          (ceil_div (countDocuments q (users s)) (toInt limit_ 10))).
Proof.
  intros Hp Hq. unfold getAllUsers. rewrite truthy_js_or, Hp, Hq. simpl.
  by rewrite user_view_fmap.
Qed.

Lemma getAllUsers_plain page limit_ username fullName s q :
  truthy page || truthy limit_ = false ->
  compile_query (users_query username fullName) = Ok q ->
  getAllUsers page limit_ username fullName s =
    Ok (Plain (user_view s <$> sort_createdAt_desc (find q (users s)))).
Proof.
  intros Hp Hq. unfold getAllUsers. rewrite truthy_js_or, Hp, Hq. simpl.
  by rewrite user_view_fmap.
Qed.

Lemma getAllRoles_paged name includeDeleted page limit_ s q :
  truthy page || truthy limit_ = true ->
  compile_query (roles_query name includeDeleted) = Ok q ->
  getAllRoles name includeDeleted page limit_ s =
    Ok (Envelope
          (toObject <$> limit (toInt limit_ 10)
             (skip ((toInt page 1 - 1) * toInt limit_ 10)
                (sort_createdAt_desc (find q (roles s)))))
          (countDocuments q (roles s)) (toInt page 1) (toInt limit_ 10)
          (ceil_div (countDocuments q (roles s)) (toInt limit_ 10))).
Proof.
  intros Hp Hq. unfold getAllRoles. by rewrite truthy_js_or, Hp, Hq.
Qed.


(** Every item of a listing of users is the view of a stored user that
    satisfies the compiled filter. *)
Lemma getAllUsers_items page limit_ username fullName s r :
  getAllUsers page limit_ username fullName s = Ok r ->
  exists q, compile_query (users_query username fullName) = Ok q /\
    forall x, In x (items_of r) ->
      exists d, x = user_view s d /\ In d (users s) /\ matches q d = true.
Proof.
  intros H.
  destruct (compile_query (users_query username fullName)) as [q|e] eqn:Hq.
  2:{ unfold getAllUsers in H. rewrite Hq in H. by destruct (truthy _). }
  exists q. split; [done|]. intros x Hx.
  destruct (truthy page || truthy limit_) eqn:Hp.
  - rewrite (getAllUsers_paged _ _ _ _ _ q Hp Hq) in H. injection H as <-. simpl in Hx.
    apply in_map_iff in Hx as (d & <- & Hd). exists d. split; [done|].
    apply In_limit, In_skip, In_sort, filter_In in Hd. done.
  - rewrite (getAllUsers_plain _ _ _ _ _ q Hp Hq) in H. injection H as <-. simpl in Hx.
    apply in_map_iff in Hx as (d & <- & Hd). exists d. split; [done|].
    apply In_sort, filter_In in Hd. done.
Qed.

End Listings.

Section Visibility.
Context {O : Odm} {L : OdmLaws O}.

Lemma compile_users_query username fullName q :
  compile_query (users_query username fullName) = Ok q ->
  exists q', q = CEq "isDelete" (FBool false) :: q'.
Proof.
  unfold users_query. simpl. intros H.
  destruct (truthy username), (truthy fullName); simpl in H;
    rewrite cast_isDelete in H; simpl in H;
    repeat (match type of H with context [regex_i ?p] => destruct (regex_i p); simpl in H end);
    try discriminate; injection H as <-; eauto.
Qed.

Lemma matches_not_deleted q d :
  matches (CEq "isDelete" (FBool false) :: q) d = true -> d !! "isDelete" <> Some (FBool true).
Proof.
  simpl. intros H Hd. apply andb_true_iff in H as [H _].
  apply bool_decide_eq_true in H. unfold get in H. by rewrite Hd in H.
Qed.

End Visibility.

(** ** Lookups by id *)

Lemma find_has_id_In (o : string) (coll : list doc) (d : doc) :
  List.find (has_id o) coll = Some d -> In d coll /\ d !! "_id" = Some (FId o).
Proof.
  intros H. apply find_some in H as [Hin Hid].
  split; [done|]. by apply bool_decide_eq_true in Hid.
Qed.

Lemma find_has_id_NoDup (o : string) (coll : list doc) (d : doc) :
  NoDup (ids coll) -> In d coll -> d !! "_id" = Some (FId o) ->
  List.find (has_id o) coll = Some d.
Proof.
  induction coll as [|x coll IH]; simpl; intros Hnd Hin Hid; [done|].
  apply NoDup_cons in Hnd as [Hx Hnd].
  unfold has_id at 1. case_bool_decide as Hxo.
  - destruct Hin as [->|Hin]; [done|]. exfalso. apply Hx.
    rewrite Hxo, <- Hid. apply list_elem_of_In, in_map_iff. by exists d.
  - destruct Hin as [->|Hin]; [done|]. by apply IH.
Qed.

Lemma same_id_same_doc (coll : list doc) (a b : doc) :
  NoDup (ids coll) -> In a coll -> In b coll -> a !! "_id" = b !! "_id" -> a = b.
Proof.
  induction coll as [|x coll IH]; simpl; intros Hnd Ha Hb Hab; [done|].
  apply NoDup_cons in Hnd as [Hx Hnd].
  destruct Ha as [->|Ha], Hb as [->|Hb]; [done| | |by apply IH].
  - exfalso. apply Hx. rewrite Hab. apply list_elem_of_In, in_map_iff. by exists b.
  - exfalso. apply Hx. rewrite <- Hab. apply list_elem_of_In, in_map_iff. by exists a.
Qed.

Section Lookups.
Context {O : Odm} {L : OdmLaws O}.

(** [getUserById] on an id that is accepted and cast: the view of the first
    stored user with that id, deleted or not, or nothing. *)
Lemma getUserById_cast id s o :
  isValidObjectId id = true -> castObjectId id = Some o ->
  getUserById id s = Ok (user_view s <$> List.find (has_id o) (users s)).
Proof.
  intros Hv Ho. unfold getUserById, findById. rewrite Hv, Ho. simpl.
  by rewrite strip_populate.
Qed.

(** On a string [getUserById] never fails. *)
Lemma getUserById_eq (id : string) s :
  getUserById (VStr id) s =
    Ok (if isValidObjectId (VStr id)
        then o ← castObjectId (VStr id); user_view s <$> List.find (has_id o) (users s)
        else None).
Proof.
  destruct (isValidObjectId (VStr id)) eqn:Hv.
  - destruct (valid_id_casts id Hv) as [o Ho]. rewrite Ho. by apply getUserById_cast.
  - unfold getUserById. by rewrite Hv.
Qed.

Lemma compile_query_cons (c : rawcond) (q : list rawcond) (r : list cond) :
  compile_query (c :: q) = Ok r ->
  exists c' r', compile_cond c = Ok c' /\ compile_query q = Ok r' /\ r = c' :: r'.
Proof.
  cbn [compile_query]. intros H. ok_step H. ok_step H. apply Ok_inj in H as <-.
  by exists a, a0.
Qed.

(** Whatever the username given (a value or a query), the user that
    [getUserByUsername] returns is a stored one that is not deleted. *)
Lemma getUserByUsername_inv username s x :
  getUserByUsername username s = Ok (Some x) ->
  exists d, x = user_view s d /\ In d (users s) /\ get d "isDelete" = FBool false.
Proof.
  unfold getUserByUsername. destruct (negb _); [discriminate|].
  intros H. ok_step H. apply Ok_inj in H. rewrite strip_populate in H.
  unfold findOne in Ha. ok_step Ha. apply Ok_inj in Ha as <-.
  apply compile_query_cons in Ha0 as (c & r & _ & Hr & ->).
  cbn [compile_query compile_cond is_query] in Hr. rewrite cast_isDelete in Hr.
  apply Ok_inj in Hr as <-.
  destruct (head _) as [d|] eqn:Hd; [|discriminate]. injection H as <-.
  exists d. apply head_Some in Hd as [l' Hd].
  assert (In d (find [c; CEq "isDelete" (FBool false)] (users s))) as Hin
    by (rewrite Hd; by left).
  apply filter_In in Hin as [Hin Hm]. unfold matches in Hm. cbn [forallb] in Hm.
  apply andb_true_iff in Hm as [_ Hm]. apply andb_true_iff in Hm as [Hdel _].
  apply bool_decide_eq_true in Hdel. done.
Qed.

End Lookups.

(** C2. A stored user whose [isDelete] is true is an item of no listing
    returned by [getAllUsers], whatever the filter and the paging, and is
    never the record returned by [getUserByUsername]; [getUserById] called
    with its id still returns it, with [isDelete] true. *)
Theorem C2_soft_deleted_visibility {O : Odm} {L : OdmLaws O}
    (s : store) (d : doc) (o : string) :
  NoDup (ids (users s)) -> In d (users s) ->
  d !! "_id" = Some (FId o) -> valid_id o ->
  d !! "isDelete" = Some (FBool true) ->
  (forall page limit_ username fullName r,
      getAllUsers page limit_ username fullName s = Ok r ->
      forall x, In x (items_of r) ->
        x !! "_id" <> Some (RField (FId o)) /\ x !! "isDelete" = Some (RField (FBool false))) /\
  (forall username x,
      getUserByUsername username s = Ok (Some x) ->
      x !! "_id" <> Some (RField (FId o)) /\ x !! "isDelete" = Some (RField (FBool false))) /\
  getUserById (VStr o) s = Ok (Some (user_view s d)) /\
  user_view s d !! "_id" = Some (RField (FId o)) /\
  user_view s d !! "isDelete" = Some (RField (FBool true)).
Proof.
  intros Hnd Hin Hid [Hvalid Hcast] Hdel.
  assert (forall d', In d' (users s) -> get d' "isDelete" = FBool false ->
            user_view s d' !! "_id" <> Some (RField (FId o)) /\
            user_view s d' !! "isDelete" = Some (RField (FBool false))) as Hother.
  { intros d' Hin' Hlive. unfold get in Hlive.
    rewrite !user_view_lookup by done. split.
    - intros Hsame. destruct (d' !! "_id") as [f|] eqn:Hid'; [|discriminate].
      injection Hsame as ->.
      assert (d' = d) as -> by (eapply same_id_same_doc; eauto; congruence).
      by rewrite Hdel in Hlive.
    - destruct (d' !! "isDelete") as [f|]; simpl in *; [by subst | discriminate]. }
  repeat split.
  - destruct (getAllUsers_items _ _ _ _ _ _ H) as (q & Hq & Hitems).
    destruct (Hitems x H0) as (d' & -> & Hin' & Hm).
    apply compile_users_query in Hq as [q' ->].
    apply Hother; [done|]. simpl in Hm. apply andb_true_iff in Hm as [Hm _].
    by apply bool_decide_eq_true in Hm.
  - destruct (getAllUsers_items _ _ _ _ _ _ H) as (q & Hq & Hitems).
    destruct (Hitems x H0) as (d' & -> & Hin' & Hm).
    apply compile_users_query in Hq as [q' ->].
    apply Hother; [done|]. simpl in Hm. apply andb_true_iff in Hm as [Hm _].
    by apply bool_decide_eq_true in Hm.
  - apply getUserByUsername_inv in H as (d' & -> & Hin' & Hlive).
    by apply Hother.
  - apply getUserByUsername_inv in H as (d' & -> & Hin' & Hlive).
    by apply Hother.
  - rewrite getUserById_eq, Hvalid, Hcast. simpl.
    by rewrite (find_has_id_NoDup o (users s) d).
  - rewrite user_view_lookup by done. by rewrite Hid.
  - rewrite user_view_lookup by done. by rewrite Hdel.
Qed.

Lemma C2_witness :
  let o := "64a000000000000000000002" in
  (forall x, In x (items_of (Plain (user_view Sample.db <$> [Sample.carol; Sample.alice]))) ->
     x !! "_id" <> Some (RField (FId o))) /\
  getUserById (O:=Mongoose.odm) (VStr o) Sample.db = Ok (Some (user_view Sample.db Sample.bob)).
Proof.
  intros o.
  assert (NoDup (ids (users Sample.db))) as Hnd.
  { apply NoDup_ListNoDup. repeat constructor; vm_compute; intuition discriminate. }
  assert (In Sample.bob (users Sample.db)) as Hin by (right; left; reflexivity).
  assert (Sample.bob !! "_id" = Some (FId o)) as Hid by (vm_compute; reflexivity).
  assert (valid_id (O:=Mongoose.odm) o) as Hv by (split; vm_compute; reflexivity).
  assert (Sample.bob !! "isDelete" = Some (FBool true)) as Hdel by (vm_compute; reflexivity).
  pose proof (C2_soft_deleted_visibility (O:=Mongoose.odm) (L:=mongoose_laws)
                Sample.db Sample.bob o Hnd Hin Hid Hv Hdel) as (Hall & _ & Hbyid & _).
  split; [|exact Hbyid].
  intros x Hx.
  apply (Hall VUndefined VUndefined VUndefined VUndefined
           (Plain (user_view Sample.db <$> [Sample.carol; Sample.alice]))); [|exact Hx].
  vm_compute; reflexivity.
Defined.

(** ** Paging *)

Lemma limit_positive {A : Type} (n : Z) (l : list A) :
  0 < n -> limit n l = take (Z.to_nat n) l.
Proof. intros Hn. unfold limit. by destruct (Z.eqb_spec n 0); [lia|]. Qed.

Lemma limit_skip_window {A : Type} (p l : Z) (xs : list A) :
  0 < l -> limit l (skip ((p - 1) * l) xs) = window p l xs.
Proof. intros Hl. unfold window, skip. by rewrite limit_positive. Qed.


Lemma toInt_fallback (v : jsval) (def : Z) :
  toInt v def =
    match parseInt v with
    | Some n => if 0 <? n then n else def
    | None => def
    end.
Proof.
  unfold toInt. destruct (parseInt v) as [n|]; [|done].
  destruct (Z.leb_spec n 0), (Z.ltb_spec 0 n); done || lia.
Qed.




(** ** Pages partition the listing *)








(** ** Unique indexes *)





Section Casting.
Context {O : Odm}.

(** One step of [cast_fields], by cases on the head path. *)
Lemma cast_fields_cons (k0 : string) (paths : list string) (set : gmap string jsval)
    (given : doc) :
  cast_fields (k0 :: paths) set = Ok given ->
  ((set !! k0 = None \/ set !! k0 = Some VUndefined) /\ cast_fields paths set = Ok given) \/
  (exists v f r, set !! k0 = Some v /\ v <> VUndefined /\ cast k0 v = Some f /\
     cast_fields paths set = Ok r /\ given = <[k0 := f]> r).
Proof.
  simpl. destruct (set !! k0) as [v|]; [|by auto].
  destruct (decide (v = VUndefined)) as [->|Hv]; [by auto|].
  intros H. right.
  assert (match cast k0 v with
          | Some f => r ← cast_fields paths set; Ok (<[k0:=f]> r)
          | None => Throw (StoreError (CastError k0))
          end = Ok given) as H' by (by destruct v).
  clear H. destruct (cast k0 v) as [f|] eqn:Hc; [|discriminate].
  ok_step H'. injection H' as <-. by exists v, f, a.
Qed.

(** A key of the schema that is set to a defined value holds its cast. *)
Lemma cast_fields_set (paths : list string) (set : gmap string jsval) (given : doc)
    (k : string) (v : jsval) :
  cast_fields paths set = Ok given ->
  k ∈ paths -> set !! k = Some v -> v <> VUndefined ->
  given !! k = cast k v.
Proof.
  revert given. induction paths as [|k0 paths IH]; intros given H Hin Hk Hv.
  - by apply elem_of_nil in Hin.
  - apply cast_fields_cons in H as [[Hk0 H]|(v0 & f & r & Hk0 & Hv0 & Hc & H & ->)].
    + apply elem_of_cons in Hin as [->|Hin]; [|by apply IH].
      destruct Hk0; congruence.
    + destruct (decide (k0 = k)) as [<-|Hne].
      * rewrite lookup_insert_eq. congruence.
      * rewrite lookup_insert_ne by done.
        apply elem_of_cons in Hin as [->|Hin]; [done | by apply IH].
Qed.

(** Any other key is absent from the cast. *)
Lemma cast_fields_unset (paths : list string) (set : gmap string jsval) (given : doc)
    (k : string) :
  cast_fields paths set = Ok given ->
  k ∉ paths \/ set !! k = None \/ set !! k = Some VUndefined ->
  given !! k = None.
Proof.
  revert given. induction paths as [|k0 paths IH]; intros given H Hk.
  - injection H as <-. apply lookup_empty.
  - assert (k ∉ paths \/ set !! k = None \/ set !! k = Some VUndefined) as Hk'.
    { destruct Hk as [Hk|Hk]; [left | by right]. intros Hin. apply Hk. by right. }
    apply cast_fields_cons in H as [[Hk0 H]|(v0 & f & r & Hk0 & Hv0 & Hc & H & ->)].
    + by apply IH.
    + rewrite lookup_insert_ne; [by apply IH|].
      intros <-. destruct Hk as [Hk|[Hk|Hk]]; [|congruence..].
      apply Hk. by left.
Qed.

End Casting.

(** ** Conflicts *)

Section Conflicts.
Context {O : Odm}.


Lemma User_create_Ok oid now fields coll d coll' :
  User_create oid now fields coll = Ok (d, coll') ->
  exists given, cast_fields user_paths fields = Ok given /\
    d = given ∪ user_defaults oid now /\ coll' = (coll ++ [d])%list /\
    dup_key unique_paths coll d = None.
Proof.
  unfold User_create. intros H. ok_step H. exists a. split; [done|].
  destruct (dup_key _ _ _) eqn:Hd; [discriminate|]. by injection H as <- <-.
Qed.


Lemma new_user_username payload roleId :
  new_user_fields payload roleId !! "username" =
    Some (VStr (trim (ToString (prop payload "username")))).
Proof. unfold new_user_fields. by rewrite lookup_insert_eq. Qed.

Lemma new_user_email payload roleId :
  new_user_fields payload roleId !! "email" =
    Some (VStr (trim (ToString (prop payload "email")))).
Proof.
  unfold new_user_fields. rewrite !lookup_insert_ne by done. by rewrite lookup_insert_eq.
Qed.




Lemma split_first_app (P : doc -> bool) (coll pre post : list doc) (d : doc) :
  split_first P coll = Some (pre, d, post) ->
  coll = (pre ++ d :: post)%list /\ P d = true /\ forall x, In x pre -> P x = false.
Proof.
  revert pre. induction coll as [|x coll IH]; simpl; intros pre H; [discriminate|].
  destruct (P x) eqn:Hx.
  - injection H as <- <- <-. by repeat split.
  - destruct (split_first P coll) as [[[pre' y] post']|]; simpl in H; [|discriminate].
    injection H as <- <- <-. destruct (IH pre' eq_refl) as (-> & Hd & Hpre).
    repeat split; [done|]. intros z [<-|Hz]; [done | by apply Hpre].
Qed.

Lemma split_first_None (P : doc -> bool) (coll : list doc) :
  split_first P coll = None <-> forall x, In x coll -> P x = false.
Proof.
  induction coll as [|x coll IH]; simpl; [by split|].
  destruct (P x) eqn:Hx.
  - split; [discriminate|]. intros H. specialize (H x (or_introl eq_refl)). congruence.
  - destruct (split_first P coll) as [[[pre y] post]|]; simpl.
    + split; [discriminate|]. intros H.
      assert (Some (pre, y, post) = None) as E; [|discriminate E].
      apply IH. intros z Hz. apply H. by right.
    + split; [|done]. intros _ z [<-|Hz]; [done|]. by apply (proj1 IH).
Qed.



End Conflicts.

Lemma username_path : "username" ∈ user_paths.
Proof. set_solver. Qed.

Lemma email_path : "email" ∈ user_paths.
Proof. set_solver. Qed.

Lemma status_path : "status" ∈ user_paths.
Proof. set_solver. Qed.

Lemma cast_fields_defined {O : Odm} (paths : list string) (set : gmap string jsval)
    (given : doc) (k : string) (v : jsval) :
  cast_fields paths set = Ok given ->
  k ∈ paths -> set !! k = Some v -> v <> VUndefined ->
  exists f, cast k v = Some f /\ given !! k = Some f.
Proof.
  intros H Hin Hk Hv. rewrite (cast_fields_set _ _ _ _ _ H Hin Hk Hv).
  revert given H. induction paths as [|k0 paths IH]; intros given H.
  - by apply elem_of_nil in Hin.
  - apply cast_fields_cons in H as [[Hk0 H]|(v0 & f & r & Hk0 & Hv0 & Hc & H & ->)].
    + apply elem_of_cons in Hin as [->|Hin]; [|by eapply IH].
      destruct Hk0; congruence.
    + destruct (decide (k0 = k)) as [<-|Hne].
      * exists f. split; congruence.
      * apply elem_of_cons in Hin as [->|Hin]; [done | by eapply IH].
Qed.



(** ** Updates *)

Lemma pick_cons (k0 : string) (ks : list string) (updates : gmap string jsval) :
  pick (k0 :: ks) updates =
    if decide (prop updates k0 = VUndefined) then pick ks updates
    else <[k0 := prop updates k0]> (pick ks updates).
Proof. simpl. by destruct (prop updates k0). Qed.

(** Only allowed keys with a defined value reach the [$set] document. *)
Lemma pick_lookup_None (ks : list string) (updates : gmap string jsval) (k : string) :
  k ∉ ks \/ prop updates k = VUndefined -> pick ks updates !! k = None.
Proof.
  induction ks as [|k0 ks IH]; intros Hk; [apply lookup_empty|].
  assert (k ∉ ks \/ prop updates k = VUndefined) as Hk'.
  { destruct Hk as [Hk|Hk]; [left | by right]. intros Hin. apply Hk. by right. }
  rewrite pick_cons. destruct (decide (prop updates k0 = VUndefined)) as [E|E]; [by apply IH|].
  rewrite lookup_insert_ne; [by apply IH|].
  intros <-. destruct Hk as [Hk|Hk]; [|done]. apply Hk. by left.
Qed.

Lemma pick_lookup_Some (ks : list string) (updates : gmap string jsval) (k : string) :
  k ∈ ks -> prop updates k <> VUndefined -> pick ks updates !! k = Some (prop updates k).
Proof.
  induction ks as [|k0 ks IH]; intros Hin Hk; [by apply elem_of_nil in Hin|].
  rewrite pick_cons. destruct (decide (k0 = k)) as [->|Hne].
  - rewrite decide_False by done. apply lookup_insert_eq.
  - apply elem_of_cons in Hin as [->|Hin]; [done|].
    destruct (decide (prop updates k0 = VUndefined)); [by apply IH|].
    rewrite lookup_insert_ne by done. by apply IH.
Qed.

Section Updates.
Context {O : Odm}.

Lemma validate_set_lookup_None toSet s toSet' k :
  validate_set toSet s = Ok toSet' -> toSet !! k = None -> toSet' !! k = None.
Proof.
  unfold validate_set. intros H Hk.
  ok_step H. apply Ok_inj in H as <-.
  assert (a !! k = None) as Ha'.
  { destruct (truthy (prop toSet "role")) eqn:Hr.
    - ok_step Ha. apply Ok_inj in Ha as <-.
      destruct (decide (k = "role")) as [->|Hne].
      + unfold prop in Hr. by rewrite Hk in Hr.
      + by rewrite lookup_insert_ne.
    - by apply Ok_inj in Ha as <-. }
  destruct (truthy (prop a "password")) eqn:Hp; [|done].
  destruct (decide (k = "password")) as [->|Hne].
  - unfold prop in Hp. by rewrite Ha' in Hp.
  - by rewrite lookup_insert_ne.
Qed.

Lemma prepare_update_lookup_None updates s toSet k :
  prepare_update updates s = Ok toSet ->
  k ∉ allowed \/ prop updates k = VUndefined ->
  toSet !! k = None.
Proof.
  unfold prepare_update. intros H Hk.
  eapply validate_set_lookup_None; [exact H|]. by apply pick_lookup_None.
Qed.

Lemma update_first_Ok P set' coll r coll' :
  update_first P set' coll = Ok (r, coll') ->
  (r = None /\ coll' = coll /\ forall x, In x coll -> P x = false) \/
  (exists pre d post, coll = (pre ++ d :: post)%list /\ P d = true /\
     (forall x, In x pre -> P x = false) /\
     r = Some (set' ∪ d) /\ coll' = (pre ++ (set' ∪ d) :: post)%list).
Proof.
  unfold update_first. destruct (split_first P coll) as [[[pre d] post]|] eqn:Hs.
  - destruct (dup_key _ _ _); [discriminate|]. intros [= <- <-]. right.
    apply split_first_app in Hs as (-> & Hd & Hpre). by exists pre, d, post.
  - intros [= <- <-]. left. repeat split. by apply split_first_None.
Qed.

(** A [$set] leaves alone what it does not name. *)
Lemma update_first_frame P set' coll r coll' :
  update_first P set' coll = Ok (r, coll') ->
  Forall2 (fun d d' : doc => forall k, set' !! k = None -> d' !! k = d !! k) coll coll'.
Proof.
  intros H. apply update_first_Ok in H as [(_ & -> & _)|(pre & d & post & -> & _ & _ & _ & ->)].
  - by apply Forall_Forall2_diag, Forall_forall.
  - apply Forall2_app; [by apply Forall_Forall2_diag, Forall_forall|].
    constructor; [|by apply Forall_Forall2_diag, Forall_forall].
    intros k Hk. by rewrite lookup_union_r.
Qed.

Lemma updateUser_frame id updates s r s' :
  updateUser id updates s = Ok (r, s') ->
  roles s' = roles s /\
  Forall2 (fun d d' : doc =>
             forall k, k ∉ allowed \/ prop updates k = VUndefined -> d' !! k = d !! k)
          (users s) (users s').
Proof.
  unfold updateUser. destruct (negb _).
  - intros [= <- <-]. split; [done|]. by apply Forall_Forall2_diag, Forall_forall.
  - intros H. ok_step H. apply catch_duplicate_Ok in H. ok_step H.
    destruct a0 as [doc us]. injection H as _ <-. split; [done|]. simpl.
    unfold findByIdAndUpdate in Ha0. destruct (castObjectId id) as [o|]; [|discriminate].
    ok_step Ha0. apply update_first_frame in Ha0.
    eapply Forall2_impl; [exact Ha0|]. intros d d' Hd k Hk. apply Hd.
    eapply cast_fields_unset; [exact Ha1|]. right.
    rewrite (prepare_update_lookup_None _ _ _ _ Ha Hk). by left.
Qed.

(** Casting a [$set] with a single key. *)
Lemma cast_fields_singleton (paths : list string) (k : string) (v : jsval) (f : field) :
  v <> VUndefined -> cast k v = Some f ->
  cast_fields paths {[ k := v ]} = Ok (if bool_decide (k ∈ paths) then {[ k := f ]} else ∅).
Proof.
  intros Hv Hc. induction paths as [|k0 paths IH]; simpl; [done|].
  destruct (decide (k0 = k)) as [->|Hne].
  - rewrite lookup_singleton_eq. rewrite (bool_decide_eq_true_2 (k ∈ k :: paths)) by (by left).
    assert (match cast k v with
            | Some f => r ← cast_fields paths {[k := v]}; Ok (<[k:=f]> r)
            | None => Throw (StoreError (CastError k))
            end = Ok {[k := f]}) as H; [|by destruct v].
    rewrite Hc, IH. simpl. f_equal. case_bool_decide.
    + apply insert_singleton_eq.
    + done.
  - rewrite lookup_singleton_ne by done. rewrite IH.
    replace (bool_decide (k ∈ k0 :: paths)) with (bool_decide (k ∈ paths)); [done|].
    apply bool_decide_ext. rewrite elem_of_cons. split; [by right | by intros [->|?]].
Qed.

End Updates.

Lemma fullName_path : "fullName" ∈ user_paths.
Proof. set_solver. Qed.

Lemma update_first_plain P set' coll pre d post :
  split_first P coll = Some (pre, d, post) ->
  get (set' ∪ d) "username" = get d "username" ->
  get (set' ∪ d) "email" = get d "email" ->
  update_first P set' coll = Ok (Some (set' ∪ d), (pre ++ (set' ∪ d) :: post)%list).
Proof.
  intros Hs Hu He. unfold update_first. rewrite Hs. unfold unique_paths. simpl.
  by rewrite (bool_decide_eq_true_2 _ Hu), (bool_decide_eq_true_2 _ He).
Qed.

Lemma pick_isDelete_fullName (x : string) :
  pick allowed {[ "isDelete" := VBool true; "fullName" := VStr x ]} = {[ "fullName" := VStr x ]}.
Proof. vm_compute. reflexivity. Qed.

Lemma validate_set_fullName {O : Odm} (x : string) (s : store) :
  validate_set {[ "fullName" := VStr x ]} s = Ok {[ "fullName" := VStr x ]}.
Proof. reflexivity. Qed.

(** C6. [updateUser] writes only the allowed fields [fullName],
    [avatarUrl], [status], [role], [email], [username], [password] that the
    update object defines: every other field of every stored user, and the
    roles, are as before.  In particular, updating with
    [{ isDelete: true, fullName: x }] sets [fullName] and leaves [isDelete]
    as it was. *)
Theorem C6_update_allow_list {O : Odm} (s : store) :
  (forall id updates r s',
      updateUser id updates s = Ok (r, s') ->
      roles s' = roles s /\
      Forall2 (fun d d' : doc =>
                 forall k, k ∉ allowed \/ prop updates k = VUndefined -> d' !! k = d !! k)
              (users s) (users s')) /\
  (forall id o pre d post x f,
      isValidObjectId id = true -> castObjectId id = Some o ->
      split_first (has_id o) (users s) = Some (pre, d, post) ->
      cast "fullName" (VStr x) = Some f ->
      let d' := <["fullName" := f]> d in
      updateUser id {[ "isDelete" := VBool true; "fullName" := VStr x ]} s =
        Ok (Some (user_view s d'), mkStore (pre ++ d' :: post) (roles s)) /\
      d' !! "fullName" = Some f /\
      d' !! "isDelete" = d !! "isDelete").
Proof.
  split; [intros id updates r s' H; by apply (updateUser_frame id updates s r s')|].
  intros id o pre d post x f Hv Ho Hs Hc d'. split; [|split].
  - unfold updateUser, prepare_update. rewrite Hv, pick_isDelete_fullName.
    rewrite validate_set_fullName. simpl.
    unfold findByIdAndUpdate. rewrite Ho.
    rewrite (cast_fields_singleton user_paths "fullName" (VStr x) f) by done.
    rewrite (bool_decide_eq_true_2 _ fullName_path). simpl.
    assert ({[ "fullName" := f ]} ∪ d = d') as Hd' by (symmetry; apply insert_union_singleton_l).
    rewrite (update_first_plain _ _ _ pre d post Hs); rewrite Hd'.
    + done.
    + unfold d', get. by rewrite lookup_insert_ne.
    + unfold d', get. by rewrite lookup_insert_ne.
  - apply lookup_insert_eq.
  - by apply lookup_insert_ne.
Qed.

Lemma C6_witness :
  let updates : gmap string jsval := {[ "isDelete" := VBool true; "fullName" := VStr "X" ]} in
  Forall2 (fun d d' : doc =>
             forall k, k ∉ allowed \/ prop updates k = VUndefined -> d' !! k = d !! k)
          (users Sample.db)
          [<["fullName" := FStr "X"]> Sample.alice; Sample.bob; Sample.carol].
Proof.
  intros updates.
  assert (updateUser (O:=Mongoose.odm) (VStr "64a000000000000000000001") updates Sample.db =
            Ok (Some (user_view Sample.db (<["fullName" := FStr "X"]> Sample.alice)),
                mkStore [<["fullName" := FStr "X"]> Sample.alice; Sample.bob; Sample.carol]
                        (roles Sample.db))) as E by (vm_compute; reflexivity).
  exact (proj2 (proj1 (C6_update_allow_list (O:=Mongoose.odm) Sample.db) _ _ _ _ E)).
Defined.

(** ** Verification *)

Lemma split_first_intro (P : doc -> bool) (pre post : list doc) (d : doc) :
  (forall x, In x pre -> P x = false) -> P d = true ->
  split_first P (pre ++ d :: post) = Some (pre, d, post).
Proof.
  induction pre as [|x pre IH]; simpl; intros Hpre Hd.
  - by rewrite Hd.
  - rewrite (Hpre x (or_introl eq_refl)). rewrite IH; [done| |done].
    intros y Hy. apply Hpre. by right.
Qed.

Lemma matches_verifies (e u : field) (d : doc) :
  matches [CEq "email" e; CEq "username" u; CEq "isDelete" (FBool false)] d = true
  <-> verifies e u d.
Proof.
  unfold verifies. simpl. rewrite !andb_true_iff, !bool_decide_eq_true. tauto.
Qed.

Lemma store_eta (s : store) : mkStore (users s) (roles s) = s.
Proof. by destruct s. Qed.

Lemma status_set_union (d : doc) :
  ({[ "status" := FBool true ]} : doc) ∪ d = <["status" := FBool true]> d.
Proof. symmetry. apply insert_union_singleton_l. Qed.

Lemma verifyUser_run {O : Odm} {L : OdmLaws O} email username s e u :
  is_query email = false -> is_query username = false ->
  truthy email = true -> truthy username = true ->
  cast "email" email = Some e -> cast "username" username = Some u ->
  verifyUser email username s =
    match update_first
            (matches [CEq "email" e; CEq "username" u; CEq "isDelete" (FBool false)])
            {[ "status" := FBool true ]} (users s) with
    | Ok (doc, us) => Ok (user_view s <$> doc, mkStore us (roles s))
    | Throw err => Throw err
    end.
Proof.
  intros Hqe Hqu Hte Htu He Hu.
  unfold verifyUser, findOneAndUpdate. rewrite Hte, Htu.
  cbn [negb orb compile_query compile_cond is_query].
  rewrite Hqe, Hqu, He, Hu, cast_isDelete.
  rewrite (cast_fields_singleton user_paths "status" (VBool true) (FBool true))
    by (done || apply cast_status).
  rewrite (bool_decide_eq_true_2 _ status_path).
  unfold mbind, outcome_bind. cbv beta iota.
  destruct (update_first _ _ _) as [[doc us]|err]; [|done].
  by rewrite strip_populate.
Qed.

Lemma split_first_Some (P : doc -> bool) (coll : list doc) (d : doc) :
  In d coll -> P d = true -> exists pre x post, split_first P coll = Some (pre, x, post).
Proof.
  intros Hin Hd. destruct (split_first P coll) as [[[pre x] post]|] eqn:Hs; [by eauto|].
  rewrite (proj1 (split_first_None P coll) Hs d Hin) in Hd. discriminate Hd.
Qed.

(** C7 as stated fails in both directions.  The arguments are put in the
    filter as they come, so the query [{$ne: null}] given for both selects a
    live record that carries neither value; and the guard on an empty
    argument returns nothing although a live record carries both values. *)
Lemma C7_counterexample :
  ~ (forall (email username : jsval) (s s' : store) (o : leanobj),
        verifyUser (O:=Mongoose.odm) email username s = Ok (Some o, s') ->
        exists d, In d (users s) /\ get d "isDelete" = FBool false /\
          cast (Odm:=Mongoose.odm) "email" email = Some (get d "email") /\
          cast (Odm:=Mongoose.odm) "username" username = Some (get d "username")) /\
  ~ (forall (email username : jsval) (s : store) (d : doc),
        In d (users s) -> get d "isDelete" = FBool false ->
        cast (Odm:=Mongoose.odm) "email" email = Some (get d "email") ->
        cast (Odm:=Mongoose.odm) "username" username = Some (get d "username") ->
        exists o s', verifyUser (O:=Mongoose.odm) email username s = Ok (Some o, s')).
Proof.
  split.
  - intros H.
    destruct (H (VObj [("$ne", VNull)]) (VObj [("$ne", VNull)]) Sample.db
                (mkStore [<["status" := FBool true]> Sample.alice; Sample.bob; Sample.carol]
                   (roles Sample.db))
                (user_view Sample.db (<["status" := FBool true]> Sample.alice)))
      as (d & _ & _ & He & _).
    + vm_compute. exact eq_refl.
    + vm_compute in He. discriminate He.
  - intros H.
    destruct (H (VStr "") (VStr "dave")
                (mkStore [Sample.user "64a000000000000000000004" "dave" "" "Dave D" false 4000] [])
                (Sample.user "64a000000000000000000004" "dave" "" "Dave D" false 4000))
      as (o & s' & E).
    + by left.
    + vm_compute. exact eq_refl.
    + vm_compute. exact eq_refl.
    + vm_compute. exact eq_refl.
    + vm_compute in E. discriminate E.
Qed.

(** C7, amended.  For an email and a username that are values to compare
    with (not arrays or objects of query operators): [verifyUser] on two
    truthy arguments sets [status] to true exactly when a live record
    carries both the given email and the given username, as the schema
    casts them: the first such record is updated (nothing but its [status]
    changes) and returned; when no record carries both (a matching email
    with another username, say) nothing is returned and the store is as
    before.  When an argument is falsy nothing is returned and the store is
    as before, whatever it holds. *)
Theorem C7_verify_needs_both {O : Odm} {L : OdmLaws O}
    (s : store) (email username : jsval) :
  (truthy email = false \/ truthy username = false ->
   verifyUser email username s = Ok (None, s)) /\
  (forall e u,
      is_query email = false -> is_query username = false ->
      truthy email = true -> truthy username = true ->
      cast "email" email = Some e -> cast "username" username = Some u ->
      ((forall d, In d (users s) -> ~ verifies e u d) ->
       verifyUser email username s = Ok (None, s)) /\
      (forall pre d post,
          users s = (pre ++ d :: post)%list -> verifies e u d ->
          (forall x, In x pre -> ~ verifies e u x) ->
          let d' := <["status" := FBool true]> d in
          verifyUser email username s =
            Ok (Some (user_view s d'), mkStore (pre ++ d' :: post) (roles s)) /\
          d' !! "status" = Some (FBool true) /\
          (forall k, k <> "status" -> d' !! k = d !! k)) /\
      ((exists d, In d (users s) /\ verifies e u d) <->
       (exists o s', verifyUser email username s = Ok (Some o, s')))).
Proof.
  assert (truthy email = false \/ truthy username = false ->
          verifyUser email username s = Ok (None, s)) as Hempty.
  { intros [H|H]; unfold verifyUser; rewrite H; [done|]. by rewrite orb_true_r. }
  split; [exact Hempty|].
  intros e u Hqe Hqu Hte Htu He Hu.
  rewrite (verifyUser_run _ _ _ e u) by done. split; [|split].
  - intros Hnone. unfold update_first.
    rewrite (proj2 (split_first_None _ _)).
    + simpl. by rewrite store_eta.
    + intros x Hx. apply not_true_is_false. intros Hm.
      by apply (Hnone x Hx), matches_verifies.
  - intros pre d post Hs Hd Hpre d'. split; [|split].
    + rewrite Hs. rewrite (update_first_plain _ _ _ pre d post).
      * simpl. by rewrite status_set_union.
      * apply split_first_intro; [|by apply matches_verifies].
        intros x Hx. apply not_true_is_false. intros Hm.
        by apply (Hpre x Hx), matches_verifies.
      * rewrite status_set_union. unfold get. by rewrite lookup_insert_ne.
      * rewrite status_set_union. unfold get. by rewrite lookup_insert_ne.
    + apply lookup_insert_eq.
    + intros k Hk. by apply lookup_insert_ne.
  - split.
    + intros (d & Hin & Hd).
      destruct (split_first_Some _ _ d Hin (proj2 (matches_verifies e u d) Hd))
        as (pre & x & post & Hs).
      rewrite (update_first_plain _ _ _ pre x post Hs).
      * by eauto.
      * rewrite status_set_union. unfold get. by rewrite lookup_insert_ne.
      * rewrite status_set_union. unfold get. by rewrite lookup_insert_ne.
    + intros (o & s' & Hv).
      destruct (update_first _ _ _) as [[doc us]|err] eqn:Hup; [|discriminate].
      apply Ok_inj in Hv. injection Hv as Hdoc _.
      apply update_first_Ok in Hup as [(-> & _)|(pre & d & post & Hs & Hd & _)];
        [discriminate|].
      exists d. split; [|by apply matches_verifies].
      rewrite Hs. apply in_or_app. right. by left.
Qed.

Lemma C7_witness :
  verifyUser (O:=Mongoose.odm) (VStr "a@x.com") (VStr "bob") Sample.db = Ok (None, Sample.db) /\
  verifyUser (O:=Mongoose.odm) (VStr "a@x.com") (VStr "alice") Sample.db =
    Ok (Some (user_view Sample.db (<["status" := FBool true]> Sample.alice)),
        mkStore ([] ++ <["status" := FBool true]> Sample.alice :: [Sample.bob; Sample.carol])
                (roles Sample.db)).
Proof.
  assert (cast (Odm:=Mongoose.odm) "email" (VStr "a@x.com") = Some (FStr "a@x.com")) as He
    by (vm_compute; reflexivity).
  assert (cast (Odm:=Mongoose.odm) "username" (VStr "bob") = Some (FStr "bob")) as Hbob
    by (vm_compute; reflexivity).
  assert (cast (Odm:=Mongoose.odm) "username" (VStr "alice") = Some (FStr "alice")) as Halice
    by (vm_compute; reflexivity).
  split.
  - destruct (C7_verify_needs_both (O:=Mongoose.odm) (L:=mongoose_laws)
                Sample.db (VStr "a@x.com") (VStr "bob")) as (_ & H).
    destruct (H (FStr "a@x.com") (FStr "bob") eq_refl eq_refl eq_refl eq_refl He Hbob)
      as (Hnone & _).
    apply Hnone. intros d [<-|[<-|[<-|[]]]] (Hm & Hu & Hd); vm_compute in Hm, Hu, Hd;
      discriminate.
  - destruct (C7_verify_needs_both (O:=Mongoose.odm) (L:=mongoose_laws)
                Sample.db (VStr "a@x.com") (VStr "alice")) as (_ & H).
    destruct (H (FStr "a@x.com") (FStr "alice") eq_refl eq_refl eq_refl eq_refl He Halice)
      as (_ & Hsome & _).
    apply (Hsome [] Sample.alice [Sample.bob; Sample.carol]).
    + reflexivity.
    + repeat split; vm_compute; reflexivity.
    + intros x [].
Defined.

(** ** Lookup by id, whatever the deletion flag *)

(** C8 as stated fails: [getUserById] returns a record whose [isDelete]
    is true. *)
Lemma C8_counterexample :
  ~ (forall (s : store) (id : jsval) (x : leanobj),
        getUserById (O:=Mongoose.odm) id s = Ok (Some x) ->
        x !! "isDelete" = Some (RField (FBool false))).
Proof.
  intros H.
  specialize (H Sample.db (VStr "64a000000000000000000002")
                (user_view Sample.db Sample.bob)).
  assert (user_view Sample.db Sample.bob !! "isDelete" = Some (RField (FBool true))) as E
    by (vm_compute; reflexivity).
  rewrite H in E; [discriminate E|]. vm_compute. reflexivity.
Qed.

(** C8, amended.  [getUserById] looks the id up among all stored users,
    deleted or not: an id that is not valid, or that no stored user has,
    gives no result; the id of a stored user gives that user, with its
    [isDelete] as stored; and on a string, which is what a path parameter
    is, the call never fails. *)
Theorem C8_getUserById_any_state {O : Odm} {L : OdmLaws O} (s : store) (id : jsval) :
  (isValidObjectId id = false -> getUserById id s = Ok None) /\
  (forall o, isValidObjectId id = true -> castObjectId id = Some o ->
     (forall d, In d (users s) -> d !! "_id" <> Some (FId o)) ->
     getUserById id s = Ok None) /\
  (forall o d, isValidObjectId id = true -> castObjectId id = Some o ->
     NoDup (ids (users s)) -> In d (users s) -> d !! "_id" = Some (FId o) ->
     getUserById id s = Ok (Some (user_view s d)) /\
     user_view s d !! "isDelete" = RField <$> (d !! "isDelete")) /\
  (forall i, id = VStr i -> exists r, getUserById id s = Ok r).
Proof.
  split; [|split; [|split]].
  - intros Hv. unfold getUserById. by rewrite Hv.
  - intros o Hv Ho Hnone. rewrite (getUserById_cast id s o Hv Ho).
    destruct (List.find (has_id o) (users s)) as [d|] eqn:Hf; [|done].
    apply find_has_id_In in Hf as [Hin Hid]. by destruct (Hnone d Hin).
  - intros o d Hv Ho Hnd Hin Hid. rewrite (getUserById_cast id s o Hv Ho). split.
    + by rewrite (find_has_id_NoDup o (users s) d).
    + by apply user_view_lookup.
  - intros i ->. rewrite getUserById_eq. by eauto.
Qed.

Lemma C8_witness :
  getUserById (O:=Mongoose.odm) (VStr "64a000000000000000000002") Sample.db =
    Ok (Some (user_view Sample.db Sample.bob)) /\
  user_view Sample.db Sample.bob !! "isDelete" = RField <$> (Sample.bob !! "isDelete").
Proof.
  destruct (C8_getUserById_any_state (O:=Mongoose.odm) (L:=mongoose_laws) Sample.db
              (VStr "64a000000000000000000002")) as (_ & _ & H & _).
  apply (H "64a000000000000000000002" Sample.bob); try (vm_compute; reflexivity).
  - apply NoDup_ListNoDup. repeat constructor; vm_compute; intuition discriminate.
  - right; left; reflexivity.
Defined.

(** ** Filters *)


Lemma roles_query_eq (name includeDeleted : jsval) :
  roles_query name includeDeleted =
    ((if negb (truthy includeDeleted) || bool_decide (includeDeleted = VStr "false")
      then [QEq "isDelete" (VBool false)] else []) ++
     (if truthy name then [QRegex "name" (ToString name)] else []))%list.
Proof.
  unfold roles_query.
  by destruct (negb (truthy includeDeleted) || bool_decide (includeDeleted = VStr "false")),
    (truthy name).
Qed.


Section Filters.
Context {O : Odm} {L : OdmLaws O}.



Lemma compile_live : compile_query [QEq "isDelete" (VBool false)] = Ok [CEq "isDelete" (FBool false)].
Proof. cbn [compile_query compile_cond]. by rewrite cast_isDelete. Qed.

Lemma matches_live (d : doc) :
  matches [CEq "isDelete" (FBool false)] d = true <-> get d "isDelete" = FBool false.
Proof. simpl. by rewrite andb_true_r, bool_decide_eq_true. Qed.

End Filters.




(** ** The status of a new user *)




(** ** Worked examples *)

Example toInt_decimal : toInt (VStr "25") 10 = 25.
Proof. reflexivity. Qed.

Example toInt_zero : toInt (VStr "0") 1 = 1.
Proof. reflexivity. Qed.

Example toInt_negative : toInt (VStr " -4") 10 = 10.
Proof. reflexivity. Qed.

Example toInt_words : toInt (VStr "abc") 10 = 10.
Proof. reflexivity. Qed.

Example toInt_prefix : toInt (VStr "12abc") 10 = 12.
Proof. reflexivity. Qed.

Example toInt_number : toInt (VNum 1000) 10 = 1000.
Proof. vm_compute. reflexivity. Qed.

Example trim_both : trim "  alice " = "alice".
Proof. reflexivity. Qed.

(** The no-break space U+00A0 (bytes 194, 160) and the ideographic space
    U+3000 (bytes 227, 128, 128) are white space too. *)
Example trim_unicode :
  let nbsp := String (ascii_of_nat 194) (String (ascii_of_nat 160) "") in
  let wide := String (ascii_of_nat 227) (String (ascii_of_nat 128)
                (String (ascii_of_nat 128) "")) in
  trim (nbsp +:+ "dave smith" +:+ wide +:+ " ") = "dave smith".
Proof. reflexivity. Qed.

Example toInt_after_nbsp :
  toInt (VStr (String (ascii_of_nat 194) (String (ascii_of_nat 160) "7"))) 10 = 7.
Proof. reflexivity. Qed.

Example toInt_fraction : toInt (VFloat "2.5") 10 = 2.
Proof. reflexivity. Qed.

(** The number 10^21, which [String] writes ["1e+21"]. *)
Example toInt_exponent : toInt (VFloat "1e+21") 10 = 1.
Proof. reflexivity. Qed.

Example toInt_array : toInt (VArr [VStr "3"; VNum 4]) 10 = 3.
Proof. reflexivity. Qed.

(** A number passes [isValidObjectId] and is not cast: the lookup fails. *)
Example number_id :
  getUserById (O:=Mongoose.odm) (VNum 5) Sample.db = Throw (StoreError (CastError "_id")).
Proof. reflexivity. Qed.

Example number_role :
  createUser (O:=Mongoose.odm) "64a000000000000000000009" 5000
    {[ "username" := VStr "dave"; "password" := VStr "pw"; "email" := VStr "d@x.com";
       "role" := VNum 5 ]} Sample.db
  = Throw (StoreError (CastError "_id")).
Proof. vm_compute. reflexivity. Qed.

(** An email made of spaces passes the check of [createUser] and is stored
    empty. *)
Example blank_email_is_stored :
  exists d, createUser (O:=Mongoose.odm) "64a000000000000000000004" 4000
              {[ "username" := VStr "dave"; "password" := VStr "pw"; "email" := VStr " " ]}
              (mkStore [] [])
            = Ok (delete "password" (toObject d), mkStore [d] []) /\
            d !! "email" = Some (FStr "").
Proof.
  exists ({[ "username" := FStr "dave"; "password" := FStr (Mongoose.bcrypt_hash "pw" 10);
             "email" := FStr "" ]} ∪ user_defaults "64a000000000000000000004" 4000).
  split; vm_compute; exact eq_refl.
Qed.

(** A query in the place of a username selects by its operators. *)
Example query_as_username :
  getUserByUsername (O:=Mongoose.odm) (VObj [("$ne", VStr "alice")]) Sample.db =
    Ok (Some (user_view Sample.db Sample.carol)).
Proof. vm_compute. exact eq_refl. Qed.

Example empty_page_is_not_paging :
  exists items,
    getAllUsers (O:=Mongoose.odm) (VStr "") VUndefined VUndefined VUndefined Sample.db =
      Ok (Plain items).
Proof. eexists. vm_compute. reflexivity. Qed.

Example rejected_pattern :
  getAllUsers (O:=Mongoose.odm) VUndefined VUndefined (VStr "*") VUndefined Sample.db =
    Throw (StoreError (RegexError "*")).
Proof. vm_compute. reflexivity. Qed.

(** * Further properties of the services *)

(** ** Soft deletion *)

Lemma isDelete_path : "isDelete" ∈ user_paths.
Proof. set_solver. Qed.

Lemma isDelete_set_union (d : doc) :
  ({[ "isDelete" := FBool true ]} : doc) ∪ d = <["isDelete" := FBool true]> d.
Proof. symmetry. apply insert_union_singleton_l. Qed.

Lemma softDeleteUser_run {O : Odm} {L : OdmLaws O} id s o :
  isValidObjectId id = true -> castObjectId id = Some o ->
  softDeleteUser id s =
    match update_first (has_id o) {[ "isDelete" := FBool true ]} (users s) with
    | Ok (doc, us) => Ok (user_view (mkStore us (roles s)) <$> doc, mkStore us (roles s))
    | Throw err => Throw err
    end.
Proof.
  intros Hv Ho. unfold softDeleteUser, findByIdAndUpdate. rewrite Hv, Ho.
  cbn [negb].
  rewrite (cast_fields_singleton user_paths "isDelete" (VBool true) (FBool true))
    by (done || apply cast_isDelete).
  rewrite (bool_decide_eq_true_2 _ isDelete_path).
  unfold mbind, outcome_bind. cbv beta iota.
  destruct (update_first _ _ _) as [[doc us]|err]; [|done].
  cbv zeta. by rewrite strip_populate.
Qed.

Lemma has_id_false (o : string) (d : doc) :
  has_id o d = false <-> d !! "_id" <> Some (FId o).
Proof. unfold has_id. by rewrite bool_decide_eq_false. Qed.

Lemma has_id_true (o : string) (d : doc) :
  has_id o d = true <-> d !! "_id" = Some (FId o).
Proof. unfold has_id. by rewrite bool_decide_eq_true. Qed.

Lemma update_first_isDelete {O : Odm} P (coll pre post : list doc) (d : doc) :
  split_first P coll = Some (pre, d, post) ->
  update_first P {[ "isDelete" := FBool true ]} coll =
    Ok (Some (<["isDelete" := FBool true]> d),
        (pre ++ <["isDelete" := FBool true]> d :: post)%list).
Proof.
  intros Hs. rewrite (update_first_plain _ _ _ pre d post Hs).
  - by rewrite isDelete_set_union.
  - rewrite isDelete_set_union. unfold get. by rewrite lookup_insert_ne.
  - rewrite isDelete_set_union. unfold get. by rewrite lookup_insert_ne.
Qed.

Lemma softDeleteUser_eq {O : Odm} {L : OdmLaws O} id s o :
  isValidObjectId id = true -> castObjectId id = Some o ->
  softDeleteUser id s =
    match split_first (has_id o) (users s) with
    | None => Ok (None, s)
    | Some (pre, d, post) =>
        let d' := <["isDelete" := FBool true]> d in
        let s' := mkStore (pre ++ d' :: post) (roles s) in
        Ok (Some (user_view s' d'), s')
    end.
Proof.
  intros Hv Ho. rewrite (softDeleteUser_run id s o Hv Ho).
  destruct (split_first (has_id o) (users s)) as [[[pre d] post]|] eqn:Hs.
  - by rewrite (update_first_isDelete _ _ pre post d Hs).
  - unfold update_first. rewrite Hs. by rewrite store_eta.
Qed.

Lemma softDeleteUser_uncast {O : Odm} id s :
  isValidObjectId id = true -> castObjectId id = None ->
  softDeleteUser id s = Throw (StoreError (CastError "_id")).
Proof. intros Hv Ho. unfold softDeleteUser, findByIdAndUpdate. by rewrite Hv, Ho. Qed.

(** X1. [softDeleteUser], case by case.  An id that is not valid, or that
    no stored user has, gives no result and leaves the store as it is; the
    id of a stored user sets that user's [isDelete] to true, changes no
    other field and no other record, and returns the updated user.  The
    call fails in one case only, with the cast error on [_id]: an id that
    [isValidObjectId] accepts and that cannot be cast, as a number can be;
    on a string, which is what a path parameter is, it never fails. *)
Theorem softDeleteUser_effect {O : Odm} {L : OdmLaws O} (s : store) (id : jsval) :
  (isValidObjectId id = false -> softDeleteUser id s = Ok (None, s)) /\
  (forall o, isValidObjectId id = true -> castObjectId id = Some o ->
     ((forall d, In d (users s) -> d !! "_id" <> Some (FId o)) ->
      softDeleteUser id s = Ok (None, s)) /\
     (forall pre d post,
         users s = (pre ++ d :: post)%list -> d !! "_id" = Some (FId o) ->
         (forall x, In x pre -> x !! "_id" <> Some (FId o)) ->
         let d' := <["isDelete" := FBool true]> d in
         let s' := mkStore (pre ++ d' :: post) (roles s) in
         softDeleteUser id s = Ok (Some (user_view s' d'), s') /\
         user_view s' d' !! "isDelete" = Some (RField (FBool true)) /\
         (forall k, k <> "isDelete" -> d' !! k = d !! k))) /\
  (forall e, softDeleteUser id s = Throw e ->
     isValidObjectId id = true /\ castObjectId id = None /\
     e = StoreError (CastError "_id")) /\
  (forall i, id = VStr i -> exists r, softDeleteUser id s = Ok r).
Proof.
  assert (isValidObjectId id = false -> softDeleteUser id s = Ok (None, s)) as Hbad.
  { intros H. unfold softDeleteUser. by rewrite H. }
  pose proof (fun o => softDeleteUser_eq id s o) as Hrun.
  assert (forall o, isValidObjectId id = true -> castObjectId id = Some o ->
            exists r, softDeleteUser id s = Ok r) as Hok.
  { intros o Hv Ho. rewrite (Hrun o Hv Ho).
    destruct (split_first _ _) as [[[pre d] post]|]; by eauto. }
  split; [exact Hbad|]. split; [|split].
  - intros o Hv Ho. rewrite (Hrun o Hv Ho). split.
    + intros Hnone. rewrite (proj2 (split_first_None _ _)); [done|].
      intros x Hx. by apply has_id_false, Hnone.
    + intros pre d post Hs Hd Hpre d' s'. split; [|split].
      * rewrite Hs, (split_first_intro (has_id o) pre post d); [done| |by apply has_id_true].
        intros x Hx. by apply has_id_false, Hpre.
      * rewrite user_view_lookup by done. unfold d'. by rewrite lookup_insert_eq.
      * intros k Hk. by apply lookup_insert_ne.
  - intros e H. destruct (isValidObjectId id) eqn:Hv.
    + destruct (castObjectId id) as [o|] eqn:Ho.
      * destruct (Hok o eq_refl eq_refl) as [r E]. rewrite E in H. discriminate H.
      * rewrite (softDeleteUser_uncast id s Hv Ho) in H. by injection H as <-.
    + rewrite (Hbad eq_refl) in H. discriminate H.
  - intros i ->. destruct (isValidObjectId (VStr i)) eqn:Hv; [|by eauto].
    destruct (valid_id_casts i Hv) as [o Ho]. by apply (Hok o).
Qed.

Lemma softDeleteUser_witness :
  let d' := <["isDelete" := FBool true]> Sample.alice in
  let s' := mkStore ([] ++ d' :: [Sample.bob; Sample.carol]) (roles Sample.db) in
  softDeleteUser (O:=Mongoose.odm) (VStr "64a000000000000000000001") Sample.db =
    Ok (Some (user_view s' d'), s').
Proof.
  intros d' s'.
  destruct (softDeleteUser_effect (O:=Mongoose.odm) (L:=mongoose_laws) Sample.db
              (VStr "64a000000000000000000001")) as (_ & H & _).
  destruct (H "64a000000000000000000001" eq_refl eq_refl) as (_ & Hsome).
  apply (Hsome [] Sample.alice [Sample.bob; Sample.carol]).
  - reflexivity.
  - vm_compute. reflexivity.
  - intros x [].
Defined.

(** A successful [softDeleteUser] that returns a record, taken apart. *)
Lemma softDeleteUser_Some {O : Odm} {L : OdmLaws O} id s x s' :
  softDeleteUser id s = Ok (Some x, s') ->
  exists o pre d post,
    isValidObjectId id = true /\ castObjectId id = Some o /\
    users s = (pre ++ d :: post)%list /\ d !! "_id" = Some (FId o) /\
    (forall y, In y pre -> y !! "_id" <> Some (FId o)) /\
    s' = mkStore (pre ++ <["isDelete" := FBool true]> d :: post) (roles s) /\
    x = user_view s' (<["isDelete" := FBool true]> d).
Proof.
  intros H. destruct (isValidObjectId id) eqn:Hv.
  2:{ unfold softDeleteUser in H. rewrite Hv in H. discriminate H. }
  destruct (castObjectId id) as [o|] eqn:Ho;
    [|rewrite (softDeleteUser_uncast id s Hv Ho) in H; discriminate H].
  rewrite (softDeleteUser_run id s o Hv Ho) in H.
  destruct (split_first (has_id o) (users s)) as [[[pre d] post]|] eqn:Hs.
  - rewrite (update_first_isDelete _ _ pre post d Hs) in H.
    apply Ok_inj in H. injection H as <- <-.
    apply split_first_app in Hs as (Hs & Hd & Hpre).
    exists o, pre, d, post. repeat split; try done.
    + by apply has_id_true.
    + intros y Hy. by apply has_id_false, Hpre.
  - unfold update_first in H. rewrite Hs in H. discriminate H.
Qed.

Lemma ids_insert_other (pre post : list doc) (d : doc) (k : string) (f : field) :
  k <> "_id" ->
  ids (pre ++ <[k := f]> d :: post) = ids (pre ++ d :: post).
Proof.
  intros Hk. unfold ids. rewrite !fmap_app, !fmap_cons. by rewrite lookup_insert_ne.
Qed.

(** Every item of a listing of users, and the record found by username, is
    the view of a live stored user. *)
Lemma listed_live {O : Odm} {L : OdmLaws O} page limit_ username fullName s r y :
  getAllUsers page limit_ username fullName s = Ok r -> In y (items_of r) ->
  exists d, y = user_view s d /\ In d (users s) /\ get d "isDelete" = FBool false.
Proof.
  intros H Hy. destruct (getAllUsers_items _ _ _ _ _ _ H) as (q & Hq & Hitems).
  destruct (Hitems y Hy) as (d & -> & Hin & Hm).
  apply compile_users_query in Hq as [q' ->].
  exists d. repeat split; [done|]. simpl in Hm. apply andb_true_iff in Hm as [Hm _].
  by apply bool_decide_eq_true in Hm.
Qed.

(** X2. After a successful [softDeleteUser], the user is an item of no
    [getAllUsers] listing and is never returned by [getUserByUsername], and
    [getUserById] returns exactly the record that [softDeleteUser]
    returned. *)
Theorem softDelete_then_reads {O : Odm} {L : OdmLaws O}
    (s s' : store) (id : jsval) (o : string) (x : leanobj) :
  NoDup (ids (users s)) -> castObjectId id = Some o -> valid_id o ->
  softDeleteUser id s = Ok (Some x, s') ->
  (forall page limit_ username fullName r y,
      getAllUsers page limit_ username fullName s' = Ok r -> In y (items_of r) ->
      y !! "_id" <> Some (RField (FId o))) /\
  (forall username y,
      getUserByUsername username s' = Ok (Some y) ->
      y !! "_id" <> Some (RField (FId o))) /\
  getUserById (VStr o) s' = Ok (Some x).
Proof.
  intros Hnd Ho [Hvalid Hcast] H.
  apply softDeleteUser_Some in H as (o' & pre & d & post & _ & Ho' & Hs & Hid & _ & -> & ->).
  assert (o' = o) as -> by congruence.
  set (d' := <["isDelete" := FBool true]> d).
  set (s' := mkStore (pre ++ d' :: post) (roles s)).
  assert (NoDup (ids (users s'))) as Hnd'.
  { simpl. unfold d'. rewrite ids_insert_other by done. by rewrite <- Hs. }
  assert (In d' (users s')) as Hin' by (simpl; apply in_or_app; right; by left).
  assert (d' !! "_id" = Some (FId o)) as Hid' by (unfold d'; by rewrite lookup_insert_ne).
  assert (forall e, In e (users s') -> get e "isDelete" = FBool false ->
            user_view s' e !! "_id" <> Some (RField (FId o))) as Hlive.
  { intros e He Hlive. rewrite user_view_lookup by done. intros Hsame.
    destruct (e !! "_id") as [f|] eqn:Hide; [|discriminate]. injection Hsame as ->.
    assert (e = d') as -> by (eapply same_id_same_doc; eauto; congruence).
    unfold get, d' in Hlive. by rewrite lookup_insert_eq in Hlive. }
  split; [|split].
  - intros page limit_ username fullName r y Hr Hy.
    destruct (listed_live _ _ _ _ _ _ _ Hr Hy) as (e & -> & He & Hl). by apply Hlive.
  - intros username y Hy.
    apply getUserByUsername_inv in Hy as (e & -> & He & Hl). by apply Hlive.
  - rewrite getUserById_eq, Hvalid, Hcast. cbn [mbind option_bind].
    by rewrite (find_has_id_NoDup o (users s') d').
Qed.

(** X3. [softDeleteUser] is idempotent: repeating a successful call on the
    store it produced returns the same result and the same store. *)
Theorem softDeleteUser_idempotent {O : Odm} {L : OdmLaws O}
    (s s' : store) (id : jsval) (r : option leanobj) :
  softDeleteUser id s = Ok (r, s') -> softDeleteUser id s' = Ok (r, s').
Proof.
  intros H. destruct r as [x|].
  - apply softDeleteUser_Some in H as (o & pre & d & post & Hv & Ho & Hs & Hid & Hpre & -> & ->).
    rewrite (softDeleteUser_eq id _ o Hv Ho). cbn [users roles].
    rewrite (split_first_intro (has_id o) pre post (<["isDelete" := FBool true]> d)).
    + cbv zeta. by rewrite insert_insert_eq.
    + intros y Hy. by apply has_id_false, Hpre.
    + apply has_id_true. by rewrite lookup_insert_ne.
  - assert (s' = s) as ->; [|done].
    destruct (isValidObjectId id) eqn:Hv.
    2:{ unfold softDeleteUser in H. rewrite Hv in H. apply Ok_inj in H. congruence. }
    destruct (castObjectId id) as [o|] eqn:Ho;
      [|rewrite (softDeleteUser_uncast id s Hv Ho) in H; discriminate H].
    rewrite (softDeleteUser_run id s o Hv Ho) in H.
    destruct (update_first _ _ _) as [[doc us]|] eqn:Hup; [|discriminate].
    apply Ok_inj in H. injection H as Hdoc <-.
    destruct doc; [discriminate|].
    apply update_first_Ok in Hup as [(_ & -> & _)|(? & ? & ? & _ & _ & _ & ? & _)];
      [by rewrite store_eta | discriminate].
Qed.

(** ** The indexes are kept *)

Lemma id_not_a_path : "_id" ∉ user_paths.
Proof.
  unfold user_paths. intros H.
  repeat (apply elem_of_cons in H as [H|H]; [discriminate H|]).
  by apply elem_of_nil in H.
Qed.

Lemma keys_middle (k : string) (pre post : list doc) (d : doc) :
  keys k (pre ++ d :: post) ≡ₚ get d k :: keys k (pre ++ post).
Proof.
  unfold keys. rewrite !fmap_app, fmap_cons. symmetry. apply Permutation_middle.
Qed.

Lemma not_collides_not_in (k : string) (others : list doc) (d : doc) :
  existsb (fun e => bool_decide (get e k = get d k)) others = false ->
  get d k ∉ keys k others.
Proof.
  intros H Hin. unfold keys in Hin. apply list_elem_of_fmap in Hin as (e & He & Hin).
  apply list_elem_of_In in Hin.
  assert (existsb (fun e => bool_decide (get e k = get d k)) others = true) as E;
    [|congruence].
  apply existsb_exists. exists e. split; [done|]. by apply bool_decide_eq_true.
Qed.

Lemma dup_key_None (paths : list string) (others : list doc) (d : doc) (k : string) :
  dup_key paths others d = None -> In k paths -> get d k ∉ keys k others.
Proof.
  intros H Hk. apply not_collides_not_in.
  exact (find_none _ _ H k Hk).
Qed.

Section IndexesKept.
Context {O : Odm}.

Lemma update_first_keeps_ids P set' coll r coll' :
  update_first P set' coll = Ok (r, coll') -> set' !! "_id" = None ->
  ids coll' = ids coll.
Proof.
  intros H Hid.
  apply update_first_Ok in H as [(_ & -> & _)|(pre & d & post & -> & _ & _ & _ & ->)];
    [done|].
  unfold ids. rewrite !fmap_app, !fmap_cons. by rewrite lookup_union_r.
Qed.

Lemma update_first_keeps_keys P set' coll r coll' k :
  update_first P set' coll = Ok (r, coll') -> In k unique_paths ->
  NoDup (keys k coll) -> NoDup (keys k coll').
Proof.
  unfold update_first. intros H Hk Hnd.
  destruct (split_first P coll) as [[[pre d] post]|] eqn:Hs.
  2:{ apply Ok_inj in H. by injection H as _ <-. }
  destruct (dup_key _ _ _) eqn:Hd; [discriminate|].
  apply Ok_inj in H. injection H as _ <-.
  apply split_first_app in Hs as (-> & _ & _).
  rewrite keys_middle in Hnd. rewrite keys_middle.
  apply NoDup_cons in Hnd as [Hfresh Hnd]. apply NoDup_cons. split; [|done].
  destruct (decide (get (set' ∪ d) k = get d k)) as [->|Hne]; [done|].
  apply (dup_key_None _ _ _ k Hd).
  apply filter_In. split; [done|]. by rewrite bool_decide_eq_false_2.
Qed.

Lemma cast_fields_no_id set given :
  cast_fields user_paths set = Ok given -> given !! "_id" = None.
Proof.
  intros H. eapply cast_fields_unset; [exact H|]. left. apply id_not_a_path.
Qed.

Lemma update_first_indexed P set' s r us :
  update_first P set' (users s) = Ok (r, us) -> set' !! "_id" = None ->
  indexed s -> indexed (mkStore us (roles s)).
Proof.
  intros H Hid (Hi & Hu & He). repeat split; simpl.
  - by rewrite (update_first_keeps_ids _ _ _ _ _ H Hid).
  - apply (update_first_keeps_keys _ _ _ _ _ "username" H); [by left | done].
  - apply (update_first_keeps_keys _ _ _ _ _ "email" H); [right; by left | done].
Qed.

Lemma findByIdAndUpdate_indexed id set s r us :
  findByIdAndUpdate id set (users s) = Ok (r, us) ->
  indexed s -> indexed (mkStore us (roles s)).
Proof.
  unfold findByIdAndUpdate. destruct (castObjectId id); [|discriminate].
  intros H Hs. ok_step H.
  eapply update_first_indexed; [exact H | by apply (cast_fields_no_id set) | done].
Qed.

Lemma findOneAndUpdate_indexed q set s r us :
  findOneAndUpdate q set (users s) = Ok (r, us) ->
  indexed s -> indexed (mkStore us (roles s)).
Proof.
  unfold findOneAndUpdate. intros H Hs. ok_step H. ok_step H.
  eapply update_first_indexed; [exact H | by apply (cast_fields_no_id set) | done].
Qed.

Lemma createUser_indexed oid now payload s obj s' :
  Some (FId oid) ∉ ids (users s) ->
  createUser oid now payload s = Ok (obj, s') -> indexed s -> indexed s'.
Proof.
  intros Hfresh H (Hi & Hu & He).
  unfold createUser in H. destruct (negb _ || _ || _); [discriminate|].
  ok_step H. apply catch_duplicate_Ok in H. ok_step H.
  destruct a0 as [d us]. apply Ok_inj in H. injection H as _ <-.
  apply User_create_Ok in Ha0 as (given & Hg & -> & -> & Hd).
  assert ((given ∪ user_defaults oid now) !! "_id" = Some (FId oid)) as Hid.
  { rewrite lookup_union_r by (by apply (cast_fields_no_id _ _ Hg)). done. }
  repeat split; simpl.
  - unfold ids. rewrite fmap_app. apply NoDup_app.
    split; [done|]. split; [|apply NoDup_singleton].
    intros x Hx Hx'. apply list_elem_of_singleton in Hx'.
    rewrite Hid in Hx'. by subst.
  - unfold keys. rewrite fmap_app. apply NoDup_app.
    split; [done|]. split; [|apply NoDup_singleton].
    intros x Hx Hx'. apply list_elem_of_singleton in Hx'. subst.
    exact (dup_key_None _ _ _ "username" Hd (or_introl eq_refl) Hx).
  - unfold keys. rewrite fmap_app. apply NoDup_app.
    split; [done|]. split; [|apply NoDup_singleton].
    intros x Hx Hx'. apply list_elem_of_singleton in Hx'. subst.
    exact (dup_key_None _ _ _ "email" Hd (or_intror (or_introl eq_refl)) Hx).
Qed.

End IndexesKept.

(** X4. Every successful write keeps the indexes: if ids, usernames and
    emails were pairwise distinct before [createUser] (given a fresh id),
    [updateUser], [softDeleteUser] or [verifyUser], they are so after. *)
Theorem indexes_preserved {O : Odm} (s : store) :
  indexed s ->
  (forall oid now payload obj s',
      Some (FId oid) ∉ ids (users s) ->
      createUser oid now payload s = Ok (obj, s') -> indexed s') /\
  (forall id updates r s', updateUser id updates s = Ok (r, s') -> indexed s') /\
  (forall id r s', softDeleteUser id s = Ok (r, s') -> indexed s') /\
  (forall email username r s', verifyUser email username s = Ok (r, s') -> indexed s').
Proof.
  intros Hs. split; [|split; [|split]].
  - intros oid now payload obj s' Hfresh H. by apply (createUser_indexed _ _ _ _ _ _ Hfresh H).
  - intros id updates r s' H. unfold updateUser in H. destruct (negb _).
    + apply Ok_inj in H. by injection H as _ <-.
    + ok_step H. apply catch_duplicate_Ok in H. ok_step H.
      destruct a0 as [doc us]. apply Ok_inj in H. injection H as _ <-.
      by apply (findByIdAndUpdate_indexed _ _ _ _ _ Ha0).
  - intros id r s' H. unfold softDeleteUser in H. destruct (negb _).
    + apply Ok_inj in H. by injection H as _ <-.
    + ok_step H. destruct a as [doc us]. apply Ok_inj in H. injection H as _ <-.
      by apply (findByIdAndUpdate_indexed _ _ _ _ _ Ha).
  - intros email username r s' H. unfold verifyUser in H. destruct (negb _ || _).
    + apply Ok_inj in H. by injection H as _ <-.
    + ok_step H. destruct a as [doc us]. apply Ok_inj in H. injection H as _ <-.
      by apply (findOneAndUpdate_indexed _ _ _ _ _ Ha).
Qed.

(** ** Validation and errors of the writes *)

Section Validation.
Context {O : Odm} {L : OdmLaws O}.

(** The role check, by cases.  A role is accepted whenever a role with that
    id is stored, deleted or not; a role that [isValidObjectId] accepts and
    that cannot be cast makes the lookup fail. *)
Lemma check_role_cases role s :
  (isValidObjectId role = false /\ check_role role s = Throw (HttpError 400 "Invalid role id")) \/
  (exists o, isValidObjectId role = true /\ castObjectId role = Some o /\
     (forall rd, In rd (roles s) -> rd !! "_id" <> Some (FId o)) /\
     check_role role s = Throw (HttpError 404 "Role not found")) \/
  (exists o rd, isValidObjectId role = true /\ castObjectId role = Some o /\
     In rd (roles s) /\ rd !! "_id" = Some (FId o) /\ check_role role s = Ok (VId o)) \/
  (isValidObjectId role = true /\ castObjectId role = None /\
   check_role role s = Throw (StoreError (CastError "_id"))).
Proof.
  unfold check_role. destruct (isValidObjectId role) eqn:Hv; [|by left].
  right. unfold findById. destruct (castObjectId role) as [o|] eqn:Ho.
  - cbn [negb mbind outcome_bind].
    destruct (List.find (has_id o) (roles s)) as [rd|] eqn:Hf.
    + right. left. apply find_has_id_In in Hf as [Hin Hid]. exists o, rd.
      repeat split; try done. unfold doc_id. by rewrite Hid.
    + left. exists o. repeat split; try done.
      intros rd Hin. apply has_id_false. exact (find_none _ _ Hf rd Hin).
  - right. right. done.
Qed.

End Validation.

(** X5. [createUser] validates in a fixed order and stores nothing when it
    rejects: a missing [username], [password] or [email] gives 400 whatever
    the rest of the payload; then a role that is not a valid id gives 400
    "Invalid role id"; then a valid role id that no stored role has gives
    404 "Role not found". *)
Theorem createUser_validation {O : Odm} {L : OdmLaws O}
    (oid : string) (now : Z) (payload : gmap string jsval) (s : store) :
  let required :=
    truthy (prop payload "username") && truthy (prop payload "password")
    && truthy (prop payload "email") in
  let role := prop payload "role" in
  (required = false ->
   createUser oid now payload s =
     Throw (HttpError 400 "username, password, and email are required")) /\
  (required = true -> truthy role = true -> isValidObjectId role = false ->
   createUser oid now payload s = Throw (HttpError 400 "Invalid role id")) /\
  (forall o, required = true -> truthy role = true -> isValidObjectId role = true ->
     castObjectId role = Some o ->
     (forall rd, In rd (roles s) -> rd !! "_id" <> Some (FId o)) ->
     createUser oid now payload s = Throw (HttpError 404 "Role not found")).
Proof.
  intros required role.
  assert (negb (truthy (prop payload "username")) || negb (truthy (prop payload "password"))
          || negb (truthy (prop payload "email")) = negb required) as Hreq.
  { unfold required. by destruct (truthy _), (truthy _), (truthy _). }
  split; [|split].
  - intros H. unfold createUser. by rewrite Hreq, H.
  - intros H Hr Hv. unfold createUser. rewrite Hreq, H. fold role. rewrite Hr.
    cbn [negb].
    destruct (check_role_cases role s)
      as [[_ ->]|[(o & Hv' & _)|[(o & rd & Hv' & _)|(Hv' & _)]]];
      [done|congruence..].
  - intros o H Hr Hv Ho Hnone. unfold createUser. rewrite Hreq, H. fold role. rewrite Hr.
    cbn [negb].
    destruct (check_role_cases role s)
      as [[Hv' _]|[(o' & _ & _ & _ & ->)|[(o' & rd & _ & Ho' & Hin & Hid & _)|(_ & Ho' & _)]]];
      [congruence|done| |congruence].
    assert (o' = o) as -> by congruence. by destruct (Hnone rd Hin).
Qed.

Lemma createUser_validation_witness :
  createUser (O:=Mongoose.odm) "64a000000000000000000009" 5000
    {[ "username" := VStr "dave"; "password" := VStr "pw"; "role" := VStr "not-an-id" ]}
    Sample.db
  = Throw (HttpError 400 "username, password, and email are required").
Proof.
  apply (proj1 (createUser_validation (O:=Mongoose.odm) (L:=mongoose_laws) _ _ _ _)).
  vm_compute. reflexivity.
Defined.

Lemma bind_Throw {A B : Type} (m : outcome A) (k : A -> outcome B) (e : error) :
  m ≫= k = Throw e -> m = Throw e \/ exists a, m = Ok a /\ k a = Throw e.
Proof. destruct m as [a|e']; simpl; [by eauto | intros [= ->]; by left]. Qed.

Section WriteErrors.
Context {O : Odm} {L : OdmLaws O}.

Lemma cast_fields_Throw paths set e :
  cast_fields paths set = Throw e -> exists p, In p paths /\ e = StoreError (CastError p).
Proof.
  induction paths as [|k0 paths IH]; simpl; [discriminate|]. intros H.
  assert (cast_fields paths set = Throw e \/
          (exists v, cast k0 v = None /\ e = StoreError (CastError k0)) \/
          (exists v f, cast k0 v = Some f /\
             (r ← cast_fields paths set; Ok (<[k0:=f]> r)) = Throw e)) as Hcases.
  { destruct (set !! k0) as [v|]; [|by left].
    destruct v; try (by left);
      (match type of H with
       | context [cast k0 ?v] => destruct (cast k0 v) as [f|] eqn:Hc
       end;
       [right; right; by eauto | right; left; injection H as <-; by eauto]). }
  destruct Hcases as [H'|[(v & _ & ->)|(v & f & _ & H')]].
  - destruct (IH H') as (p & Hp & ->). exists p. split; [by right | done].
  - exists k0. split; [by left | done].
  - apply bind_Throw in H' as [H'|(a & _ & H')]; [|discriminate].
    destruct (IH H') as (p & Hp & ->). exists p. split; [by right | done].
Qed.

Lemma dup_key_unique_paths others d k :
  dup_key unique_paths others d = Some k -> k = "username" \/ k = "email".
Proof.
  intros H. apply find_some in H as [H _]. destruct H as [<-|[<-|[]]]; auto.
Qed.

Lemma dup_key_changed others d (P : string -> bool) k :
  dup_key (List.filter P unique_paths) others d = Some k -> k = "username" \/ k = "email".
Proof.
  intros H. apply find_some in H as [H _]. apply filter_In in H as [H _].
  destruct H as [<-|[<-|[]]]; auto.
Qed.

Lemma check_role_Throw role s e :
  check_role role s = Throw e ->
  e = HttpError 400 "Invalid role id" \/ e = HttpError 404 "Role not found" \/
  e = StoreError (CastError "_id").
Proof.
  destruct (check_role_cases role s)
    as [[_ ->]|[(o & _ & _ & _ & ->)|[(o & rd & _ & _ & _ & _ & ->)|(_ & _ & ->)]]];
    intros [= <-]; auto.
Qed.

Lemma catch_duplicate_key {A : Type} (k : string) :
  k = "username" \/ k = "email" ->
  catch_duplicate (A:=A) (Throw (StoreError (DuplicateKey (Some [k])))) =
    Throw (HttpError 409 (k ++ " must be unique")).
Proof. by intros [->| ->]. Qed.

End WriteErrors.

Section WriteErrorsTheorem.
Context {O : Odm} {L : OdmLaws O}.

Lemma User_create_Throw oid now fields coll e :
  User_create oid now fields coll = Throw e ->
  (exists p, In p user_paths /\ e = StoreError (CastError p)) \/
  (exists k, (k = "username" \/ k = "email") /\ e = StoreError (DuplicateKey (Some [k]))).
Proof.
  unfold User_create. intros H. apply bind_Throw in H as [H|(given & _ & H)].
  - left. by apply cast_fields_Throw in H.
  - right. cbv zeta in H. destruct (dup_key _ _ _) as [k|] eqn:Hd; [|discriminate].
    injection H as <-. exists k. split; [|done]. by apply dup_key_unique_paths in Hd.
Qed.

Lemma update_first_Throw P set' coll e :
  update_first P set' coll = Throw e ->
  exists k, (k = "username" \/ k = "email") /\ e = StoreError (DuplicateKey (Some [k])).
Proof.
  unfold update_first. destruct (split_first P coll) as [[[pre d] post]|]; [|discriminate].
  cbv zeta. destruct (dup_key _ _ _) as [k|] eqn:Hd; [|discriminate].
  intros [= <-]. exists k. split; [|done]. by apply dup_key_changed in Hd.
Qed.

Lemma conflict_is_write_error k :
  k = "username" \/ k = "email" -> write_error (HttpError 409 (k ++ " must be unique")).
Proof. intros [->| ->]; unfold write_error; auto. Qed.

Lemma validate_set_Throw toSet s e :
  validate_set toSet s = Throw e ->
  e = HttpError 400 "Invalid role id" \/ e = HttpError 404 "Role not found" \/
  e = StoreError (CastError "_id").
Proof.
  unfold validate_set. intros H. apply bind_Throw in H as [H|(a & _ & H)]; [|discriminate].
  destruct (truthy (prop toSet "role")); [|discriminate].
  apply bind_Throw in H as [H|(a & _ & H)]; [|discriminate].
  by apply check_role_Throw in H.
Qed.

End WriteErrorsTheorem.

Section WriteErrorsParts.
Context {O : Odm} {L : OdmLaws O}.

Lemma createUser_errors oid now payload s e :
  createUser oid now payload s = Throw e ->
  e = HttpError 400 "username, password, and email are required" \/ write_error e.
Proof.
  intros H. unfold createUser in H.
  destruct (negb _ || _ || _); [injection H as <-; by left|]. right.
  apply bind_Throw in H as [H|(roleId & _ & H)].
  - destruct (truthy _); [|discriminate].
    apply check_role_Throw in H as [->|[->| ->]]; unfold write_error; auto 10.
  - destruct (User_create oid now _ (users s)) as [[d us]|e'] eqn:Hc; [discriminate|].
    apply User_create_Throw in Hc as [(p & Hp & ->)|(k & Hk & ->)].
    + injection H as <-. unfold write_error. do 5 right. by eauto.
    + cbn [mbind outcome_bind] in H. rewrite (catch_duplicate_key k Hk) in H.
      injection H as <-. by apply conflict_is_write_error.
Qed.

Lemma catch_duplicate_Throw {A : Type} (m : outcome A) (e : error) :
  catch_duplicate m = Throw e ->
  exists e0, m = Throw e0 /\
    e = match err_code_11000 e0 with
        | Some keyPattern => HttpError 409 (dupField keyPattern ++ " must be unique")
        | None => e0
        end.
Proof.
  destruct m as [a|e0]; [discriminate|]. simpl. intros H. exists e0. split; [done|].
  destruct (err_code_11000 e0); by injection H as <-.
Qed.

Lemma findByIdAndUpdate_Throw id set coll e :
  findByIdAndUpdate id set coll = Throw e ->
  e = StoreError (CastError "_id") \/
  (exists p, In p user_paths /\ e = StoreError (CastError p)) \/
  (exists k, (k = "username" \/ k = "email") /\ e = StoreError (DuplicateKey (Some [k]))).
Proof.
  unfold findByIdAndUpdate. destruct (castObjectId id) as [o|].
  - intros H. right. apply bind_Throw in H as [H|(set' & _ & H)].
    + left. by apply cast_fields_Throw in H.
    + right. by apply update_first_Throw in H.
  - intros [= <-]. by left.
Qed.

Lemma updateUser_errors id updates s e :
  updateUser id updates s = Throw e -> write_error e.
Proof.
  unfold updateUser, prepare_update. generalize (pick allowed updates). intros picked.
  destruct (isValidObjectId id) eqn:Hv; [|discriminate]. cbn [negb]. intros H.
  apply bind_Throw in H as [H|(toSet & _ & H)].
  - apply validate_set_Throw in H as [->|[->| ->]]; unfold write_error; auto 10.
  - apply catch_duplicate_Throw in H as (e0 & H & ->).
    apply bind_Throw in H as [H|([doc us] & _ & H)]; [|discriminate].
    apply findByIdAndUpdate_Throw in H as [->|[(p & Hp & ->)|(k & Hk & ->)]].
    + unfold write_error. cbn. auto 10.
    + unfold write_error. do 5 right. by eauto.
    + destruct Hk as [->| ->]; unfold write_error; cbn; auto.
Qed.





End WriteErrorsParts.


(** ** What [createUser] stores *)

(** Closes [k ∉ [k1; ...; kn]] for distinct literal strings. *)
Ltac not_listed :=
  let H := fresh in
  intros H; repeat (apply elem_of_cons in H as [H|H]; [discriminate H|]);
  by apply elem_of_nil in H.

Section Created.
Context {O : Odm} {L : OdmLaws O}.

Lemma new_user_password payload roleId :
  new_user_fields payload roleId !! "password" =
    Some (VStr (bcrypt_hash (ToString (prop payload "password")) 10)).
Proof.
  unfold new_user_fields. rewrite lookup_insert_ne by done. by rewrite lookup_insert_eq.
Qed.

Lemma new_user_role payload roleId :
  new_user_fields payload roleId !! "role" = Some roleId.
Proof.
  unfold new_user_fields. rewrite !lookup_insert_ne by done. by rewrite lookup_insert_eq.
Qed.

Lemma new_user_other payload roleId k :
  k ∉ ["username"; "password"; "email"; "fullName"; "avatarUrl"; "role"; "status"] ->
  new_user_fields payload roleId !! k = None.
Proof.
  intros Hk. unfold new_user_fields.
  repeat (rewrite lookup_insert_ne; [|intros <-; apply Hk; by repeat constructor]).
  apply lookup_singleton_ne. intros <-. apply Hk. by repeat constructor.
Qed.

Lemma password_path : "password" ∈ user_paths.
Proof. unfold user_paths. by repeat constructor. Qed.

Lemma role_path : "role" ∈ user_paths.
Proof. unfold user_paths. by repeat constructor. Qed.

(** A successful [createUser], with everything it has checked. *)
Lemma createUser_inv oid now payload s obj s' :
  createUser oid now payload s = Ok (obj, s') ->
  exists roleId given,
    truthy (prop payload "username") = true /\
    truthy (prop payload "password") = true /\
    truthy (prop payload "email") = true /\
    (if truthy (prop payload "role") then check_role (prop payload "role") s
     else Ok VUndefined) = Ok roleId /\
    cast_fields user_paths (new_user_fields payload roleId) = Ok given /\
    dup_key unique_paths (users s) (given ∪ user_defaults oid now) = None /\
    obj = delete "password" (toObject (given ∪ user_defaults oid now)) /\
    s' = mkStore (users s ++ [given ∪ user_defaults oid now]) (roles s).
Proof.
  unfold createUser.
  destruct (truthy (prop payload "username")); [|discriminate].
  destruct (truthy (prop payload "password")); [|discriminate].
  destruct (truthy (prop payload "email")); [|discriminate].
  cbn [negb orb]. intros H. ok_step H. apply catch_duplicate_Ok in H. ok_step H.
  destruct a0 as [d us]. apply Ok_inj in H. injection H as <- <-.
  apply User_create_Ok in Ha0 as (given & Hg & -> & -> & Hd).
  exists a, given. by repeat split.
Qed.

End Created.

(** X7. The record that a successful [createUser] stores: it is appended
    after the existing users, which are unchanged, as are the roles; it has
    the id and creation time given by the store and is not deleted; its
    [username] and [email] are the trimmed strings of the payload and its
    [password] is the hash, with cost 10, of the payload's password, each
    as cast by the schema; without a role in the payload it has no role,
    and with one its role is the id of a role that is stored. *)
Theorem createUser_stores {O : Odm} {L : OdmLaws O}
    (oid : string) (now : Z) (payload : gmap string jsval) (s s' : store) (obj : leanobj) :
  createUser oid now payload s = Ok (obj, s') ->
  exists d,
    users s' = (users s ++ [d])%list /\ roles s' = roles s /\
    obj = delete "password" (toObject d) /\
    d !! "_id" = Some (FId oid) /\
    d !! "createdAt" = Some (FDate now) /\
    d !! "isDelete" = Some (FBool false) /\
    d !! "username" = cast "username" (VStr (trim (ToString (prop payload "username")))) /\
    d !! "email" = cast "email" (VStr (trim (ToString (prop payload "email")))) /\
    d !! "password" =
      cast "password" (VStr (bcrypt_hash (ToString (prop payload "password")) 10)) /\
    (truthy (prop payload "role") = false -> d !! "role" = None) /\
    (truthy (prop payload "role") = true ->
     exists o rd, In rd (roles s) /\ rd !! "_id" = Some (FId o) /\
                  d !! "role" = cast "role" (VId o)).
Proof.
  intros H.
  apply createUser_inv in H as (roleId & given & _ & _ & _ & Hr & Hc & _ & -> & ->).
  exists (given ∪ user_defaults oid now).
  assert (forall k, k ∉ ["username"; "password"; "email"; "fullName"; "avatarUrl"; "role";
                         "status"] ->
            (given ∪ user_defaults oid now) !! k = user_defaults oid now !! k) as Hdef.
  { intros k Hk. apply lookup_union_r. eapply cast_fields_unset; [exact Hc|].
    right. left. by apply new_user_other. }
  assert (forall k v, k ∈ user_paths -> new_user_fields payload roleId !! k = Some v ->
            v <> VUndefined -> (given ∪ user_defaults oid now) !! k = cast k v) as Hset.
  { intros k v Hk Hv Hne.
    destruct (cast_fields_defined _ _ _ k v Hc Hk Hv Hne) as (f & -> & Hg).
    by apply lookup_union_Some_l. }
  split; [done|]. split; [done|]. split; [done|].
  split; [rewrite Hdef; [done|not_listed]|].
  split; [rewrite Hdef; [done|not_listed]|].
  split; [rewrite Hdef; [done|not_listed]|].
  split; [apply Hset; [apply username_path | apply new_user_username | done]|].
  split; [apply Hset; [apply email_path | apply new_user_email | done]|].
  split; [apply Hset; [apply password_path | apply new_user_password | done]|].
  split.
  - intros Hno. rewrite Hno in Hr. apply Ok_inj in Hr as <-.
    rewrite lookup_union_r; [done|].
    eapply cast_fields_unset; [exact Hc|]. right. right. apply new_user_role.
  - intros Hyes. rewrite Hyes in Hr.
    destruct (check_role_cases (prop payload "role") s)
      as [[_ E]|[(o & _ & _ & _ & E)|[(o & rd & _ & _ & Hin & Hid & E)|(_ & _ & E)]]];
      rewrite E in Hr; try discriminate Hr.
    apply Ok_inj in Hr as <-. exists o, rd. repeat split; try done.
    apply Hset; [apply role_path | apply new_user_role | done].
Qed.

(** ** A created user can be read back *)

Section ReadBack.
Context {O : Odm} {L : OdmLaws O}.

Lemma find_app_last (q : list cond) (coll : list doc) (d : doc) :
  (forall e, In e coll -> matches q e = false) -> matches q d = true ->
  find q (coll ++ [d]) = [d].
Proof.
  intros Hnone Hd. unfold find. rewrite List.filter_app. simpl. rewrite Hd.
  replace (List.filter (matches q) coll) with (@nil doc); [done|].
  symmetry. induction coll as [|e coll IH]; simpl; [done|].
  rewrite (Hnone e (or_introl eq_refl)). apply IH. intros x Hx. apply Hnone. by right.
Qed.

End ReadBack.

(** X8. Reading back by id.  After a successful [createUser] with an id
    that is new to the store and that the mapper accepts, [getUserById] on
    that id returns the created user: the same object as [createUser]
    returned, but for the role, which it resolves. *)
Theorem createUser_then_getUserById {O : Odm} {L : OdmLaws O}
    (oid : string) (now : Z) (payload : gmap string jsval) (s s' : store) (obj : leanobj) :
  NoDup (ids (users s)) -> Some (FId oid) ∉ ids (users s) -> valid_id oid ->
  createUser oid now payload s = Ok (obj, s') ->
  exists x, getUserById (VStr oid) s' = Ok (Some x) /\
            forall k, k <> "role" -> x !! k = obj !! k.
Proof.
  intros Hnd Hfresh [Hvalid Hcast] H.
  pose proof (createUser_indexed _ _ _ _ _ _ Hfresh H) as Hkeep.
  apply createUser_inv in H as (roleId & given & _ & _ & _ & _ & Hc & _ & -> & ->).
  set (d := given ∪ user_defaults oid now).
  assert (d !! "_id" = Some (FId oid)) as Hid.
  { unfold d. rewrite lookup_union_r by (by apply (cast_fields_no_id _ _ Hc)). done. }
  assert (NoDup (ids (users s ++ [d]))) as Hnd'.
  { unfold ids. rewrite fmap_app. apply NoDup_app.
    split; [done|]. split; [|apply NoDup_singleton].
    intros y Hy Hy'. apply list_elem_of_singleton in Hy'. rewrite Hid in Hy'. by subst. }
  exists (user_view (mkStore (users s ++ [d]) (roles s)) d). split.
  - rewrite getUserById_eq, Hvalid, Hcast. cbn [mbind option_bind users].
    rewrite (find_has_id_NoDup oid (users s ++ [d]) d); [done|done| |done].
    apply in_or_app. right. by left.
  - intros k Hk. unfold user_view.
    destruct (decide (k = "password")) as [->|Hp].
    + by rewrite !lookup_delete_eq.
    + rewrite !lookup_delete_ne by done. rewrite populate_lookup_ne by done.
      unfold toObject. by rewrite lookup_fmap.
Qed.

(** X9. Reading back by username.  After a successful [createUser],
    [getUserByUsername] on any non-empty value to compare with (not an array
    or an object of query operators) that the schema casts to the stored
    username returns the created user (the same object, but for the
    resolved role): the unique index has refused every other record with
    that username, deleted ones included. *)
Theorem createUser_then_getUserByUsername {O : Odm} {L : OdmLaws O}
    (oid : string) (now : Z) (payload : gmap string jsval) (s s' : store) (obj : leanobj)
    (u : jsval) :
  createUser oid now payload s = Ok (obj, s') ->
  truthy u = true -> is_query u = false ->
  cast "username" u = cast "username" (VStr (trim (ToString (prop payload "username")))) ->
  exists x, getUserByUsername u s' = Ok (Some x) /\
            forall k, k <> "role" -> x !! k = obj !! k.
Proof.
  intros H Hu Hq Hsame.
  apply createUser_inv in H as (roleId & given & _ & _ & _ & _ & Hc & Hd & -> & ->).
  set (d := given ∪ user_defaults oid now) in *.
  destruct (cast_fields_defined _ _ _ "username" _ Hc username_path
              (new_user_username payload roleId)) as (f & Hf & Hg); [done|].
  assert (get d "username" = f) as Hname.
  { unfold get, d. by rewrite (lookup_union_Some_l _ _ _ _ Hg). }
  assert (get d "isDelete" = FBool false) as Hlive.
  { unfold get, d. rewrite lookup_union_r; [done|].
    eapply cast_fields_unset; [exact Hc|]. right. left. apply new_user_other. not_listed. }
  exists (user_view (mkStore (users s ++ [d]) (roles s)) d). split.
  - unfold getUserByUsername. rewrite Hu. cbn [negb]. unfold findOne.
    cbn [compile_query compile_cond is_query]. rewrite Hq, Hsame, Hf, cast_isDelete.
    cbn [mbind outcome_bind users]. unfold mbind, outcome_bind; cbv beta iota zeta.
    rewrite (find_app_last _ (users s) d).
    + by rewrite strip_populate.
    + intros e He. unfold matches. cbn [forallb matches_cond].
      apply andb_false_intro1. apply bool_decide_eq_false. intros E.
      apply (dup_key_None _ _ _ "username" Hd (or_introl eq_refl)).
      unfold keys. apply list_elem_of_fmap. exists e. split; [congruence|].
      by apply list_elem_of_In.
    + unfold matches. cbn [forallb matches_cond]. rewrite Hname, Hlive.
      by rewrite !bool_decide_eq_true_2.
  - intros k Hk. unfold user_view.
    destruct (decide (k = "password")) as [->|Hp].
    + by rewrite !lookup_delete_eq.
    + rewrite !lookup_delete_ne by done. rewrite populate_lookup_ne by done.
      unfold toObject. by rewrite lookup_fmap.
Qed.

(** ** What an update stores *)

Section Updated.
Context {O : Odm} {L : OdmLaws O}.

(** The [$set] document after the role and password steps. *)
Lemma validate_set_Ok toSet s toSet' :
  validate_set toSet s = Ok toSet' ->
  (forall k, k <> "role" -> k <> "password" -> toSet' !! k = toSet !! k) /\
  (if truthy (prop toSet "role")
   then exists o rd, In rd (roles s) /\ rd !! "_id" = Some (FId o) /\
                     toSet' !! "role" = Some (VId o)
   else toSet' !! "role" = toSet !! "role") /\
  toSet' !! "password" =
    (if truthy (prop toSet "password")
     then Some (VStr (bcrypt_hash (ToString (prop toSet "password")) 10))
     else toSet !! "password").
Proof.
  unfold validate_set. intros H. ok_step H. apply Ok_inj in H.
  assert (prop a "password" = prop toSet "password" /\
          (forall k, k <> "role" -> a !! k = toSet !! k) /\
          (if truthy (prop toSet "role")
           then exists o rd, In rd (roles s) /\ rd !! "_id" = Some (FId o) /\
                             a !! "role" = Some (VId o)
           else a = toSet)) as (Hp & Hother & Hrole).
  { destruct (truthy (prop toSet "role")) eqn:Hr.
    - ok_step Ha. apply Ok_inj in Ha as <-.
      split; [unfold prop; by rewrite lookup_insert_ne|].
      split; [intros k Hk; by rewrite lookup_insert_ne|].
      destruct (check_role_cases (prop toSet "role") s)
        as [[_ E]|[(o & _ & _ & _ & E)|[(o & rd & _ & _ & Hin & Hid & E)|(_ & _ & E)]]];
        rewrite E in Ha0; try discriminate Ha0.
      apply Ok_inj in Ha0 as <-. exists o, rd. by rewrite lookup_insert_eq.
    - apply Ok_inj in Ha as <-. done. }
  rewrite Hp in H. subst toSet'.
  destruct (truthy (prop toSet "password")) eqn:Hpw.
  - split; [intros k Hk Hk'; rewrite lookup_insert_ne by done; by apply Hother|].
    split; [|by rewrite lookup_insert_eq].
    destruct (truthy (prop toSet "role")).
    + destruct Hrole as (o & rd & Hin & Hid & E). exists o, rd.
      by rewrite lookup_insert_ne.
    + subst a. by rewrite lookup_insert_ne.
  - split; [intros k Hk Hk'; by apply Hother|].
    split; [|by apply Hother].
    destruct (truthy (prop toSet "role")); [done|by subst a].
Qed.

Lemma prop_pick (k : string) (updates : gmap string jsval) :
  k ∈ allowed -> prop (pick allowed updates) k = prop updates k.
Proof.
  intros Hk. unfold prop at 1.
  destruct (decide (prop updates k = VUndefined)) as [E|E].
  - rewrite pick_lookup_None by (by right). by rewrite E.
  - by rewrite pick_lookup_Some.
Qed.

(** A successful [updateUser] that found its record. *)
Lemma updateUser_inv id updates s x s' :
  updateUser id updates s = Ok (Some x, s') ->
  exists o toSet set' pre d post,
    isValidObjectId id = true /\ castObjectId id = Some o /\
    validate_set (pick allowed updates) s = Ok toSet /\
    cast_fields user_paths toSet = Ok set' /\
    users s = (pre ++ d :: post)%list /\ has_id o d = true /\
    (forall e, In e pre -> has_id o e = false) /\
    s' = mkStore (pre ++ (set' ∪ d) :: post) (roles s) /\
    x = user_view s' (set' ∪ d).
Proof.
  unfold updateUser, prepare_update. generalize (pick allowed updates). intros picked.
  destruct (isValidObjectId id) eqn:Hv; [|discriminate]. cbn [negb]. intros H.
  ok_step H. apply catch_duplicate_Ok in H. ok_step H. destruct a0 as [doc us].
  apply Ok_inj in H. rewrite strip_populate in H.
  unfold findByIdAndUpdate in Ha0. destruct (castObjectId id) as [o|]; [|discriminate].
  ok_step Ha0.
  apply update_first_Ok in Ha0
    as [(-> & _ & _)|(pre & d & post & Hs & Hd & Hpre & -> & ->)]; [discriminate H|].
  injection H as <- <-. by exists o, a, a0, pre, d, post.
Qed.

End Updated.

(** X10. What a successful [updateUser] stores.  The first record with the
    given id is replaced in place and returned: each supplied field of the
    allow-list other than role and password gets the value the schema casts
    the update to; a truthy role is replaced by the id of a stored role and
    a truthy password by its hash with cost 10, while a supplied but falsy
    role or password (null, the empty string, 0, false) is handed to the
    schema as it is, the password unhashed. *)
Theorem updateUser_stores {O : Odm} {L : OdmLaws O}
    (id : jsval) (updates : gmap string jsval) (s s' : store) (x : leanobj) :
  updateUser id updates s = Ok (Some x, s') ->
  exists o pre d post d',
    castObjectId id = Some o /\
    users s = (pre ++ d :: post)%list /\ d !! "_id" = Some (FId o) /\
    (forall e, In e pre -> e !! "_id" <> Some (FId o)) /\
    users s' = (pre ++ d' :: post)%list /\ roles s' = roles s /\
    x = user_view s' d' /\
    (forall k, k ∈ ["fullName"; "avatarUrl"; "status"; "email"; "username"] ->
       prop updates k <> VUndefined -> d' !! k = cast k (prop updates k)) /\
    (prop updates "password" <> VUndefined ->
       d' !! "password" =
         cast "password"
           (if truthy (prop updates "password")
            then VStr (bcrypt_hash (ToString (prop updates "password")) 10)
            else prop updates "password")) /\
    (prop updates "role" <> VUndefined ->
       if truthy (prop updates "role")
       then exists ro rd, In rd (roles s) /\ rd !! "_id" = Some (FId ro) /\
                          d' !! "role" = cast "role" (VId ro)
       else d' !! "role" = cast "role" (prop updates "role")).
Proof.
  intros H.
  apply updateUser_inv in H
    as (o & toSet & set' & pre & d & post & _ & Ho & Hv & Hc & Hs & Hd & Hpre & -> & ->).
  apply validate_set_Ok in Hv as (Hother & Hrole & Hpw).
  rewrite !prop_pick in * by (unfold allowed; by repeat constructor).
  assert (forall k v, k ∈ user_paths -> toSet !! k = Some v -> v <> VUndefined ->
            (set' ∪ d) !! k = cast k v) as Hset.
  { intros k v Hk Hkv Hne.
    destruct (cast_fields_defined _ _ _ k v Hc Hk Hkv Hne) as (f & -> & Hg).
    by apply lookup_union_Some_l. }
  exists o, pre, d, post, (set' ∪ d).
  split; [done|]. split; [done|]. split; [by apply has_id_true|].
  split; [intros e He; by apply has_id_false, Hpre|].
  split; [done|]. split; [done|]. split; [done|].
  split; [|split].
  - intros k Hk Hne.
    assert (k ∈ allowed /\ k ∈ user_paths /\ k <> "role" /\ k <> "password")
      as (Ha & Hp & Hr & Hw).
    { repeat (apply elem_of_cons in Hk as [->|Hk];
              [unfold allowed, user_paths; repeat split;
               first [discriminate | by repeat constructor]|]).
      by apply elem_of_nil in Hk. }
    apply Hset; [done| |done].
    rewrite Hother by done. by apply pick_lookup_Some.
  - intros Hne. apply Hset; [apply password_path| |].
    + rewrite Hpw. destruct (truthy (prop updates "password")); [done|].
      apply pick_lookup_Some; [unfold allowed; by repeat constructor | done].
    + by destruct (truthy (prop updates "password")).
  - intros Hne. destruct (truthy (prop updates "role")).
    + destruct Hrole as (ro & rd & Hin & Hid & E). exists ro, rd.
      repeat split; try done. apply Hset; [apply role_path | done | done].
    + apply Hset; [apply role_path| |done].
      rewrite Hrole. apply pick_lookup_Some; [unfold allowed; by repeat constructor | done].
Qed.

Lemma find_first (P : doc -> bool) (pre post : list doc) (d : doc) :
  (forall e, In e pre -> P e = false) -> P d = true ->
  List.find P (pre ++ d :: post) = Some d.
Proof.
  intros Hpre Hd. induction pre as [|e pre IH]; simpl; [by rewrite Hd|].
  rewrite (Hpre e (or_introl eq_refl)). apply IH. intros y Hy. apply Hpre. by right.
Qed.

(** X11. Reading back an update.  Whatever [updateUser] returns as the
    updated user is what [getUserById] returns for the same id right
    afterwards. *)
Theorem updateUser_then_getUserById {O : Odm} {L : OdmLaws O}
    (id : jsval) (updates : gmap string jsval) (s s' : store) (x : leanobj) :
  updateUser id updates s = Ok (Some x, s') ->
  getUserById id s' = Ok (Some x).
Proof.
  intros H.
  apply updateUser_inv in H
    as (o & toSet & set' & pre & d & post & Hv & Ho & _ & Hc & Hs & Hd & Hpre & -> & ->).
  rewrite (getUserById_cast id _ o Hv Ho). cbn [users].
  rewrite (find_first (has_id o) pre post (set' ∪ d)); [done|done|].
  apply has_id_true in Hd. apply bool_decide_eq_true.
  rewrite lookup_union_r; [done|]. by apply (cast_fields_no_id _ _ Hc).
Qed.

(** ** Listing roles *)


(** ** The size of a page *)



(** ** Reading page numbers *)



(** ** The HTTP routes *)

Section RouteHelpers.
Context {O : Odm} {L : OdmLaws O}.

Lemma update_first_None P set' coll us :
  update_first P set' coll = Ok (None, us) -> us = coll.
Proof.
  intros H. by apply update_first_Ok in H as [(_ & -> & _)|(pre & d & post & _ & _ & _ & E & _)].
Qed.

Lemma strip_None (rs : list doc) (doc : option doc) :
  strip (populate_role_name rs <$> doc) = None -> doc = None.
Proof. by destruct doc. Qed.

Lemma updateUser_None id updates s s' :
  updateUser id updates s = Ok (None, s') -> s' = s.
Proof.
  unfold updateUser, prepare_update. generalize (pick allowed updates). intros picked.
  destruct (negb _); [by intros [= <-]|]. intros H.
  ok_step H. apply catch_duplicate_Ok in H. ok_step H. destruct a0 as [doc us].
  apply Ok_inj in H. injection H as Hdoc <-. apply strip_None in Hdoc as ->.
  unfold findByIdAndUpdate in Ha0. destruct (castObjectId id); [|discriminate].
  ok_step Ha0. apply update_first_None in Ha0 as ->. apply store_eta.
Qed.

Lemma softDeleteUser_None id s s' :
  softDeleteUser id s = Ok (None, s') -> s' = s.
Proof.
  unfold softDeleteUser. destruct (negb _); [by intros [= <-]|]. intros H.
  ok_step H. destruct a as [doc us].
  apply Ok_inj in H. injection H as Hdoc <-. apply strip_None in Hdoc as ->.
  unfold findByIdAndUpdate in Ha. destruct (castObjectId id); [|discriminate].
  ok_step Ha. apply update_first_None in Ha as ->. apply store_eta.
Qed.

Lemma verifyUser_None email username s s' :
  verifyUser email username s = Ok (None, s') -> s' = s.
Proof.
  unfold verifyUser. destruct (negb _ || _); [by intros [= <-]|]. intros H.
  ok_step H. destruct a as [doc us].
  apply Ok_inj in H. injection H as Hdoc <-. apply strip_None in Hdoc as ->.
  unfold findOneAndUpdate in Ha. ok_step Ha. ok_step Ha.
  apply update_first_None in Ha as ->. apply store_eta.
Qed.

Lemma softDeleteUser_Ok (i : string) s : exists r, softDeleteUser (VStr i) s = Ok r.
Proof.
  set (id := VStr i). destruct (isValidObjectId id) eqn:Hv.
  - destruct (valid_id_casts i Hv) as [o Ho]. rewrite (softDeleteUser_run id s o Hv Ho).
    destruct (split_first (has_id o) (users s)) as [[[pre d] post]|] eqn:Hs.
    + rewrite (update_first_isDelete _ _ pre post d Hs). by eauto.
    + unfold update_first. rewrite Hs. by eauto.
  - unfold softDeleteUser. rewrite Hv. by eauto.
Qed.

Lemma status_or_write_error (e : error) :
  e = HttpError 400 "username, password, and email are required" \/ write_error e ->
  In (Router.status_or e 400) [400; 404; 409].
Proof.
  intros [->|[->|[->|[->|[->|[->|(p & _ & ->)]]]]]]; simpl; auto.
Qed.

End RouteHelpers.

(** X15. The answers of the JSON routes.  Each handler answers with JSON
    and one of a few status codes: [POST /] 201, 400, 404 or 409; [GET /]
    200 or 500; [GET /by-username/:username] 200, 404 or 500; [GET /:id]
    and [DELETE /:id] 200 or 404 only (their 400 branch is never taken: a
    malformed id is a 404); [PUT /:id] 200, 400, 404 or 409;
    [POST /verify] and [POST /activate] 200, 400 or 404.  The reads leave
    the store as it is, and so does every write that does not answer 201
    or 200. *)
Theorem api_status_codes {O : Odm} {L : OdmLaws O}
    (oid : string) (now : Z) (r : Router.request) (s : store) (id username : string) :
  (exists c b s', Router.create_user oid now r s = (Router.Json c b, s') /\
     In c [201; 400; 404; 409] /\ (c <> 201 -> s' = s)) /\
  (exists c b, Router.list_users r s = (Router.Json c b, s) /\ In c [200; 500]) /\
  (exists c b, Router.get_by_username username s = (Router.Json c b, s) /\
     In c [200; 404; 500]) /\
  (exists c b, Router.get_by_id id s = (Router.Json c b, s) /\ In c [200; 404]) /\
  (exists c b s', Router.update_user id r s = (Router.Json c b, s') /\
     In c [200; 400; 404; 409] /\ (c <> 200 -> s' = s)) /\
  (exists c b s', Router.soft_delete id s = (Router.Json c b, s') /\
     In c [200; 404] /\ (c <> 200 -> s' = s)) /\
  (forall fallback,
     exists c b s', Router.verify_with fallback r s = (Router.Json c b, s') /\
       In c [200; 400; 404] /\ (c <> 200 -> s' = s)).
Proof.
  repeat apply conj.
  - unfold Router.create_user.
    destruct (createUser oid now (Router.req_body r) s) as [[user s']|e] eqn:H.
    + eexists _, _, _. split; [done|]. split; [by left | done].
    + eexists _, _, _. split; [done|]. split; [|done].
      apply createUser_errors in H.
      pose proof (status_or_write_error e H) as Hc. simpl in Hc. simpl. tauto.
  - unfold Router.list_users. destruct (getAllUsers _ _ _ _ s);
      eexists _, _; (split; [done|]); simpl; auto.
  - unfold Router.get_by_username. destruct (getUserByUsername _ s) as [[user|]|e];
      eexists _, _; (split; [done|]); simpl; auto.
  - unfold Router.get_by_id. rewrite getUserById_eq.
    destruct (if isValidObjectId (VStr id) then _ else _) as [user|];
      eexists _, _; (split; [done|]); simpl; auto.
  - unfold Router.update_user.
    destruct (updateUser (VStr id) (Router.req_body r) s) as [[[user|] s']|e] eqn:H.
    + eexists _, _, _. split; [done|]. split; [by left | done].
    + eexists _, _, _. split; [done|]. split; [simpl; auto|].
      intros _. by apply updateUser_None in H.
    + eexists _, _, _. split; [done|]. split; [|done].
      apply updateUser_errors in H.
      pose proof (status_or_write_error e (or_intror H)) as Hc. simpl in Hc. simpl. tauto.
  - unfold Router.soft_delete. destruct (softDeleteUser_Ok id s) as [[[user|] s'] H];
      rewrite H.
    + eexists _, _, _. split; [done|]. split; [by left | done].
    + eexists _, _, _. split; [done|]. split; [simpl; auto|].
      intros _. by apply softDeleteUser_None in H.
  - intros fallback. unfold Router.verify_with.
    destruct (negb _ || negb _).
    + eexists _, _, _. split; [done|]. split; [simpl; auto | done].
    + destruct (verifyUser _ _ s) as [[[user|] s']|e] eqn:H.
      * eexists _, _, _. split; [done|]. split; [by left | done].
      * eexists _, _, _. split; [done|]. split; [simpl; auto|].
        intros _. by apply verifyUser_None in H.
      * eexists _, _, _. split; [done|]. split; [simpl; auto | done].
Qed.

Lemma eqb_empty_lower (l x : string) :
  String.eqb x "" = true -> String.eqb (lower_string l) (lower_string x) = true -> l = "".
Proof.
  intros Hx Hl. apply String.eqb_eq in Hx as ->. apply String.eqb_eq in Hl.
  by destruct l.
Qed.

Lemma dispatch_get_ui (x : string) :
  lower_string x = "ui" ->
  Router.dispatch Router.GET [x] = Some (Router.GetById, {[ "id" := x ]}).
Proof.
  intros Hx. unfold Router.dispatch, Router.routes.
  cbn [Router.first_match Router.method_eqb Router.match_path].
  assert (String.eqb x "" = false) as ->.
  { apply String.eqb_neq. intros ->. discriminate Hx. }
  rewrite Hx. reflexivity.
Qed.

Lemma dispatch_post_ui_verify (x y : string) :
  lower_string x = "ui" -> lower_string y = "verify" ->
  Router.dispatch Router.POST [x; y] = Some (Router.UiUpdate, {[ "id" := y ]}).
Proof.
  intros Hx Hy. unfold Router.dispatch, Router.routes.
  cbn [Router.first_match Router.method_eqb Router.match_path].
  assert (String.eqb y "" = false) as ->.
  { apply String.eqb_neq. intros ->. discriminate Hy. }
  rewrite Hx, Hy. reflexivity.
Qed.

(** X16. Two UI routes are never reached.  The router takes the first
    matching route, and [GET /:id] is registered before [GET /ui], as
    [POST /ui/:id] is before [POST /ui/verify]: no request at all is handed
    to the handler of the user list page or to the one of the UI's verify
    action.  [GET /ui] is answered by the JSON handler of [GET /:id] with
    the id ["ui"], and [POST /ui/verify] by the update handler with the id
    ["verify"]. *)
Theorem ui_routes_shadowed :
  (forall m path h params,
     Router.dispatch m path = Some (h, params) ->
     h <> Router.UiList /\ h <> Router.UiVerify) /\
  (forall x, lower_string x = "ui" ->
     Router.dispatch Router.GET [x] = Some (Router.GetById, {[ "id" := x ]})) /\
  (forall x y, lower_string x = "ui" -> lower_string y = "verify" ->
     Router.dispatch Router.POST [x; y] = Some (Router.UiUpdate, {[ "id" := y ]})).
Proof.
  split; [|split].
  - intros m path h params H. unfold Router.dispatch, Router.routes in H.
    destruct m; cbn [Router.first_match Router.method_eqb] in H;
      destruct path as [|x [|y [|z [|w rest]]]];
      cbn [Router.match_path fmap option_fmap option_map] in H;
      repeat (match type of H with
              | context [if ?b then _ else _] => destruct b eqn:?
              end; cbn [Router.match_path fmap option_fmap option_map] in H);
      try discriminate H;
      try (injection H as <- _; split; discriminate);
      exfalso;
      repeat match goal with
             | Hx : String.eqb ?x "" = true,
               Hl : String.eqb (lower_string ?l) (lower_string ?x) = true |- _ =>
                 discriminate (eqb_empty_lower l x Hx Hl)
             end.
  - apply dispatch_get_ui.
  - apply dispatch_post_ui_verify.
Qed.

(** X17. What the two shadowed paths do.  With a mapper for which ["ui"]
    and ["verify"] are not object ids (as for any word that is not 24
    hexadecimal digits), [GET /ui] answers 404 [User not found] in JSON
    instead of the list page, and [POST /ui/verify] redirects to the list
    without verifying anyone: the store is unchanged, whatever the body. *)
Theorem shadowed_paths {O : Odm} {L : OdmLaws O}
    (oid : string) (now : Z) (r : Router.request) (s : store) :
  isValidObjectId (VStr "ui") = false ->
  isValidObjectId (VStr "verify") = false ->
  (Router.req_method r = Router.GET -> Router.req_path r = ["ui"] ->
   Router.handle oid now r s =
     Some (Router.Json 404 (Router.JMessage (Router.Text "User not found")), s)) /\
  (Router.req_method r = Router.POST -> Router.req_path r = ["ui"; "verify"] ->
   Router.handle oid now r s = Some (Router.Redirect "/users/ui", s)).
Proof.
  intros Hui Hverify. split; intros Hm Hp; unfold Router.handle; rewrite Hm, Hp.
  - rewrite (dispatch_get_ui "ui" eq_refl).
    cbn [mbind option_bind Router.run]. unfold Router.param.
    rewrite lookup_singleton_eq. change (default "" (Some "ui")) with "ui".
    unfold Router.get_by_id. by rewrite getUserById_eq, Hui.
  - rewrite (dispatch_post_ui_verify "ui" "verify" eq_refl eq_refl).
    cbn [mbind option_bind Router.run]. unfold Router.param.
    rewrite lookup_singleton_eq. change (default "" (Some "verify")) with "verify".
    unfold Router.ui_update, updateUser. by rewrite Hverify.
Qed.

Lemma shadowed_paths_witness :
  Router.handle (O:=Mongoose.odm) "64a000000000000000000009" 5000
    (Router.mkRequest Router.POST ["ui"; "verify"] ∅
       {[ "email" := VStr "carol@example.com"; "username" := VStr "carol" ]})
    Sample.db
  = Some (Router.Redirect "/users/ui", Sample.db).
Proof.
  refine (proj2 (shadowed_paths (O:=Mongoose.odm) (L:=mongoose_laws) _ _ _ _ _ _) _ _);
    reflexivity.
Defined.

Section NoPasswordInReplies.
Context {O : Odm}.

Lemma run_no_password h params oid now r s rp s' :
  Router.run h params oid now r s = (rp, s') ->
  Forall no_password (Router.users_in rp).
Proof.
  destruct h; cbn [Router.run].
  - unfold Router.create_user.
    destruct (createUser _ _ _ _) as [[user s1]|e] eqn:H; intros [= <- _]; [|constructor].
    apply Forall_singleton. by apply createUser_no_password in H.
  - unfold Router.list_users.
    destruct (getAllUsers _ _ _ _ _) as [res|e] eqn:H; intros [= <- _]; [|constructor].
    by apply getAllUsers_no_password in H.
  - unfold Router.get_by_username.
    destruct (getUserByUsername _ _) as [[user|]|e] eqn:H; intros [= <- _];
      [|constructor..].
    apply Forall_singleton. by apply getUserByUsername_no_password in H.
  - unfold Router.get_by_id.
    destruct (getUserById _ _) as [[user|]|e] eqn:H; intros [= <- _]; [|constructor..].
    apply Forall_singleton. by apply getUserById_no_password in H.
  - unfold Router.update_user.
    destruct (updateUser _ _ _) as [[[user|] s1]|e] eqn:H; intros [= <- _];
      [|constructor..].
    apply Forall_singleton. by apply updateUser_no_password in H.
  - unfold Router.soft_delete.
    destruct (softDeleteUser _ _) as [[[user|] s1]|e] eqn:H; intros [= <- _];
      [|constructor..].
    apply Forall_singleton. by apply softDeleteUser_no_password in H.
  - unfold Router.verify, Router.verify_with. destruct (negb _ || negb _).
    + intros [= <- _]. constructor.
    + destruct (verifyUser _ _ _) as [[[user|] s1]|e] eqn:H; intros [= <- _];
        [|constructor..].
      apply Forall_singleton. by apply verifyUser_no_password in H.
  - unfold Router.activate, Router.verify_with. destruct (negb _ || negb _).
    + intros [= <- _]. constructor.
    + destruct (verifyUser _ _ _) as [[[user|] s1]|e] eqn:H; intros [= <- _];
        [|constructor..].
      apply Forall_singleton. by apply verifyUser_no_password in H.
  - unfold Router.ui_list.
    destruct (getAllUsers _ _ _ _ _) as [res|e] eqn:H; intros [= <- _]; [|constructor].
    by apply getAllUsers_no_password in H.
  - unfold Router.ui_new. destruct (Router.form_roles s); intros [= <- _]; constructor.
  - unfold Router.ui_create.
    destruct (createUser _ _ _ _) as [[user s1]|e]; intros [= <- _]; constructor.
  - unfold Router.ui_edit.
    destruct (getUserById _ _) as [[user|]|e] eqn:H; cbn [mbind outcome_bind];
      [destruct (Router.form_roles s) | destruct (Router.form_roles s) |];
      intros [= <- _]; try (by constructor).
    apply Forall_singleton. by apply getUserById_no_password in H.
  - unfold Router.ui_update.
    destruct (updateUser _ _ _) as [[user s1]|e]; intros [= <- _]; constructor.
  - unfold Router.ui_delete.
    destruct (softDeleteUser _ _) as [[user s1]|e]; intros [= <- _]; constructor.
  - unfold Router.ui_verify.
    destruct (verifyUser _ _ _) as [[user s1]|e]; intros [= <- _]; constructor.
Qed.

End NoPasswordInReplies.

(** X18. No reply shows a password.  Whatever the request, the user
    objects in the router's reply (a JSON user, the items of a JSON or
    rendered listing, the user of the edit form) carry no [password],
    neither at the top level nor inside the populated role. *)
Theorem replies_carry_no_password {O : Odm}
    (oid : string) (now : Z) (r : Router.request) (s s' : store) (rp : Router.reply) :
  Router.handle oid now r s = Some (rp, s') ->
  Forall no_password (Router.users_in rp).
Proof.
  unfold Router.handle.
  destruct (Router.dispatch _ _) as [[h params]|]; [|discriminate].
  cbn [mbind option_bind]. intros [= H]. by apply run_no_password in H.
Qed.

(** X19. The roles offered by the user forms.  The list of roles of the
    create and edit forms is always obtained (the read cannot fail): it
    holds stored roles that are not deleted, newest first, and at most 1000
    of them; when more than 1000 roles are live, the older ones are left
    out without notice. *)
Theorem form_roles_shown {O : Odm} {L : OdmLaws O} (s : store) :
  let live := find [CEq "isDelete" (FBool false)] (roles s) in
  Router.form_roles s = Ok (toObject <$> take 1000 (sort_createdAt_desc live)) /\
  (forall rd, In rd (take 1000 (sort_createdAt_desc live)) ->
     In rd (roles s) /\ get rd "isDelete" = FBool false) /\
  ((length live <= 1000)%nat ->
   forall rd, In rd (roles s) -> get rd "isDelete" = FBool false ->
     In rd (take 1000 (sort_createdAt_desc live))) /\
  Router.ui_new s =
    (Router.Render 200 "users/form"
       (Router.UserForm "Create User" None
          (toObject <$> take 1000 (sort_createdAt_desc live))), s).
Proof.
  intros live.
  assert (Router.form_roles s = Ok (toObject <$> take 1000 (sort_createdAt_desc live))) as E.
  { unfold Router.form_roles.
    rewrite (getAllRoles_paged VUndefined VUndefined VUndefined (VNum 1000) s
               [CEq "isDelete" (FBool false)]); [|done|].
    - cbn [mbind outcome_bind]. rewrite !toInt_fallback, parseInt_num.
      change (parseInt VUndefined) with (@None Z). cbv iota.
      change (0 <? 1000) with true. cbv iota.
      rewrite limit_skip_window by done. unfold window.
      change (Z.to_nat ((1 - 1) * 1000)) with 0%nat.
      change (Z.to_nat 1000) with 1000%nat. by rewrite drop_0.
    - rewrite roles_query_eq. apply compile_live. }
  split; [exact E|]. split; [|split].
  - intros rd Hrd. apply list_elem_of_In, elem_of_take in Hrd as (i & Hrd & _).
    apply list_elem_of_lookup_2, list_elem_of_In, In_sort, filter_In in Hrd as [Hin Hm].
    split; [done|]. by apply matches_live.
  - intros Hlen rd Hin Hlive. rewrite take_ge by (rewrite length_sort; lia).
    apply In_sort, filter_In. split; [done|]. by apply matches_live.
  - unfold Router.ui_new. by rewrite E.
Qed.

(** ** The properties on the sample data *)

Lemma sample_ids_NoDup : NoDup (ids (users Sample.db)).
Proof. apply NoDup_ListNoDup. repeat constructor; vm_compute; intuition discriminate. Qed.

Lemma sample_indexed : indexed Sample.db.
Proof.
  repeat split; apply NoDup_ListNoDup; repeat constructor; vm_compute; intuition discriminate.
Qed.

(** The store after carol has been soft-deleted, and the record returned. *)
Lemma sample_softDelete :
  let d' := <["isDelete" := FBool true]> Sample.carol in
  let s' := mkStore [Sample.alice; Sample.bob; d'] (roles Sample.db) in
  softDeleteUser (O:=Mongoose.odm) (VStr "64a000000000000000000003") Sample.db =
    Ok (Some (user_view s' d'), s').
Proof. vm_compute. exact eq_refl. Qed.

Lemma softDelete_then_reads_witness :
  let d' := <["isDelete" := FBool true]> Sample.carol in
  let s' := mkStore [Sample.alice; Sample.bob; d'] (roles Sample.db) in
  getUserById (O:=Mongoose.odm) (VStr "64a000000000000000000003") s' =
    Ok (Some (user_view s' d')).
Proof.
  intros d' s'.
  refine (proj2 (proj2 (softDelete_then_reads (O:=Mongoose.odm) (L:=mongoose_laws)
                          Sample.db s' (VStr "64a000000000000000000003")
                          "64a000000000000000000003" (user_view s' d')
                          sample_ids_NoDup _ _ sample_softDelete))).
  - reflexivity.
  - split; reflexivity.
Defined.

Lemma softDeleteUser_idempotent_witness :
  let d' := <["isDelete" := FBool true]> Sample.carol in
  let s' := mkStore [Sample.alice; Sample.bob; d'] (roles Sample.db) in
  softDeleteUser (O:=Mongoose.odm) (VStr "64a000000000000000000003") s' =
    Ok (Some (user_view s' d'), s').
Proof.
  exact (softDeleteUser_idempotent (O:=Mongoose.odm) (L:=mongoose_laws) _ _ _ _
           sample_softDelete).
Defined.

Lemma indexes_preserved_witness :
  indexed (mkStore [Sample.alice; Sample.bob; <["isDelete" := FBool true]> Sample.carol]
             (roles Sample.db)).
Proof.
  exact (proj1 (proj2 (proj2 (indexes_preserved (O:=Mongoose.odm) Sample.db sample_indexed)))
           _ _ _ sample_softDelete).
Defined.


(** A user created on the sample store, with a role and a username to trim. *)
Lemma sample_createUser :
  let payload : gmap string jsval :=
    {[ "username" := VStr " dave "; "password" := VStr "pw"; "email" := VStr "d@x.com";
       "role" := VStr "64b000000000000000000001" ]} in
  let d : doc :=
    {[ "username" := FStr "dave"; "password" := FStr (Mongoose.bcrypt_hash "pw" 10);
       "email" := FStr "d@x.com"; "role" := FId "64b000000000000000000001" ]}
    ∪ user_defaults "64a000000000000000000009" 5000 in
  createUser (O:=Mongoose.odm) "64a000000000000000000009" 5000 payload Sample.db =
    Ok (delete "password" (toObject d), mkStore (users Sample.db ++ [d]) (roles Sample.db)).
Proof. vm_compute. exact eq_refl. Qed.

Lemma createUser_stores_witness :
  exists d : doc,
    d !! "_id" = Some (FId "64a000000000000000000009") /\
    d !! "isDelete" = Some (FBool false) /\
    d !! "username" = @cast Mongoose.odm "username" (VStr (trim " dave ")).
Proof.
  destruct (createUser_stores (O:=Mongoose.odm) (L:=mongoose_laws) _ _ _ _ _ _
              sample_createUser) as (d & _ & _ & _ & Hid & _ & Hlive & Hname & _).
  exists d. split; [exact Hid|]. split; [exact Hlive | exact Hname].
Defined.

Lemma createUser_then_getUserById_witness :
  let d : doc :=
    {[ "username" := FStr "dave"; "password" := FStr (Mongoose.bcrypt_hash "pw" 10);
       "email" := FStr "d@x.com"; "role" := FId "64b000000000000000000001" ]}
    ∪ user_defaults "64a000000000000000000009" 5000 in
  exists x,
    getUserById (O:=Mongoose.odm) (VStr "64a000000000000000000009")
      (mkStore (users Sample.db ++ [d]) (roles Sample.db)) = Ok (Some x) /\
    forall k, k <> "role" -> x !! k = delete "password" (toObject d) !! k.
Proof.
  intros d.
  refine (createUser_then_getUserById (O:=Mongoose.odm) (L:=mongoose_laws) _ _ _ _ _ _
            sample_ids_NoDup _ _ sample_createUser).
  - vm_compute. intros H. repeat (apply elem_of_cons in H as [H|H]; [discriminate H|]).
    by apply elem_of_nil in H.
  - split; reflexivity.
Defined.

Lemma createUser_then_getUserByUsername_witness :
  let d : doc :=
    {[ "username" := FStr "dave"; "password" := FStr (Mongoose.bcrypt_hash "pw" 10);
       "email" := FStr "d@x.com"; "role" := FId "64b000000000000000000001" ]}
    ∪ user_defaults "64a000000000000000000009" 5000 in
  exists x,
    getUserByUsername (O:=Mongoose.odm) (VStr "dave")
      (mkStore (users Sample.db ++ [d]) (roles Sample.db)) = Ok (Some x) /\
    forall k, k <> "role" -> x !! k = delete "password" (toObject d) !! k.
Proof.
  intros d.
  refine (createUser_then_getUserByUsername (O:=Mongoose.odm) (L:=mongoose_laws) _ _ _ _ _ _
            (VStr "dave") sample_createUser _ _ _); reflexivity.
Defined.

(** An update of alice's name and password on the sample store. *)
Lemma sample_updateUser :
  let updates : gmap string jsval :=
    {[ "fullName" := VStr "X"; "password" := VStr "new"; "isDelete" := VBool true ]} in
  let d' : doc :=
    {[ "fullName" := FStr "X"; "password" := FStr (Mongoose.bcrypt_hash "new" 10) ]}
    ∪ Sample.alice in
  let s' := mkStore [d'; Sample.bob; Sample.carol] (roles Sample.db) in
  updateUser (O:=Mongoose.odm) (VStr "64a000000000000000000001") updates Sample.db =
    Ok (Some (user_view s' d'), s').
Proof. vm_compute. exact eq_refl. Qed.

Lemma updateUser_stores_witness :
  exists d' : doc,
    d' !! "fullName" = @cast Mongoose.odm "fullName" (VStr "X") /\
    d' !! "password" = @cast Mongoose.odm "password" (VStr (Mongoose.bcrypt_hash "new" 10)).
Proof.
  destruct (updateUser_stores (O:=Mongoose.odm) (L:=mongoose_laws) _ _ _ _ _
              sample_updateUser)
    as (o & pre & d & post & d' & _ & _ & _ & _ & _ & _ & _ & Hset & Hpw & _).
  exists d'. split.
  - apply (Hset "fullName"); [left | vm_compute; discriminate].
  - apply Hpw. vm_compute. discriminate.
Defined.

Lemma updateUser_then_getUserById_witness :
  let d' : doc :=
    {[ "fullName" := FStr "X"; "password" := FStr (Mongoose.bcrypt_hash "new" 10) ]}
    ∪ Sample.alice in
  let s' := mkStore [d'; Sample.bob; Sample.carol] (roles Sample.db) in
  getUserById (O:=Mongoose.odm) (VStr "64a000000000000000000001") s' =
    Ok (Some (user_view s' d')).
Proof.
  exact (updateUser_then_getUserById (O:=Mongoose.odm) (L:=mongoose_laws) _ _ _ _ _
           sample_updateUser).
Defined.




Lemma replies_carry_no_password_witness :
  Forall no_password
    (Router.users_in
       (Router.Json 200
          (Router.JUser (user_view Sample.db Sample.alice)))).
Proof.
  refine (replies_carry_no_password (O:=Mongoose.odm) "64a000000000000000000009" 5000
            (Router.mkRequest Router.GET ["64a000000000000000000001"] ∅ ∅)
            Sample.db Sample.db _ _).
  vm_compute. exact eq_refl.
Defined.

Lemma ui_routes_shadowed_witness :
  Router.dispatch Router.GET ["UI"] = Some (Router.GetById, {[ "id" := "UI" ]}).
Proof. apply (proj1 (proj2 ui_routes_shadowed)). reflexivity. Defined.

Lemma form_roles_shown_witness :
  In Sample.admin_role
    (take 1000 (sort_createdAt_desc (find [CEq "isDelete" (FBool false)] (roles Sample.db)))).
Proof.
  apply (proj1 (proj2 (proj2 (form_roles_shown (O:=Mongoose.odm) (L:=mongoose_laws)
                                Sample.db)))).
  - apply Nat.leb_le. vm_compute. exact eq_refl.
  - left. reflexivity.
  - reflexivity.
Defined.

Lemma api_status_codes_witness :
  exists c b s',
    Router.update_user (O:=Mongoose.odm) "not-an-id"
      (Router.mkRequest Router.PUT ["not-an-id"] ∅ {[ "fullName" := VStr "X" ]}) Sample.db =
      (Router.Json c b, s') /\
    In c [200; 400; 404; 409] /\ (c <> 200 -> s' = Sample.db).
Proof.
  exact (proj1 (proj2 (proj2 (proj2 (proj2
           (api_status_codes (O:=Mongoose.odm) (L:=mongoose_laws)
              "64a000000000000000000009" 5000
              (Router.mkRequest Router.PUT ["not-an-id"] ∅ {[ "fullName" := VStr "X" ]})
              Sample.db "not-an-id" "alice")))))).
Defined.
